(** * SigDigger: PanoramicDialog and MainSpectrum

    A shallow embedding of the parts of [Components/PanoramicDialog.cpp] and
    [Components/MainSpectrum.cpp] that carry state-synchronisation rules:
    the persisted dialog configuration, the saved sweep frame, the zoom
    policy of the panoramic dialog, the scan toggle, the gain panel, the
    band-plan loader and the centre/LO frequency setters of the main
    spectrum.

    Conventions.
    - [qint64] and [quint64] values are integers in [Z]; conversions between
      the two are written out with their wrap-around ([to_qint64],
      [to_quint64]).  Signed arithmetic is carried out in [Z]: signed
      overflow is undefined in C++ and is not given a meaning here.
    - [SUFLOAT], [float] and [SUFREQ] (double) values that the code only
      stores, compares with integers and truncates to integers are
      rationals in [Q]; those three operations are exact on the values a
      spin box can hold.
    - Where the code computes in single precision and the result decides a
      branch (the zoom threshold of the panoramic dialog), the computation
      is carried out in IEEE 754 binary32 with rounding to nearest, ties to
      even ([f32_of_Z], [f32_mul], [f32_div], [f32_leb]).
    - [QString] and [std::string] are [string].
    - Calls on collaborators whose effect is only observable outside these
      two files (message boxes, emitted signals, widget deletion) are
      appended to a log carried by the state. *)

From Stdlib Require Import ZArith QArith Qround Qabs Lqa SpecFloat.
From stdpp Require Import gmap strings pretty list fin_maps.

Local Open Scope Z_scope.
Local Open Scope string_scope.

(** ** Machine integers and floating-point values *)

Definition to_quint64 (z : Z) : Z := z mod 2 ^ 64.

Definition to_qint64 (z : Z) : Z := (z + 2 ^ 63) mod 2 ^ 64 - 2 ^ 63.

(** [static_cast<int>] of a 64-bit integer. *)
Definition to_int (z : Z) : Z := (z + 2 ^ 31) mod 2 ^ 32 - 2 ^ 31.

Definition SUFLOAT : Type := Q.
Definition SUFREQ : Type := Q.

(** [static_cast<qint64>(double)]: truncation towards zero. *)
Definition Qtrunc_qint64 (x : Q) : Z := Qnum x ÷ Zpos (Qden x).

(** [a < x] and [a > x] for an integer [a] and a double [x]. *)
Definition Zlt_double (a : Z) (x : Q) : bool := negb (Qle_bool x (inject_Z a)).
Definition Zgt_double (a : Z) (x : Q) : bool := negb (Qle_bool (inject_Z a) x).

(** Single-precision floats: 24 bits of precision, exponents below 128.
    [f32_of_Z] is the conversion of an integer to [float]. *)
Definition f32_of_Z (z : Z) : spec_float := binary_normalize 24 128 z 0 false.
Definition f32_mul (x y : spec_float) : spec_float := SFmul 24 128 x y.
Definition f32_div (x y : spec_float) : spec_float := SFdiv 24 128 x y.
Definition f32_leb (x y : spec_float) : bool := SFleb x y.

(** ** The configuration object store *)

Module Suscan.

(** Modelled from the spec: [Suscan::Object] is not part of these two
    files.  The spec describes it as a structured configuration object
    store with typed fields; it is an ordered sequence of named, typed
    fields in which [set] replaces the field of that name or appends a new
    one, and [get] returns the stored value of the requested type or the
    supplied default. *)
Inductive FieldValue : Type :=
| VBool (b : bool)
| VInt (z : Z)
| VFloat (q : Q)
| VString (s : string).

Record Object : Type := mkObject {
  objClass : string;
  objFields : list (string * FieldValue)
}.

Definition emptyObject : Object := mkObject "" [].

Definition setClass (c : string) (o : Object) : Object :=
  mkObject c (objFields o).

Fixpoint set_field (name : string) (v : FieldValue)
    (l : list (string * FieldValue)) : list (string * FieldValue) :=
  match l with
  | [] => [(name, v)]
  | (n, w) :: l' =>
      if String.eqb n name then (n, v) :: l'
      else (n, w) :: set_field name v l'
  end.

Fixpoint lookup_field (name : string)
    (l : list (string * FieldValue)) : option FieldValue :=
  match l with
  | [] => None
  | (n, w) :: l' => if String.eqb n name then Some w else lookup_field name l'
  end.

Definition set (name : string) (v : FieldValue) (o : Object) : Object :=
  mkObject (objClass o) (set_field name v (objFields o)).

Definition field (name : string) (o : Object) : option FieldValue :=
  lookup_field name (objFields o).

Definition get_bool (name : string) (dfl : bool) (o : Object) : bool :=
  match field name o with Some (VBool b) => b | _ => dfl end.

Definition get_int (name : string) (dfl : Z) (o : Object) : Z :=
  match field name o with Some (VInt z) => z | _ => dfl end.

Definition get_float (name : string) (dfl : Q) (o : Object) : Q :=
  match field name o with Some (VFloat q) => q | _ => dfl end.

Definition get_string (name : string) (dfl : string) (o : Object) : string :=
  match field name o with Some (VString s) => s | _ => dfl end.

Definition getFieldCount (o : Object) : nat := length (objFields o).

Definition getFieldByIndex (i : nat) (o : Object) : option (string * FieldValue) :=
  objFields o !! i.

End Suscan.

(** ** PanoramicDialogConfig *)

Module PanoramicDialogConfig.
Import Suscan.

Record t : Type := mk {
  fullRange : bool;
  rangeMin : SUFREQ;
  rangeMax : SUFREQ;
  panRangeMin : SUFLOAT;
  panRangeMax : SUFLOAT;
  lnbFreq : SUFREQ;
  device : string;
  sampRate : Z;
  strategy : string;
  partitioning : string;
  palette : string;
  gains : gmap string SUFLOAT
}.

Definition with_gains (g : gmap string SUFLOAT) (c : t) : t :=
  mk (fullRange c) (rangeMin c) (rangeMax c) (panRangeMin c) (panRangeMax c)
     (lnbFreq c) (device c) (sampRate c) (strategy c) (partitioning c)
     (palette c) g.

(** ["gain." + dev + "." + name] *)
Definition fullName (dev name : string) : string :=
  "gain." +:+ dev +:+ "." +:+ name.

Definition hasGain (dev name : string) (c : t) : bool :=
  bool_decide (is_Some (gains c !! fullName dev name)).

Definition getGain (dev name : string) (c : t) : SUFLOAT :=
  match gains c !! fullName dev name with
  | None => 0%Q
  | Some val => val
  end.

Definition setGain (dev name : string) (val : SUFLOAT) (c : t) : t :=
  with_gains (<[fullName dev name := val]> (gains c)) c.

(** [name.substr(0, 5) == "gain."] *)
Definition is_gain_key (name : string) : bool :=
  String.eqb (String.substring 0 5 name) "gain.".

(** The body of the loop of [deserialize], for the field that
    [getFieldByIndex(i)] yields. *)
Definition load_field (conf : Object) (g : gmap string SUFLOAT)
    (f : option (string * FieldValue)) : gmap string SUFLOAT :=
  match f with
  | Some (name, _) =>
      if is_gain_key name then <[name := get_float name 0%Q conf]> g else g
  | None => g
  end.

Definition load_gain (conf : Object) (g : gmap string SUFLOAT) (i : nat)
    : gmap string SUFLOAT :=
  load_field conf g (getFieldByIndex i conf).

Definition deserialize (conf : Object) (c : t) : t :=
  let fullRange' := get_bool "fullRange" (fullRange c) conf in
  let rangeMin' := get_float "rangeMin" (rangeMin c) conf in
  let rangeMax' := get_float "rangeMax" (rangeMax c) conf in
  let panRangeMin' := get_float "panRangeMin" (panRangeMin c) conf in
  let panRangeMax' := get_float "panRangeMax" (panRangeMax c) conf in
  let lnbFreq' := get_float "lnbFreq" (lnbFreq c) conf in
  let device' := get_string "device" (device c) conf in
  let sampRate' := get_int "sampRate" (sampRate c) conf in
  let strategy' := get_string "strategy" (strategy c) conf in
  let partitioning' := get_string "partitioning" (partitioning c) conf in
  let palette' := get_string "palette" (palette c) conf in
  mk fullRange' rangeMin' rangeMax' panRangeMin' panRangeMax' lnbFreq'
     device' sampRate' strategy' partitioning' palette'
     (fold_left (load_gain conf) (seq 0 (getFieldCount conf)) (gains c)).

(** The body of [serialize] up to the loop over the gains. *)
Definition store_fields (c : t) : Object :=
  let obj := setClass "PanoramicDialogConfig" emptyObject in
  let obj := set "fullRange" (VBool (fullRange c)) obj in
  let obj := set "rangeMin" (VFloat (rangeMin c)) obj in
  let obj := set "rangeMax" (VFloat (rangeMax c)) obj in
  let obj := set "panRangeMin" (VFloat (panRangeMin c)) obj in
  let obj := set "panRangeMax" (VFloat (panRangeMax c)) obj in
  let obj := set "lnbFreq" (VFloat (lnbFreq c)) obj in
  let obj := set "sampRate" (VInt (sampRate c)) obj in
  let obj := set "device" (VString (device c)) obj in
  let obj := set "strategy" (VString (strategy c)) obj in
  let obj := set "partitioning" (VString (partitioning c)) obj in
  set "palette" (VString (palette c)) obj.

(** [for (auto p : this->gains) obj.set(p.first, p.second)].  The order in
    which [map_to_list] enumerates the entries is not the key order of
    [std::map]; no statement below depends on the order.  [persist] hands
    the object over to the caller unchanged. *)
Definition serialize (c : t) : Object :=
  fold_left (fun obj p => set p.1 (VFloat p.2) obj)
            (map_to_list (gains c)) (store_fields c).

(** A freshly constructed configuration has an empty gain map.  The class
    declaration with the initial values of the other members is not in
    these files, so they are left to the caller. *)
Definition fresh (init : t) : t := with_gains ∅ init.

(** Every key of the gain map passes the filter of [deserialize]. *)
Definition gain_keys_prefixed (c : t) : Prop :=
  ∀ k, is_Some (gains c !! k) → is_gain_key k = true.

End PanoramicDialogConfig.

(** ** The device abstraction *)

Module Source.

(** Modelled from the spec: [Suscan::Source::Device] and its gain
    descriptions are not part of these two files.  The spec names them as
    the device abstraction that enumerates devices, gains and frequency
    limits; a device is the record of what the dialog reads from it. *)
Record GainDescription : Type := mkGain {
  gainName : string;
  gainDefault : SUFLOAT
}.

Record Device : Type := mkDevice {
  devDesc : string;
  devDriver : string;
  devMinFreq : SUFREQ;
  devMaxFreq : SUFREQ;
  devGains : list GainDescription
}.

End Source.

(** ** SavedSpectrum *)

Module SavedSpectrum.

Record t : Type := mk {
  start : Z;
  end_ : Z;
  data : list SUFLOAT
}.

(** [data.assign(data, data + size)] copies the first [size] samples of
    the caller's buffer. *)
Definition set (start end_ : Z) (buf : list SUFLOAT) (size : nat) (_ : t) : t :=
  mk start end_ (take size buf).

(** The files reachable through [std::ofstream]: which paths can be opened
    for writing, and the contents of the files written so far. *)
Record FileSystem : Type := mkFs {
  openable : string -> bool;
  files : gmap string string
}.

Definition nl : string := String (Ascii.ascii_of_nat 10) EmptyString.

Section ExportToFile.
(** [operator<<] on a [float] with [setprecision(digits10)].  The text
    it produces is fixed by the C++ library and is left open here. *)
Variable show_float : SUFLOAT -> string.

(** The stream insertions of [exportToFile], in program order; [out] is
    the text written so far. *)
Definition write_all (s : t) : string :=
  let out := "" in
  let out := out +:+ "%" +:+ nl in
  let out := out +:+ "% Panoramic Spectrum file generated by SigDigger" +:+ nl in
  let out := out +:+ "%" +:+ nl +:+ nl in
  let out := out +:+ "freqMin = " +:+ pretty (start s) +:+ ";" +:+ nl in
  let out := out +:+ "freqMax = " +:+ pretty (end_ s) +:+ ";" +:+ nl in
  let out := out +:+ "PSD = [ " in
  let out := fold_left (fun out p => out +:+ show_float p +:+ " ") (data s) out in
  out +:+ "];" +:+ nl.

Definition exportToFile (path : string) (s : t) (fs : FileSystem)
    : bool * FileSystem :=
  if negb (openable fs path) then (false, fs)
  else (true, mkFs (openable fs) (<[path := write_all s]> (files fs))).
End ExportToFile.

End SavedSpectrum.

(** ** PanoramicDialog *)

Module PanoramicDialog.
Import Source.

(** Modelled from the spec: the waterfall widget is an external
    collaborator.  It is the record of the properties the dialog reads
    back; every setter call is recorded in the log of the dialog. *)
Record Waterfall : Type := mkWaterfall {
  wfCenterFreq : Z;
  wfFftCenterFreq : Z;
  wfSpanFreq : Z;   (* [static_cast<qint64>(getSpanFreq())] *)
  wfFilterOffset : Z;
  wfFilterBw : Z
}.

(** Modelled from the spec: a [DeviceGain] control of the gain panel; it
    carries the gain it was created for and the value last set. *)
Record DeviceGain : Type := mkDeviceGain {
  dgDesc : GainDescription;
  dgGain : SUFLOAT
}.

Definition newDeviceGain (p : GainDescription) : DeviceGain :=
  mkDeviceGain p (gainDefault p).

Definition dgSetGain (v : SUFLOAT) (g : DeviceGain) : DeviceGain :=
  mkDeviceGain (dgDesc g) v.

Definition dgName (g : DeviceGain) : string := gainName (dgDesc g).

Inductive LayoutItem : Type :=
| ItemGain (name : string) (row : Z)
| ItemLabel (text : string)
| ItemSpacer (row : Z).

Inductive FileDialogResult : Type :=
| Rejected
| Accepted (path : string).

(** What the dialog does to the outside world. *)
Inductive Event : Type :=
| CallSetWfRange (freqStart freqEnd : Z)
| WfSetCenterFreq (fc : Z)
| WfSetSampleRate (bw : Z)
| WfSetLocked (b : bool)
| WfSetDemodRanges (a b c d : Z) (symmetric : bool)
| WfSetHiLowCutFrequencies (lo hi : Z)
| WfResetHorizontalZoom
| WfSetNewFftData (buf : list SUFLOAT) (size : Z)
| EmitDetailChanged (min max : Z) (fixed : bool)
| EmitStart
| EmitStop
| MessageBoxCritical (title text : string)
| MessageBoxWarning (title text : string)
| FileDialogExec
| GainSetVisible (name : string) (visible : bool)
| GainDeleteLater (name : string)
| LabelDeleteLater.

Record Ui : Type := mkUi {
  rangeStartSpin : SUFREQ;
  rangeEndSpin : SUFREQ;
  relBwSlider : Z;
  scanButtonChecked : bool;
  scanButtonText : string;
  deviceComboText : string;
  walkStrategyComboText : string;
  partitioningComboText : string;
  exportButtonEnabled : bool;
  centerLabel : string;
  bwLabel : string;
  framesLabel : string;
  gainGridLayout : list LayoutItem;
  waterfall : Waterfall
}.

Record t : Type := mk {
  ui : Ui;
  dialogConfig : PanoramicDialogConfig.t;
  deviceMap : gmap string Device;
  bannedDevice : string;
  fixedFreqMode : bool;
  adjustingRange : bool;
  minBwForZoom : Z;   (* quint64 *)
  currBw : Z;         (* qint64 *)
  freqStart : Z;      (* quint64 *)
  freqEnd : Z;        (* quint64 *)
  demodFreq : Z;
  frames : Z;
  saved : SavedSpectrum.t;
  gainControls : list DeviceGain;
  noGainLabel : option string;
  log : list Event
}.

(** Member updates. *)
Definition with_ui (f : Ui -> Ui) (d : t) : t :=
  mk (f (ui d)) (dialogConfig d) (deviceMap d) (bannedDevice d)
     (fixedFreqMode d) (adjustingRange d) (minBwForZoom d) (currBw d)
     (freqStart d) (freqEnd d) (demodFreq d) (frames d) (saved d)
     (gainControls d) (noGainLabel d) (log d).

Definition with_fixedFreqMode (b : bool) (d : t) : t :=
  mk (ui d) (dialogConfig d) (deviceMap d) (bannedDevice d)
     b (adjustingRange d) (minBwForZoom d) (currBw d)
     (freqStart d) (freqEnd d) (demodFreq d) (frames d) (saved d)
     (gainControls d) (noGainLabel d) (log d).

Definition with_adjustingRange (b : bool) (d : t) : t :=
  mk (ui d) (dialogConfig d) (deviceMap d) (bannedDevice d)
     (fixedFreqMode d) b (minBwForZoom d) (currBw d)
     (freqStart d) (freqEnd d) (demodFreq d) (frames d) (saved d)
     (gainControls d) (noGainLabel d) (log d).

Definition with_currBw (bw : Z) (d : t) : t :=
  mk (ui d) (dialogConfig d) (deviceMap d) (bannedDevice d)
     (fixedFreqMode d) (adjustingRange d) (minBwForZoom d) bw
     (freqStart d) (freqEnd d) (demodFreq d) (frames d) (saved d)
     (gainControls d) (noGainLabel d) (log d).

Definition with_freqRange (fs fe : Z) (d : t) : t :=
  mk (ui d) (dialogConfig d) (deviceMap d) (bannedDevice d)
     (fixedFreqMode d) (adjustingRange d) (minBwForZoom d) (currBw d)
     fs fe (demodFreq d) (frames d) (saved d)
     (gainControls d) (noGainLabel d) (log d).

Definition with_demodFreq (f : Z) (d : t) : t :=
  mk (ui d) (dialogConfig d) (deviceMap d) (bannedDevice d)
     (fixedFreqMode d) (adjustingRange d) (minBwForZoom d) (currBw d)
     (freqStart d) (freqEnd d) f (frames d) (saved d)
     (gainControls d) (noGainLabel d) (log d).

Definition with_frames (n : Z) (d : t) : t :=
  mk (ui d) (dialogConfig d) (deviceMap d) (bannedDevice d)
     (fixedFreqMode d) (adjustingRange d) (minBwForZoom d) (currBw d)
     (freqStart d) (freqEnd d) (demodFreq d) n (saved d)
     (gainControls d) (noGainLabel d) (log d).

Definition with_saved (s : SavedSpectrum.t) (d : t) : t :=
  mk (ui d) (dialogConfig d) (deviceMap d) (bannedDevice d)
     (fixedFreqMode d) (adjustingRange d) (minBwForZoom d) (currBw d)
     (freqStart d) (freqEnd d) (demodFreq d) (frames d) s
     (gainControls d) (noGainLabel d) (log d).

Definition with_gainControls (g : list DeviceGain) (d : t) : t :=
  mk (ui d) (dialogConfig d) (deviceMap d) (bannedDevice d)
     (fixedFreqMode d) (adjustingRange d) (minBwForZoom d) (currBw d)
     (freqStart d) (freqEnd d) (demodFreq d) (frames d) (saved d)
     g (noGainLabel d) (log d).

Definition with_noGainLabel (l : option string) (d : t) : t :=
  mk (ui d) (dialogConfig d) (deviceMap d) (bannedDevice d)
     (fixedFreqMode d) (adjustingRange d) (minBwForZoom d) (currBw d)
     (freqStart d) (freqEnd d) (demodFreq d) (frames d) (saved d)
     (gainControls d) l (log d).

(** Events are appended in the order in which they happen. *)
Definition emit_all (es : list Event) (d : t) : t :=
  mk (ui d) (dialogConfig d) (deviceMap d) (bannedDevice d)
     (fixedFreqMode d) (adjustingRange d) (minBwForZoom d) (currBw d)
     (freqStart d) (freqEnd d) (demodFreq d) (frames d) (saved d)
     (gainControls d) (noGainLabel d) (log d ++ es).

Definition emit (e : Event) (d : t) : t := emit_all [e] d.

Definition ui_setScanButton (checked : bool) (u : Ui) : Ui :=
  mkUi (rangeStartSpin u) (rangeEndSpin u) (relBwSlider u) checked
       (scanButtonText u) (deviceComboText u) (walkStrategyComboText u)
       (partitioningComboText u) (exportButtonEnabled u) (centerLabel u)
       (bwLabel u) (framesLabel u) (gainGridLayout u) (waterfall u).

Definition ui_setScanButtonText (text : string) (u : Ui) : Ui :=
  mkUi (rangeStartSpin u) (rangeEndSpin u) (relBwSlider u)
       (scanButtonChecked u) text (deviceComboText u)
       (walkStrategyComboText u) (partitioningComboText u)
       (exportButtonEnabled u) (centerLabel u) (bwLabel u) (framesLabel u)
       (gainGridLayout u) (waterfall u).

Definition ui_setExportEnabled (b : bool) (u : Ui) : Ui :=
  mkUi (rangeStartSpin u) (rangeEndSpin u) (relBwSlider u)
       (scanButtonChecked u) (scanButtonText u) (deviceComboText u)
       (walkStrategyComboText u) (partitioningComboText u) b
       (centerLabel u) (bwLabel u) (framesLabel u) (gainGridLayout u)
       (waterfall u).

Definition ui_setLabels (center bw frames : string) (u : Ui) : Ui :=
  mkUi (rangeStartSpin u) (rangeEndSpin u) (relBwSlider u)
       (scanButtonChecked u) (scanButtonText u) (deviceComboText u)
       (walkStrategyComboText u) (partitioningComboText u)
       (exportButtonEnabled u) center bw frames (gainGridLayout u)
       (waterfall u).

Definition ui_setLayout (l : list LayoutItem) (u : Ui) : Ui :=
  mkUi (rangeStartSpin u) (rangeEndSpin u) (relBwSlider u)
       (scanButtonChecked u) (scanButtonText u) (deviceComboText u)
       (walkStrategyComboText u) (partitioningComboText u)
       (exportButtonEnabled u) (centerLabel u) (bwLabel u) (framesLabel u)
       l (waterfall u).

Definition ui_setWaterfall (w : Waterfall) (u : Ui) : Ui :=
  mkUi (rangeStartSpin u) (rangeEndSpin u) (relBwSlider u)
       (scanButtonChecked u) (scanButtonText u) (deviceComboText u)
       (walkStrategyComboText u) (partitioningComboText u)
       (exportButtonEnabled u) (centerLabel u) (bwLabel u) (framesLabel u)
       (gainGridLayout u) w.

Definition with_bannedDevice (desc : string) (d : t) : t :=
  mk (ui d) (dialogConfig d) (deviceMap d) desc
     (fixedFreqMode d) (adjustingRange d) (minBwForZoom d) (currBw d)
     (freqStart d) (freqEnd d) (demodFreq d) (frames d) (saved d)
     (gainControls d) (noGainLabel d) (log d).

(** *** Getters *)

Definition getMinFreq (d : t) : SUFREQ := rangeStartSpin (ui d).

Definition getMaxFreq (d : t) : SUFREQ := rangeEndSpin (ui d).

(** [relBwSlider->value() / 100.f]: the slider value is converted to
    [float] and divided in single precision. *)
Definition getRelBw (d : t) : spec_float :=
  f32_div (f32_of_Z (relBwSlider (ui d))) (f32_of_Z 100).

Definition getStrategy (d : t) : string := walkStrategyComboText (ui d).

Definition getPartitioning (d : t) : string :=
  if String.eqb (getStrategy d) "Progressive" then "Discrete"
  else partitioningComboText (ui d).

Definition setBannedDevice (desc : string) (d : t) : t :=
  with_bannedDevice desc d.

Definition getSelectedDevice (d : t) : option Device :=
  deviceMap d !! deviceComboText (ui d).

(** *** The waterfall range *)

(** [waterfall->setCenterFreq(fc)]: recorded, and read back by
    [getCenterFreq]. *)
Definition wf_setCenterFreq (fc : Z) (d : t) : t :=
  let w := waterfall (ui d) in
  emit (WfSetCenterFreq fc)
    (with_ui (ui_setWaterfall
                (mkWaterfall fc (wfFftCenterFreq w) (wfSpanFreq w)
                             (wfFilterOffset w) (wfFilterBw w))) d).

(** The entry into [setWfRange] is recorded with its two arguments.  The
    centre [.5 * (freqEnd + freqStart)] is converted to [quint64]; for a
    negative sum that conversion is undefined in C++ and wraps here. *)
Definition setWfRange (freqStart freqEnd : Z) (d : t) : t :=
  let d := emit (CallSetWfRange freqStart freqEnd) d in
  if fixedFreqMode d then
    let bw := to_qint64 (minBwForZoom d) in
    if bool_decide (bw ≠ currBw d) then
      let d := emit (WfSetSampleRate bw) d in
      with_currBw bw d
    else d
  else
    let fc := to_quint64 ((freqEnd + freqStart) ÷ 2) in
    let bw := freqEnd - freqStart in
    let d := wf_setCenterFreq fc d in
    if bool_decide (bw ≠ currBw d) then
      let d := emit (WfSetLocked false) d in
      let d := emit (WfSetSampleRate bw) d in
      let d := emit (WfSetDemodRanges (- to_int (bw ÷ 2)) 0 0
                                      (to_int (bw ÷ 2)) true) d in
      let d := emit (WfSetHiLowCutFrequencies (- to_int (bw ÷ 20))
                                              (to_int (bw ÷ 20))) d in
      let d := emit WfResetHorizontalZoom d in
      with_currBw bw d
    else d.

Definition redrawMeasures (d : t) : t :=
  let w := waterfall (ui d) in
  let center :=
    Qtrunc_qint64 (inject_Z (wfFilterOffset w)
                   + (1 # 2) * inject_Z (to_quint64 (freqStart d + freqEnd d)))%Q in
  let d := with_demodFreq center d in
  with_ui (ui_setLabels (pretty center +:+ " Hz")
                        (pretty (wfFilterBw w) +:+ " Hz")
                        (pretty (frames d))) d.

Definition feed (freqStart' freqEnd' : Z) (buf : list SUFLOAT) (size : nat)
    (d : t) : t :=
  let d :=
    if bool_decide (freqStart d ≠ freqStart')
       || bool_decide (freqEnd d ≠ freqEnd') then
      let d := with_freqRange freqStart' freqEnd' d in
      let d := with_adjustingRange true d in
      let d := setWfRange (to_qint64 freqStart') (to_qint64 freqEnd') d in
      with_adjustingRange false d
    else d in
  let d :=
    with_saved (SavedSpectrum.set (to_qint64 freqStart') (to_qint64 freqEnd')
                                  buf size (saved d)) d in
  let d := with_ui (ui_setExportEnabled true) d in
  let d := emit (WfSetNewFftData buf (to_int (Z.of_nat size))) d in
  let d := with_frames (frames d + 1) d in
  redrawMeasures d.

(** *** Zoom *)

(** Waterfall setters are taken not to re-enter the slots of the dialog;
    [adjustingRange] is the guard the code keeps against the one
    re-entrant call it expects.  [resetHorizontalZoom] is recorded and
    leaves the centre frequency of the waterfall as it is.  [abs] is the
    64-bit overload, and [span / 2] rounds towards zero.  In
    [max - min <= minBwForZoom * getRelBw()] the right operand of [*] is a
    [float], so [minBwForZoom] is converted to [float], the product is a
    [float], and [max - min] is converted to [float] for the comparison. *)
Definition onNewZoomLevel (d : t) : t :=
  let w := waterfall (ui d) in
  let fc := Z.abs (wfCenterFreq w + wfFftCenterFreq w) in
  let span := wfSpanFreq w in
  if adjustingRange d then d
  else
    let d := with_adjustingRange true d in
    let min := fc - span ÷ 2 in
    let max := fc + span ÷ 2 in
    let adjLeft := Zlt_double min (getMinFreq d) in
    let min := if adjLeft then Qtrunc_qint64 (getMinFreq d) else min in
    let adjRight := Zgt_double max (getMaxFreq d) in
    let max := if adjRight then Qtrunc_qint64 (getMaxFreq d) else max in
    let d := if adjLeft && adjRight then emit WfResetHorizontalZoom d else d in
    let fixed :=
      f32_leb (f32_of_Z (max - min))
              (f32_mul (f32_of_Z (minBwForZoom d)) (getRelBw d)) in
    let d := with_fixedFreqMode fixed d in
    let fc := if fixed then wfCenterFreq (waterfall (ui d)) else fc in
    let min := if fixed then fc - span ÷ 2 else min in
    let max := if fixed then fc + span ÷ 2 else max in
    let d := setWfRange min max d in
    let d := with_adjustingRange false d in
    emit (EmitDetailChanged (to_quint64 min) (to_quint64 max)
                            (fixedFreqMode d)) d.

(** *** Scan toggle *)

Section Slots.
(** A default-constructed [Suscan::Source::Device]; its constructor is
    not in these files. *)
Variable nullDevice : Device.

Definition onToggleScan (d : t) : t :=
  let d :=
    if scanButtonChecked (ui d) then
      let dev := default nullDevice (getSelectedDevice d) in
      if (0 <? String.length (bannedDevice d))%nat
         && String.eqb (devDesc dev) (bannedDevice d) then
        let d :=
          emit (MessageBoxCritical
                  "Panoramic spectrum error error"
                  "Scan cannot start because the selected device is in use by the main window.")
               d in
        with_ui (ui_setScanButton false) d
      else emit EmitStart d
    else emit EmitStop d in
  with_ui (ui_setScanButtonText
             (if scanButtonChecked (ui d) then "Stop" else "Start scan")) d.
End Slots.

(** *** Gain panel *)

(** [gainGridLayout->takeAt(0)] followed by [delete] of the item. *)
Definition takeAt0 (d : t) : t :=
  with_ui (ui_setLayout (drop 1 (gainGridLayout (ui d)))) d.

Definition addToLayout (i : LayoutItem) (d : t) : t :=
  with_ui (ui_setLayout (gainGridLayout (ui d) ++ [i])) d.

(** One iteration of the loop of [clearGains] over the controls. *)
Definition clearGain (d : t) (i : nat) : t :=
  let d := takeAt0 d in
  match gainControls d !! i with
  | Some g =>
      emit (GainDeleteLater (dgName g)) (emit (GainSetVisible (dgName g) false) d)
  | None => d
  end.

Definition clearGains (d : t) : t :=
  let len := length (gainControls d) in
  if (len =? 0)%nat then
    let d := takeAt0 d in
    match noGainLabel d with
    | Some _ => with_noGainLabel None (emit LabelDeleteLater d)
    | None => d
    end
  else
    let d := fold_left clearGain (seq 0 len) d in
    let d := takeAt0 d in
    with_gainControls [] d.

(** One iteration of the loop of [refreshGains] over the gains of the
    device.  [gain] stays the control at the back of [gainControls], which
    is the one [setGain] is called on. *)
Definition addGain (device : Device) (d : t) (p : GainDescription) : t :=
  let gain := newDeviceGain p in
  let d := with_gainControls (gainControls d ++ [gain]) d in
  let back := (length (gainControls d) - 1)%nat in
  let d := addToLayout (ItemGain (gainName p) (to_int (Z.of_nat back))) d in
  let cfg := dialogConfig d in
  if PanoramicDialogConfig.hasGain (devDriver device) (gainName p) cfg then
    with_gainControls
      (alter (dgSetGain (PanoramicDialogConfig.getGain
                           (devDriver device) (gainName p) cfg))
             back (gainControls d)) d
  else
    with_gainControls
      (alter (dgSetGain (gainDefault p)) back (gainControls d)) d.

Definition refreshGains (device : Device) (d : t) : t :=
  let d := clearGains d in
  let d := fold_left (addGain device) (devGains device) d in
  if (length (gainControls d) =? 0)%nat then
    let d := with_noGainLabel (Some "(device has no gains)") d in
    addToLayout (ItemLabel "(device has no gains)") d
  else
    addToLayout
      (ItemSpacer (to_int (Z.of_nat (length (gainControls d))))) d.

(** *** Export *)

Section ExportSlot.
Variable show_float : SUFLOAT -> string.

(** The loop of [onExport].  Each pass blocks in [dialog.exec()] until
    the user answers; [responses] are the answers the user gives, one
    per pass.  The first component tells whether the loop has ended
    ([done]); it is [false] when the loop is waiting for an answer that
    [responses] does not contain. *)
Fixpoint onExport (responses : list FileDialogResult)
    (fs : SavedSpectrum.FileSystem) (d : t)
    : bool * SavedSpectrum.FileSystem * t :=
  match responses with
  | [] => (false, fs, d)
  | r :: rest =>
      let d := emit FileDialogExec d in
      match r with
      | Accepted path =>
          let '(ok, fs) :=
            SavedSpectrum.exportToFile show_float path (saved d) fs in
          if negb ok then
            let d :=
              emit (MessageBoxWarning
                      "Cannot open file"
                      "Cannote save file in the specified location. Please choose a different location and try again.")
                   d in
            onExport rest fs d
          else (true, fs, d)
      | Rejected => (true, fs, d)
      end
  end.
End ExportSlot.

End PanoramicDialog.

(** ** MainSpectrum *)

Module MainSpectrum.

(** The frequency displays [fcLcd], [loLcd] and [lnbLcd] are widgets of a
    class that is not part of these two files.  The main spectrum uses
    four of its operations. *)
Class LCD (L : Type) : Type := {
  getValue : L -> Z;
  setValue : Z -> L -> L;
  setMin : Z -> L -> L;
  setMax : Z -> L -> L
}.

(** A display that shows the value it was given, and keeps it when its
    limits are moved. *)
Class LCDStores (L : Type) `{LCD L} : Prop := {
  getValue_setValue : forall v l, getValue (setValue v l) = v;
  getValue_setMin : forall m l, getValue (setMin m l) = getValue l;
  getValue_setMax : forall m l, getValue (setMax m l) = getValue l
}.

(** The plain display: a value and two limits. *)
Record PlainLCD : Type := mkPlainLCD {
  lcdValue : Z;
  lcdMin : Z;
  lcdMax : Z
}.

#[global] Instance PlainLCD_LCD : LCD PlainLCD := {|
  getValue := lcdValue;
  setValue v l := mkPlainLCD v (lcdMin l) (lcdMax l);
  setMin m l := mkPlainLCD (lcdValue l) m (lcdMax l);
  setMax m l := mkPlainLCD (lcdValue l) (lcdMin l) m
|}.

(** A display that enforces its limits: a value outside them is replaced
    by the nearest limit, when it is set and when a limit moves past it. *)
Record ClampedLCD : Type := mkClampedLCD {
  clValue : Z;
  clMin : Z;
  clMax : Z
}.

Definition clamp (lo hi v : Z) : Z :=
  if (hi <? v)%Z then hi else if (v <? lo)%Z then lo else v.

#[global] Instance ClampedLCD_LCD : LCD ClampedLCD := {|
  getValue := clValue;
  setValue v l := mkClampedLCD (clamp (clMin l) (clMax l) v) (clMin l) (clMax l);
  setMin m l := mkClampedLCD (clamp m (clMax l) (clValue l)) m (clMax l);
  setMax m l := mkClampedLCD (clamp (clMin l) m (clValue l)) (clMin l) m
|}.

Record FrequencyBand : Type := mkBand {
  bandMin : Z;
  bandMax : Z;
  primary : string;
  secondary : string;
  footnotes : string;
  color : string
}.

(** Modelled from the spec: [FrequencyAllocationTable] is declared
    elsewhere; the spec describes it as a named ordered collection of
    [FrequencyBand], to which [pushBand] adds a band. *)
Record FrequencyAllocationTable : Type := mkFAT {
  fatName : string;
  fatBands : list FrequencyBand
}.

Definition newFAT (name : string) : FrequencyAllocationTable := mkFAT name [].

Definition pushBand (b : FrequencyBand) (fat : FrequencyAllocationTable)
    : FrequencyAllocationTable :=
  mkFAT (fatName fat) (fatBands fat ++ [b]).

(** The exceptions of the Suscan wrappers.  [Suscan::Exception] is the
    class that [deserializeFATs] catches and that [SU_ATTEMPT] throws;
    failures of the C++ runtime itself (such as exhausted memory) are not
    modelled. *)
Inductive Exception : Type := SuscanException.

Inductive result (A : Type) : Type :=
| Ok (a : A)
| Throw (e : Exception).
Arguments Ok {A} a.
Arguments Throw {A} e.

Definition bind {A B : Type} (r : result A) (k : A -> result B) : result B :=
  match r with
  | Ok a => k a
  | Throw e => Throw e
  end.

Notation "x <- r ;; k" := (bind r (fun x => k))
  (at level 100, r at next level, right associativity).

Inductive Event : Type :=
| WfSetCenterFreq (fc : Z)
| WfSetFreqUnits (units : Z)
| WfSetFilterOffset (lo : Z)
| EmitLoChanged (lo : Z)
| EmitNewBandPlan (name : string).

Section Widget.
Context {L : Type} `{LCD L}.

Record t : Type := mk {
  fcLcd : L;
  loLcd : L;
  lnbLcd : L;
  minFreq : Z;
  maxFreq : Z;
  cachedRate : Z;   (* unsigned *)
  FATs : list (option FrequencyAllocationTable);
  log : list Event
}.

Definition with_fcLcd (l : L) (s : t) : t :=
  mk l (loLcd s) (lnbLcd s) (minFreq s) (maxFreq s) (cachedRate s)
     (FATs s) (log s).

Definition with_loLcd (l : L) (s : t) : t :=
  mk (fcLcd s) l (lnbLcd s) (minFreq s) (maxFreq s) (cachedRate s)
     (FATs s) (log s).

Definition with_FATs (f : list (option FrequencyAllocationTable)) (s : t) : t :=
  mk (fcLcd s) (loLcd s) (lnbLcd s) (minFreq s) (maxFreq s) (cachedRate s)
     f (log s).

Definition emit (e : Event) (s : t) : t :=
  mk (fcLcd s) (loLcd s) (lnbLcd s) (minFreq s) (maxFreq s) (cachedRate s)
     (FATs s) (log s ++ [e]).

Definition getCenterFreq (s : t) : Z := getValue (fcLcd s).

Definition getLoFreq (s : t) : Z := getValue (loLcd s) - getCenterFreq s.

Definition getLnbFreq (s : t) : Z := getValue (lnbLcd s).

Definition updateLimits (s : t) : t :=
  let minLcd := minFreq s - getLnbFreq s in
  let maxLcd := maxFreq s - getLnbFreq s in
  let s := with_fcLcd (setMin minLcd (fcLcd s)) s in
  let s := with_fcLcd (setMax maxLcd (fcLcd s)) s in
  let minLcd := getValue (fcLcd s) - cachedRate s ÷ 2 in
  let maxLcd := getValue (fcLcd s) + cachedRate s ÷ 2 in
  let s := with_loLcd (setMin minLcd (loLcd s)) s in
  with_loLcd (setMax maxLcd (loLcd s)) s.

Definition getFrequencyUnits (freq : Z) : Z :=
  let freq := if (freq <? 0)%Z then - freq else freq in
  if (freq <? 1000)%Z then 1
  else if (freq <? 1000000)%Z then 1000
  else if (freq <? 1000000000)%Z then 1000000
  else 1000000000.

Definition setLoFreq (loFreq : Z) (s : t) : t :=
  if bool_decide (loFreq ≠ getLoFreq s) then
    let s := with_loLcd (setValue (loFreq + getCenterFreq s) (loLcd s)) s in
    let s := emit (WfSetFilterOffset loFreq) s in
    emit (EmitLoChanged loFreq) s
  else s.

Definition setCenterFreq (freq : Z) (s : t) : t :=
  let loFreq := getLoFreq s in
  let s := with_fcLcd (setValue freq (fcLcd s)) s in
  let s := emit (WfSetCenterFreq (to_quint64 freq)) s in
  let s := emit (WfSetFreqUnits (getFrequencyUnits freq)) s in
  let s := updateLimits s in
  setLoFreq loFreq s.

(** *** Band plans *)

(** The objects of the band-plan store are read through accessors of
    [Suscan::Object] that are not part of these files and that report
    failure by throwing [Suscan::Exception]. *)
Variable Entry : Type.
Variable get_float : string -> Q -> Entry -> result Q.
Variable get_string : string -> string -> Entry -> result string.

(** A table of the store: its ["name"] field and its ["bands"] field,
    which is a set of entries or an object of another type. *)
Inductive BandsField : Type :=
| BandsSet (entries : list Entry)
| BandsOther.

Record FATSource : Type := mkSource {
  srcName : string;
  srcBands : BandsField
}.

Definition deserializeFrequencyBand (obj : Entry) : result FrequencyBand :=
  min <- get_float "min" 0%Q obj ;;
  max <- get_float "max" 0%Q obj ;;
  primary <- get_string "primary" "" obj ;;
  secondary <- get_string "secondary" "" obj ;;
  footnotes <- get_string "footnotes" "" obj ;;
  color <- get_string "color" "#1f1f1f" obj ;;
  Ok (mkBand (Qtrunc_qint64 min) (Qtrunc_qint64 max)
             primary secondary footnotes color).

(** [FATs.resize(n)]: new slots hold null pointers. *)
Definition resize (n : nat) (l : list (option FrequencyAllocationTable))
    : list (option FrequencyAllocationTable) :=
  take n l ++ replicate (n - length l) None.

(** The [try] block of the inner loop and its empty handler, for the
    entry that [bands[i]] yields.  An index outside the set makes
    [bands[i]] throw, which the handler catches as well. *)
Definition tryPush (ndx : nat) (s : t) (entry : option Entry) : t :=
  match entry with
  | Some e =>
      match deserializeFrequencyBand e with
      | Ok band => with_FATs (alter (fmap (pushBand band)) ndx (FATs s)) s
      | Throw SuscanException => s
      end
  | None => s
  end.

Definition tryPushBand (ndx : nat) (bands : list Entry) (s : t) (i : nat) : t :=
  tryPush ndx s (bands !! i).

(** The outer loop.  The second component is the exception that leaves
    [deserializeFATs], if any: [SU_ATTEMPT] throws when the ["bands"]
    field is not a set. *)
Fixpoint deserializeFATs_from (ndx : nat) (srcs : list FATSource) (s : t)
    : t * option Exception :=
  match srcs with
  | [] => (s, None)
  | p :: rest =>
      let s := with_FATs (resize (ndx + 1) (FATs s)) s in
      let s := with_FATs (<[ndx := Some (newFAT (srcName p))]> (FATs s)) s in
      match srcBands p with
      | BandsOther => (s, Some SuscanException)
      | BandsSet bands =>
          let count := length bands in
          let s := fold_left (tryPushBand ndx bands) (seq 0 count) s in
          let s :=
            match FATs s !! ndx with
            | Some (Some fat) => emit (EmitNewBandPlan (fatName fat)) s
            | _ => s
            end in
          deserializeFATs_from (ndx + 1) rest s
      end
  end.

Definition deserializeFATs (sus : list FATSource) (s : t)
    : t * option Exception :=
  deserializeFATs_from 0 sus s.

End Widget.

End MainSpectrum.

(** ** Statement vocabulary and sample inputs *)

(** The configurations the program can hold.  The gain map of a freshly
    constructed configuration is empty, [setGain] and [deserialize] are
    the only code that writes to it, and the other members are assigned
    freely by the dialog. *)
Inductive constructible : PanoramicDialogConfig.t -> Prop :=
| constructible_fresh init :
    constructible (PanoramicDialogConfig.fresh init)
| constructible_setGain dev name val c :
    constructible c ->
    constructible (PanoramicDialogConfig.setGain dev name val c)
| constructible_deserialize conf c :
    constructible c ->
    constructible (PanoramicDialogConfig.deserialize conf c)
| constructible_members c c' :
    constructible c ->
    PanoramicDialogConfig.gains c' = PanoramicDialogConfig.gains c ->
    constructible c'.

Definition sample_config : PanoramicDialogConfig.t :=
  PanoramicDialogConfig.mk true 0%Q 0%Q (-90)%Q 0%Q 0%Q "" 0 "" "" "Suscan" ∅.
Definition sample_config_lna : PanoramicDialogConfig.t :=
  PanoramicDialogConfig.setGain "rtlsdr" "LNA" 30%Q sample_config.
Definition sample_config_raw_key : PanoramicDialogConfig.t :=
  PanoramicDialogConfig.with_gains {["LNA" := 30%Q]} sample_config.

Definition sample_device : Source.Device :=
  Source.mkDevice "RTL-SDR #0" "rtlsdr" (inject_Z 24000000) (inject_Z 1766000000)
    [Source.mkGain "TUNER" 20%Q; Source.mkGain "LNA" 10%Q].

Definition null_device : Source.Device :=
  Source.mkDevice "" "" 0%Q 0%Q [].

(** A dialog tuned near the lower edge of an 88-108 MHz range, with a
    2 MHz wide view. *)
Definition sample_dialog : PanoramicDialog.t :=
  PanoramicDialog.mk
    (PanoramicDialog.mkUi (inject_Z 88000000) (inject_Z 108000000) 70
       true "Start scan" "RTL-SDR #0" "Progressive" "Continuous" false "" "" "" []
       (PanoramicDialog.mkWaterfall 88500000 0 2000000 0 0))
    sample_config {["RTL-SDR #0" := sample_device]} "" false false
    20000000 20000000 88000000 108000000 0 0
    (SavedSpectrum.mk 0 0 []) [] None [].


(** The same dialog with a 30 MHz wide view around 98 MHz. *)
Definition sample_dialog_wide : PanoramicDialog.t :=
  PanoramicDialog.with_ui
    (PanoramicDialog.ui_setWaterfall
       (PanoramicDialog.mkWaterfall 98000000 0 30000000 0 0))
    sample_dialog.

(** A view 7.8 MHz wide around 98 MHz, with the relative-bandwidth slider
    at 39. *)
Definition sample_dialog_threshold : PanoramicDialog.t :=
  PanoramicDialog.with_ui
    (fun u =>
       PanoramicDialog.mkUi (PanoramicDialog.rangeStartSpin u)
         (PanoramicDialog.rangeEndSpin u) 39
         (PanoramicDialog.scanButtonChecked u) (PanoramicDialog.scanButtonText u)
         (PanoramicDialog.deviceComboText u) (PanoramicDialog.walkStrategyComboText u)
         (PanoramicDialog.partitioningComboText u)
         (PanoramicDialog.exportButtonEnabled u) (PanoramicDialog.centerLabel u)
         (PanoramicDialog.bwLabel u) (PanoramicDialog.framesLabel u)
         (PanoramicDialog.gainGridLayout u)
         (PanoramicDialog.mkWaterfall 98000000 0 7800000 0 0))
    sample_dialog.

(** The wide view again, with a lower bound of 88000000.5 Hz. *)
Definition sample_dialog_half_hertz : PanoramicDialog.t :=
  PanoramicDialog.with_ui
    (fun u =>
       PanoramicDialog.mkUi (176000001 # 2)%Q
         (PanoramicDialog.rangeEndSpin u) (PanoramicDialog.relBwSlider u)
         (PanoramicDialog.scanButtonChecked u) (PanoramicDialog.scanButtonText u)
         (PanoramicDialog.deviceComboText u) (PanoramicDialog.walkStrategyComboText u)
         (PanoramicDialog.partitioningComboText u)
         (PanoramicDialog.exportButtonEnabled u) (PanoramicDialog.centerLabel u)
         (PanoramicDialog.bwLabel u) (PanoramicDialog.framesLabel u)
         (PanoramicDialog.gainGridLayout u) (PanoramicDialog.waterfall u))
    sample_dialog_wide.

(** The ranges handed to [setWfRange], in call order. *)
Definition wfRangeCalls (l : list PanoramicDialog.Event) : list (Z * Z) :=
  omap (fun e => match e with
                 | PanoramicDialog.CallSetWfRange a b => Some (a, b)
                 | _ => None
                 end) l.

(** The arguments of the emitted [detailChanged] signals, in order. *)
Definition detailEmissions (l : list PanoramicDialog.Event) : list (Z * Z * bool) :=
  omap (fun e => match e with
                 | PanoramicDialog.EmitDetailChanged a b f => Some (a, b, f)
                 | _ => None
                 end) l.

(** A double that holds a whole number. *)
Definition is_whole (x : Q) : Prop := (x == inject_Z (Qtrunc_qint64 x))%Q.

(** The control [refreshGains] builds for one gain of a device: it shows
    the value stored in the configuration under the key of (driver, gain
    name) when there is one, and the default of the gain otherwise. *)
Definition gain_control_for (cfg : PanoramicDialogConfig.t)
    (device : Source.Device) (p : Source.GainDescription)
    : PanoramicDialog.DeviceGain :=
  PanoramicDialog.mkDeviceGain p
    match PanoramicDialogConfig.gains cfg
            !! ("gain." +:+ Source.devDriver device +:+ "." +:+ Source.gainName p) with
    | Some v => v
    | None => Source.gainDefault p
    end.

(** The PSD array of an exported file: every sample followed by a blank. *)
Definition samples_text (show_float : SUFLOAT -> string) (data : list SUFLOAT) : string :=
  foldr (fun p rest => show_float p +:+ " " +:+ rest) "" data.

(** The text of an exported file. *)
Definition export_text (show_float : SUFLOAT -> string) (s : SavedSpectrum.t) : string :=
  "%" +:+ SavedSpectrum.nl
  +:+ "% Panoramic Spectrum file generated by SigDigger" +:+ SavedSpectrum.nl
  +:+ "%" +:+ SavedSpectrum.nl +:+ SavedSpectrum.nl
  +:+ "freqMin = " +:+ pretty (SavedSpectrum.start s) +:+ ";" +:+ SavedSpectrum.nl
  +:+ "freqMax = " +:+ pretty (SavedSpectrum.end_ s) +:+ ";" +:+ SavedSpectrum.nl
  +:+ "PSD = [ " +:+ samples_text show_float (SavedSpectrum.data s)
  +:+ "];" +:+ SavedSpectrum.nl.

(** What the outside sees of one pass of the export loop that fails. *)
Definition failed_pass : list PanoramicDialog.Event :=
  [PanoramicDialog.FileDialogExec;
   PanoramicDialog.MessageBoxWarning
     "Cannot open file"
     "Cannote save file in the specified location. Please choose a different location and try again."].

(** An answer that ends the export loop: the user cancels, or picks a path
    that can be opened. *)
Definition ends_export (fs : SavedSpectrum.FileSystem)
    (r : PanoramicDialog.FileDialogResult) : Prop :=
  match r with
  | PanoramicDialog.Rejected => True
  | PanoramicDialog.Accepted path => SavedSpectrum.openable fs path = true
  end.

Definition sample_fs : SavedSpectrum.FileSystem :=
  SavedSpectrum.mkFs (fun path => String.eqb path "/tmp/sweep.m") ∅.

Definition sample_show_float (x : SUFLOAT) : string := pretty (Qtrunc_qint64 x).

Module MainSpectrumSpec.
Import MainSpectrum.
Section Bands.
Variable Entry : Type.
Variable get_float : string -> Q -> Entry -> result Q.
Variable get_string : string -> string -> Entry -> result string.

(** The bands of a set that deserialize without an exception, in order. *)
Definition good_bands (entries : list Entry) : list FrequencyBand :=
  omap (fun e => match deserializeFrequencyBand Entry get_float get_string e with
                 | Ok band => Some band
                 | Throw _ => None
                 end) entries.

(** The table built from a source whose ["bands"] field is a set. *)
Definition table_of (p : FATSource Entry) : FrequencyAllocationTable :=
  mkFAT (srcName Entry p)
        match srcBands Entry p with
        | BandsSet _ entries => good_bands entries
        | BandsOther _ => []
        end.

(** The ["bands"] field of a source is a set. *)
Definition bands_is_set (p : FATSource Entry) : Prop :=
  match srcBands Entry p with
  | BandsSet _ _ => True
  | BandsOther _ => False
  end.
End Bands.
End MainSpectrumSpec.

(** A band-plan store whose entries are field objects, or malformed nodes
    on which every accessor throws. *)
Definition sample_get_float (name : string) (dfl : Q) (e : option Suscan.Object)
    : MainSpectrum.result Q :=
  match e with
  | Some o => MainSpectrum.Ok (Suscan.get_float name dfl o)
  | None => MainSpectrum.Throw MainSpectrum.SuscanException
  end.

Definition sample_get_string (name dfl : string) (e : option Suscan.Object)
    : MainSpectrum.result string :=
  match e with
  | Some o => MainSpectrum.Ok (Suscan.get_string name dfl o)
  | None => MainSpectrum.Throw MainSpectrum.SuscanException
  end.

Definition sample_band (lo hi : Z) (service : string) : option Suscan.Object :=
  Some (Suscan.mkObject ""
          [("min", Suscan.VFloat (inject_Z lo)); ("max", Suscan.VFloat (inject_Z hi));
           ("primary", Suscan.VString service)]).

Definition sample_fats : list (MainSpectrum.FATSource (option Suscan.Object)) :=
  [MainSpectrum.mkSource _ "ITU Region 1"
     (MainSpectrum.BandsSet _
        [sample_band 87500000 108000000 "BROADCASTING"; None;
         sample_band 144000000 146000000 "AMATEUR"]);
   MainSpectrum.mkSource _ "Empty" (MainSpectrum.BandsSet _ [None])].

(** A table whose ["bands"] field is not a set. *)
Definition sample_broken_fat : MainSpectrum.FATSource (option Suscan.Object) :=
  MainSpectrum.mkSource _ "Broken" (MainSpectrum.BandsOther _).

Definition sample_spectrum : MainSpectrum.t (L:=MainSpectrum.PlainLCD) :=
  MainSpectrum.mk (MainSpectrum.mkPlainLCD 100000000 0 2000000000)
                  (MainSpectrum.mkPlainLCD 100250000 99000000 101000000)
                  (MainSpectrum.mkPlainLCD 0 0 0)
                  0 2000000000 2000000 [] [].


(** The sample dialog with the device it shows banned by the main window. *)
Definition sample_dialog_banned : PanoramicDialog.t :=
  PanoramicDialog.setBannedDevice "RTL-SDR #0" sample_dialog.

(** The sample dialog with a stored gain for the LNA of the RTL-SDR driver
    and one control left over from another device. *)
Definition sample_dialog_gains : PanoramicDialog.t :=
  PanoramicDialog.mk
    (PanoramicDialog.ui sample_dialog) sample_config_lna
    (PanoramicDialog.deviceMap sample_dialog) "" false false
    20000000 20000000 88000000 108000000 0 0
    (SavedSpectrum.mk 88000000 108000000 [(-70)%Q; (-65)%Q])
    [PanoramicDialog.mkDeviceGain (Source.mkGain "VGA" 0%Q) 12%Q] None [].

(** ** Further operations of MainSpectrum *)

(** [static_cast<unsigned int>] of an integer. *)
Definition to_uint (z : Z) : Z := z mod 2 ^ 32.

(** [a <= x] and [a >= x] for an integer [a] and a double [x]. *)
Definition Zle_double (a : Z) (x : Q) : bool := Qle_bool (inject_Z a) x.
Definition Zge_double (a : Z) (x : Q) : bool := Qle_bool x (inject_Z a).

(** [x < y] and [x > y] on doubles. *)
Definition Qlt_bool (x y : Q) : bool := negb (Qle_bool y x).
Definition Qgt_bool (x y : Q) : bool := negb (Qle_bool x y).

Module MainSpectrumPalette.

(** Row [i] of the static table [color] as the loop of [getGqrxPalette]
    fills it.  The numerators are [int] expressions, so their [/] rounds
    towards zero; the division by [255.] is a floating-point one.  A row
    that no branch assigns keeps the zeros of static storage. *)
Definition color (i : Z) : Q * Q * Q :=
  if (i <? 20)%Z then (0, 0, 0)%Q
  else if (20 <=? i)%Z && (i <? 70)%Z then
    (0, 0, inject_Z (140 * (i - 20) ÷ 50) / 255)%Q
  else if (70 <=? i)%Z && (i <? 100)%Z then
    (inject_Z (60 * (i - 70) ÷ 30) / 255,
     inject_Z (125 * (i - 70) ÷ 30) / 255,
     inject_Z (115 * (i - 70) ÷ 30 + 140) / 255)%Q
  else if (100 <=? i)%Z && (i <? 150)%Z then
    (inject_Z (195 * (i - 100) ÷ 50 + 60) / 255,
     inject_Z (130 * (i - 100) ÷ 50 + 125) / 255,
     inject_Z (255 - (255 * (i - 100) ÷ 50)) / 255)%Q
  else if (150 <=? i)%Z && (i <? 250)%Z then
    (1, inject_Z (255 - 255 * (i - 150) ÷ 100) / 255, 0)%Q
  else if (250 <=? i)%Z then
    (1, inject_Z (255 * (i - 250) ÷ 5) / 255,
     inject_Z (255 * (i - 250) ÷ 5) / 255)%Q
  else (0, 0, 0)%Q.

(** The name and the table handed to the constructor of [Palette], a
    class declared elsewhere.  The palette is built on the first call and
    the same object is returned by every later one. *)
Definition getGqrxPalette : string * list (Q * Q * Q) :=
  ("Gqrx", map (fun i => color (Z.of_nat i)) (seq 0 256)).

End MainSpectrumPalette.

Module MainSpectrumFilter.
Import MainSpectrum.

Inductive Skewness : Type := SYMMETRIC | LOWER | UPPER.

#[global] Instance Skewness_eq_dec : EqDecision Skewness.
Proof. solve_decision. Defined.

(** Calls on the waterfall widget and signals of the main spectrum made
    by the filter, zoom and sample-rate setters. *)
Inductive Call : Type :=
| WfSetHiLowCutFrequencies (lo hi : Z)
| WfSetDemodRanges (a b c d : Z) (symmetric : bool)
| WfSetSampleRate (rate : Z)
| WfSetSpanFreq (span : Z)
| EmitBandwidthChanged.

Section Filter.
Context {L : Type} `{LCD L}.

(** The main spectrum with the members that the setters below use on top
    of those of [MainSpectrum.t]. *)
Record t : Type := mk {
  widget : MainSpectrum.t (L:=L);
  bandwidth : Z;        (* unsigned *)
  filterSkewness : Skewness;
  zoom : Z;             (* unsigned *)
  calls : list Call
}.

Definition with_widget (w : MainSpectrum.t (L:=L)) (s : t) : t :=
  mk w (bandwidth s) (filterSkewness s) (zoom s) (calls s).

Definition with_bandwidth (bw : Z) (s : t) : t :=
  mk (widget s) bw (filterSkewness s) (zoom s) (calls s).

Definition with_filterSkewness (skw : Skewness) (s : t) : t :=
  mk (widget s) (bandwidth s) skw (zoom s) (calls s).

Definition with_zoom (z : Z) (s : t) : t :=
  mk (widget s) (bandwidth s) (filterSkewness s) z (calls s).

Definition call (c : Call) (s : t) : t :=
  mk (widget s) (bandwidth s) (filterSkewness s) (zoom s) (calls s ++ [c]).

Definition with_cachedRate (rate : Z) (w : MainSpectrum.t (L:=L))
    : MainSpectrum.t (L:=L) :=
  MainSpectrum.mk (fcLcd w) (loLcd w) (lnbLcd w) (minFreq w) (maxFreq w) rate
                  (FATs w) (log w).

Definition getBandwidth (s : t) : Z := bandwidth s.

Definition lowerSideBand (s : t) : bool :=
  bool_decide (filterSkewness s = SYMMETRIC)
  || bool_decide (filterSkewness s = LOWER).

Definition upperSideBand (s : t) : bool :=
  bool_decide (filterSkewness s = SYMMETRIC)
  || bool_decide (filterSkewness s = UPPER).

(** [-freq / 2] negates first and then divides, rounding towards zero. *)
Definition setFilterBandwidth (bw : Z) (s : t) : t :=
  if bool_decide (bandwidth s ≠ bw) then
    let freq := to_int bw in
    let s :=
      call (WfSetHiLowCutFrequencies
              (if lowerSideBand s then (- freq) ÷ 2 else 0)
              (if upperSideBand s then freq ÷ 2 else 0)) s in
    with_bandwidth bw s
  else s.

Definition setFilterSkewness (skw : Skewness) (s : t) : t :=
  if bool_decide (skw ≠ filterSkewness s) then
    let s := with_filterSkewness skw s in
    let bw := bandwidth s in
    let freq := to_int (cachedRate (widget s)) in
    let s :=
      call (WfSetDemodRanges
              (if lowerSideBand s then (- freq) ÷ 2 else 1) 1 1
              (if upperSideBand s then freq ÷ 2 else 1)
              (bool_decide (skw = SYMMETRIC))) s in
    let s := with_bandwidth 0 s in
    let s := setFilterBandwidth bw s in
    call EmitBandwidthChanged s
  else s.

Definition setZoom (zoom' : Z) (s : t) : t :=
  if (0 <? zoom')%Z then
    let s := with_zoom zoom' s in
    call (WfSetSpanFreq (cachedRate (widget s) ÷ zoom')) s
  else s.

(** [rate / this->zoom] is an unsigned division; it is undefined in C++
    when [zoom] is zero. *)
Definition setSampleRate (rate : Z) (s : t) : t :=
  if bool_decide (cachedRate (widget s) ≠ rate) then
    let freq := to_int rate in
    let s :=
      call (WfSetDemodRanges
              (if lowerSideBand s then (- freq) ÷ 2 else 1) 1 1
              (if upperSideBand s then freq ÷ 2 else 1)
              (bool_decide (filterSkewness s = SYMMETRIC))) s in
    let s := call (WfSetSampleRate rate) s in
    let s := call (WfSetSpanFreq (rate ÷ zoom s)) s in
    let s :=
      with_widget
        (with_loLcd (setMin ((- freq) ÷ 2 + getCenterFreq (widget s))
                            (loLcd (widget s))) (widget s)) s in
    let s :=
      with_widget
        (with_loLcd (setMax (freq ÷ 2 + getCenterFreq (widget s))
                            (loLcd (widget s))) (widget s)) s in
    with_widget (with_cachedRate rate (widget s)) s
  else s.

(** The product is computed in [unsigned int]. *)
Definition onWfBandwidthChanged (min max : Z) (s : t) : t :=
  let s :=
    setFilterBandwidth
      (to_uint ((if bool_decide (filterSkewness s = SYMMETRIC) then 1 else 2)
                * to_uint (max - min))) s in
  call EmitBandwidthChanged s.

End Filter.

End MainSpectrumFilter.

Module MainSpectrumSlots.
Import MainSpectrum.

(** What [getFAT] hands back: a table, the null pointer, or no value at
    all when the search runs into a slot of [FATs] that holds a null
    pointer, on which [p->getName()] is undefined. *)
Inductive Lookup : Type :=
| Found (fat : FrequencyAllocationTable)
| NotFound
| NullDereference.

Fixpoint getFAT_in (name : string) (l : list (option FrequencyAllocationTable))
    : Lookup :=
  match l with
  | [] => NotFound
  | None :: _ => NullDereference
  | Some p :: l' =>
      if String.eqb (fatName p) name then Found p else getFAT_in name l'
  end.

(** As in [MainSpectrum], a display that the program sets is taken not to
    call back into the slots of the main spectrum. *)
Section SlotsLCD.
Context {L : Type} `{LCD L}.

Definition getFAT (name : string) (s : MainSpectrum.t (L:=L)) : Lookup :=
  getFAT_in name (FATs s).

Definition onNewCenterFreq (freq : Z) (s : MainSpectrum.t (L:=L))
    : MainSpectrum.t (L:=L) :=
  let s := with_fcLcd (setValue freq (fcLcd s)) s in
  updateLimits s.

(** [offset] is what [mainSpectrum->getFilterOffset()] returns. *)
Definition onWfLoChanged (offset : Z) (s : MainSpectrum.t (L:=L))
    : MainSpectrum.t (L:=L) :=
  let s := with_loLcd (setValue (offset + getCenterFreq s) (loLcd s)) s in
  emit (EmitLoChanged (getLoFreq s)) s.

End SlotsLCD.

End MainSpectrumSlots.

(** ** Further operations of PanoramicDialog *)

Module PanoramicRange.
Import Source PanoramicDialog.

Definition ui_setRangeStart (v : SUFREQ) (u : Ui) : Ui :=
  mkUi v (rangeEndSpin u) (relBwSlider u) (scanButtonChecked u)
       (scanButtonText u) (deviceComboText u) (walkStrategyComboText u)
       (partitioningComboText u) (exportButtonEnabled u) (centerLabel u)
       (bwLabel u) (framesLabel u) (gainGridLayout u) (waterfall u).

Definition ui_setRangeEnd (v : SUFREQ) (u : Ui) : Ui :=
  mkUi (rangeStartSpin u) v (relBwSlider u) (scanButtonChecked u)
       (scanButtonText u) (deviceComboText u) (walkStrategyComboText u)
       (partitioningComboText u) (exportButtonEnabled u) (centerLabel u)
       (bwLabel u) (framesLabel u) (gainGridLayout u) (waterfall u).

(** Both spin boxes are wired to [onFreqRangeChanged], which calls
    [adjustRanges] again; the nested call after the first [setValue] sees
    two equal values and the one after the second sees them in order, so
    neither does anything.  The values are taken to lie within the limits
    the two spin boxes share. *)
Definition adjustRanges (d : t) : t :=
  if Qgt_bool (rangeStartSpin (ui d)) (rangeEndSpin (ui d)) then
    let val := rangeStartSpin (ui d) in
    let d := with_ui (ui_setRangeStart (rangeEndSpin (ui d))) d in
    with_ui (ui_setRangeEnd val) d
  else d.

Definition invalidRange (d : t) : bool :=
  Qlt_bool (Qabs (rangeEndSpin (ui d) - rangeStartSpin (ui d))) 1.

(** The limits [setRanges] computes from the device and the LNB offset
    and hands to [setMinimum] and [setMaximum] of both spin boxes. *)
Definition setRanges_limits (dev : Device) (lnbOffset : SUFREQ)
    : SUFREQ * SUFREQ :=
  let minFreq := (devMinFreq dev - lnbOffset)%Q in
  let maxFreq := (devMaxFreq dev - lnbOffset)%Q in
  let minFreq := if Qlt_bool minFreq 0 then 0%Q else minFreq in
  let maxFreq := if Qlt_bool maxFreq 0 then 0%Q else maxFreq in
  let minFreq :=
    if Qgt_bool minFreq (inject_Z 2000000000) then inject_Z 2000000000
    else minFreq in
  let maxFreq :=
    if Qgt_bool maxFreq (inject_Z 2000000000) then inject_Z 2000000000
    else maxFreq in
  (minFreq, maxFreq).

(** As in [setWfRange], the centre [.5 * (max + min)] is converted to
    [quint64], and the waterfall does not call back into the dialog. *)
Definition onNewCenterFreq (freq : Z) (d : t) : t :=
  let span := currBw d in
  let min := freq - span ÷ 2 in
  let max := freq + span ÷ 2 in
  let leftBorder := Zle_double min (getMinFreq d) in
  let min := if leftBorder then Qtrunc_qint64 (getMinFreq d) else min in
  let rightBorder := Zge_double max (getMaxFreq d) in
  let max := if rightBorder then Qtrunc_qint64 (getMaxFreq d) else max in
  let smallRange := (to_quint64 (max - min) <=? minBwForZoom d)%Z in
  let '(min, max) :=
    if smallRange then
      if leftBorder && negb rightBorder then (min, min + span)
      else if rightBorder && negb leftBorder then (max - span, max)
      else (min, max)
    else (min, max) in
  let d :=
    if rightBorder || leftBorder then
      wf_setCenterFreq (to_quint64 ((max + min) ÷ 2)) d
    else d in
  emit (EmitDetailChanged (to_quint64 min) (to_quint64 max)
                          (fixedFreqMode d)) d.

End PanoramicRange.

Module PanoramicGains.
Import Source PanoramicDialog.

Definition with_dialogConfig (cfg : PanoramicDialogConfig.t) (d : t) : t :=
  mk (ui d) cfg (deviceMap d) (bannedDevice d)
     (fixedFreqMode d) (adjustingRange d) (minBwForZoom d) (currBw d)
     (freqStart d) (freqEnd d) (demodFreq d) (frames d) (saved d)
     (gainControls d) (noGainLabel d) (log d).

(** The first control of [gainControls] with the given name, or the null
    pointer. *)
Definition lookupGain (name : string) (d : t) : option DeviceGain :=
  List.find (fun p => String.eqb (dgName p) name) (gainControls d).

Definition getGain (gain : string) (d : t) : SUFLOAT :=
  match List.find (fun p => String.eqb (dgName p) gain) (gainControls d) with
  | Some p => dgGain p
  | None => 0%Q
  end.

(** Signals of the dialog that carry a gain. *)
Inductive Signal : Type :=
| EmitGainChanged (name : string) (val : SUFLOAT).

(** The second component lists the signals emitted. *)
Definition onGainChanged (name : string) (val : SUFLOAT) (d : t)
    : t * list Signal :=
  let d :=
    match getSelectedDevice d with
    | Some dev =>
        with_dialogConfig
          (PanoramicDialogConfig.setGain (devDriver dev) name val
                                         (dialogConfig d)) d
    | None => d
    end in
  (d, [EmitGainChanged name val]).

End PanoramicGains.

Module PanoramicScan.
Import Source PanoramicDialog.

(** The widgets of the dialog that [PanoramicDialog.Ui] leaves out and
    that the scan state drives. *)
Record Controls : Type := mkControls {
  fullRangeCheck : bool;
  sampleRateSpin : Z;
  deviceComboEnabled : bool;
  fullRangeCheckEnabled : bool;
  rangeEndSpinEnabled : bool;
  rangeStartSpinEnabled : bool;
  lnbDoubleSpinBoxEnabled : bool;
  sampleRateSpinEnabled : bool
}.

Record t : Type := mk {
  dialog : PanoramicDialog.t;
  running : bool;
  controls : Controls
}.

Definition with_dialog (d : PanoramicDialog.t) (s : t) : t :=
  mk d (running s) (controls s).

Definition with_running (r : bool) (s : t) : t :=
  mk (dialog s) r (controls s).

Definition with_controls (c : Controls) (s : t) : t :=
  mk (dialog s) (running s) c.

Definition with_sampRate (rate : Z) (c : PanoramicDialogConfig.t)
    : PanoramicDialogConfig.t :=
  PanoramicDialogConfig.mk
    (PanoramicDialogConfig.fullRange c) (PanoramicDialogConfig.rangeMin c)
    (PanoramicDialogConfig.rangeMax c) (PanoramicDialogConfig.panRangeMin c)
    (PanoramicDialogConfig.panRangeMax c) (PanoramicDialogConfig.lnbFreq c)
    (PanoramicDialogConfig.device c) rate (PanoramicDialogConfig.strategy c)
    (PanoramicDialogConfig.partitioning c) (PanoramicDialogConfig.palette c)
    (PanoramicDialogConfig.gains c).

Definition with_minBwForZoom (bw : Z) (d : PanoramicDialog.t)
    : PanoramicDialog.t :=
  PanoramicDialog.mk (ui d) (dialogConfig d) (deviceMap d) (bannedDevice d)
     (fixedFreqMode d) (adjustingRange d) bw (currBw d)
     (freqStart d) (freqEnd d) (demodFreq d) (frames d) (saved d)
     (gainControls d) (noGainLabel d) (log d).

Definition refreshUi (s : t) : t :=
  let empty := bool_decide (size (deviceMap (dialog s)) = 0%nat) in
  let fullRange := fullRangeCheck (controls s) in
  let c := controls s in
  let s :=
    with_controls
      (mkControls (fullRangeCheck c) (sampleRateSpin c)
         (negb (running s) && negb empty)
         (negb (running s) && negb empty)
         (negb (running s) && negb empty && negb fullRange)
         (negb (running s) && negb empty && negb fullRange)
         (negb (running s))
         (negb (running s))) s in
  with_dialog (with_ui (ui_setScanButton (running s)) (dialog s)) s.

Definition onSampleRateSpinChanged (s : t) : t :=
  if negb (running s) then
    with_dialog
      (PanoramicGains.with_dialogConfig
         (with_sampRate (sampleRateSpin (controls s))
                        (dialogConfig (dialog s)))
         (dialog s)) s
  else s.

(** [sampleRateSpin->setValue(v)].  The spin box stores the value and,
    when it differs from the one it held, signals [valueChanged], which
    [connectAll] wires to [onSampleRateSpinChanged].  The value is taken
    to lie within the range of the spin box. *)
Definition sampleRateSpin_setValue (v : Z) (s : t) : t :=
  if bool_decide (sampleRateSpin (controls s) ≠ v) then
    let c := controls s in
    let s :=
      with_controls
        (mkControls (fullRangeCheck c) v (deviceComboEnabled c)
           (fullRangeCheckEnabled c) (rangeEndSpinEnabled c)
           (rangeStartSpinEnabled c) (lnbDoubleSpinBoxEnabled c)
           (sampleRateSpinEnabled c)) s in
    onSampleRateSpinChanged s
  else s.

Definition setRunning (running' : bool) (s : t) : t :=
  let s :=
    if running' && negb (running s) then
      let d := with_frames 0 (dialog s) in
      let d :=
        with_ui (fun u => ui_setLabels (centerLabel u) (bwLabel u) "0" u) d in
      with_dialog d s
    else if negb running' && running s then
      sampleRateSpin_setValue
        (PanoramicDialogConfig.sampRate (dialogConfig (dialog s))) s
    else s in
  let s := with_running running' s in
  refreshUi s.

Definition setMinBwForZoom (bw : Z) (s : t) : t :=
  let s := with_dialog (with_minBwForZoom bw (dialog s)) s in
  sampleRateSpin_setValue (to_int bw) s.

End PanoramicScan.

Module PanoramicDevices.
Import Source PanoramicDialog.



Section Populate.
(** [Device::isAvailable] is not among the properties [Source.Device]
    records; it is read through this accessor. *)
Variable isAvailable : Device -> bool.


End Populate.

End PanoramicDevices.

(** ** Statement vocabulary for the further operations *)

(** A colour component lies between 0 and 1. *)
Definition unit_interval (x : Q) : Prop := (0 <= x)%Q /\ (x <= 1)%Q.

(** The boolean test of a colour with all three components in range. *)
Definition unit_colorb (c : Q * Q * Q) : bool :=
  Qle_bool 0 c.1.1 && Qle_bool c.1.1 1
  && Qle_bool 0 c.1.2 && Qle_bool c.1.2 1
  && Qle_bool 0 c.2 && Qle_bool c.2 1.

(** The span last handed to the waterfall. *)
Definition last_span (l : list MainSpectrumFilter.Call) : option Z :=
  last (omap (fun c => match c with
                       | MainSpectrumFilter.WfSetSpanFreq z => Some z
                       | _ => None
                       end) l).

(** The zoom factor is positive and the waterfall shows the span that
    goes with the cached sample rate and the zoom factor. *)
Definition span_in_sync {L : Type} `{MainSpectrum.LCD L}
    (s : MainSpectrumFilter.t (L:=L)) : Prop :=
  0 < MainSpectrumFilter.zoom s
  /\ last_span (MainSpectrumFilter.calls s)
     = Some (MainSpectrum.cachedRate (MainSpectrumFilter.widget s)
             ÷ MainSpectrumFilter.zoom s).



Definition sample_filter
    : MainSpectrumFilter.t (L:=MainSpectrum.PlainLCD) :=
  MainSpectrumFilter.mk sample_spectrum 0 MainSpectrumFilter.SYMMETRIC 1 [].

Definition sample_scan : PanoramicScan.t :=
  PanoramicScan.mk sample_dialog false
    (PanoramicScan.mkControls true 20000000 true true false false true true).

(** * Properties *)

(** ** Loops over indices *)

Lemma fold_left_seq_lookup_from {A B : Type} (F : B -> option A -> B)
    (pre l : list A) (b : B) :
  fold_left (fun acc i => F acc ((pre ++ l)%list !! i)) (seq (length pre) (length l)) b
  = fold_left (fun acc x => F acc (Some x)) l b.
Proof.
  revert pre b. induction l as [|x l IH]; intros pre b; [done|].
  cbn [length seq fold_left].
  rewrite list_lookup_middle by done.
  specialize (IH (pre ++ [x])%list (F b (Some x))).
  rewrite <- app_assoc, length_app in IH. cbn in IH.
  by rewrite Nat.add_1_r in IH.
Qed.

Lemma fold_left_seq_lookup {A B : Type} (F : B -> option A -> B)
    (l : list A) (b : B) :
  fold_left (fun acc i => F acc (l !! i)) (seq 0 (length l)) b
  = fold_left (fun acc x => F acc (Some x)) l b.
Proof. apply (fold_left_seq_lookup_from F [] l b). Qed.

(** ** The object store *)

Section ObjectStore.
Import Suscan.

Lemma lookup_field_set_field_eq k v l :
  lookup_field k (set_field k v l) = Some v.
Proof.
  induction l as [|[n w] l IH]; cbn.
  - by rewrite String.eqb_refl.
  - destruct (String.eqb n k) eqn:E; cbn; by rewrite E.
Qed.

Lemma lookup_field_set_field_ne k k' v l :
  k <> k' -> lookup_field k' (set_field k v l) = lookup_field k' l.
Proof.
  intros Hne. induction l as [|[n w] l IH]; cbn.
  - apply String.eqb_neq in Hne. by rewrite Hne.
  - destruct (String.eqb n k) eqn:E; cbn.
    + apply String.eqb_eq in E as ->.
      apply String.eqb_neq in Hne. by rewrite Hne.
    + by rewrite IH.
Qed.

Lemma field_set_eq k v o : field k (set k v o) = Some v.
Proof. apply lookup_field_set_field_eq. Qed.

Lemma field_set_ne k k' v o : k <> k' -> field k' (set k v o) = field k' o.
Proof. apply lookup_field_set_field_ne. Qed.

Lemma field_set k k' v o :
  field k' (set k v o) = if String.eqb k k' then Some v else field k' o.
Proof.
  destruct (String.eqb_spec k k') as [->|Hne].
  - apply field_set_eq.
  - by apply field_set_ne.
Qed.

(** Storing the entries of a list with distinct keys. *)
Lemma field_fold_set_list (ps : list (string * Q)) (o : Object) (k : string) :
  NoDup ps.*1 ->
  field k (fold_left (fun obj p => set p.1 (VFloat p.2) obj) ps o)
  = match (list_to_map ps : gmap string Q) !! k with
    | Some v => Some (VFloat v)
    | None => field k o
    end.
Proof.
  revert o. induction ps as [|[n v] ps IH]; intros o Hnd; [done|].
  apply NoDup_cons in Hnd as [Hn Hnd].
  cbn [fold_left]. rewrite IH by done. cbn [list_to_map foldr fst snd].
  destruct (decide (n = k)) as [->|Hne].
  - rewrite lookup_insert_eq.
    rewrite (not_elem_of_list_to_map_1 _ _ Hn).
    apply field_set_eq.
  - rewrite lookup_insert_ne by done.
    destruct (_ !! k); [done|]. by apply field_set_ne.
Qed.

Lemma field_fold_set_map (g : gmap string Q) (o : Object) (k : string) :
  field k (fold_left (fun obj p => set p.1 (VFloat p.2) obj) (map_to_list g) o)
  = match g !! k with
    | Some v => Some (VFloat v)
    | None => field k o
    end.
Proof.
  rewrite field_fold_set_list by apply NoDup_fst_map_to_list.
  by rewrite list_to_map_to_list.
Qed.
End ObjectStore.

(** ** PanoramicDialogConfig *)

Section Config.
Import Suscan PanoramicDialogConfig.

Lemma is_gain_key_fullName dev name : is_gain_key (fullName dev name) = true.
Proof.
  unfold is_gain_key, fullName.
  generalize (dev +:+ "." +:+ name). intros rest.
  by destruct rest.
Qed.

(** None of the eleven scalar members is stored under a gain key. *)
Lemma field_store_fields_gain_key c k :
  is_gain_key k = true -> field k (store_fields c) = None.
Proof.
  intros Hk. unfold store_fields.
  rewrite !field_set.
  repeat match goal with
         | |- context [String.eqb ?a k] =>
             destruct (String.eqb_spec a k) as [<-|_]; [by vm_compute in Hk|]
         end.
  reflexivity.
Qed.

Lemma field_serialize c k :
  field k (serialize c)
  = match gains c !! k with
    | Some v => Some (VFloat v)
    | None => field k (store_fields c)
    end.
Proof. apply field_fold_set_map. Qed.

Lemma field_serialize_scalar c k :
  gain_keys_prefixed c -> is_gain_key k = false ->
  field k (serialize c) = field k (store_fields c).
Proof.
  intros Hc Hk. rewrite field_serialize.
  destruct (gains c !! k) eqn:E; [|done].
  assert (is_gain_key k = true) by (apply Hc; eauto). congruence.
Qed.

Lemma load_gain_fold conf g :
  fold_left (load_gain conf) (seq 0 (getFieldCount conf)) g
  = fold_left (fun acc x => load_field conf acc (Some x)) (objFields conf) g.
Proof.
  unfold getFieldCount.
  rewrite <- (fold_left_seq_lookup (load_field conf)).
  reflexivity.
Qed.

Lemma load_field_fold_lookup conf (l : list (string * FieldValue)) g k :
  fold_left (fun acc x => load_field conf acc (Some x)) l g !! k
  = if is_gain_key k && bool_decide (is_Some (lookup_field k l))
    then Some (get_float k 0%Q conf)
    else g !! k.
Proof.
  revert g. induction l as [|[n w] l IH]; intros g.
  - cbn [fold_left lookup_field].
    rewrite bool_decide_eq_false_2 by (intros [? ?]; done).
    by rewrite andb_false_r.
  - cbn [fold_left load_field lookup_field]. rewrite IH.
    destruct (is_gain_key k) eqn:Hk; cbn [andb].
    + destruct (String.eqb_spec n k) as [->|Hne].
      * rewrite Hk, lookup_insert_eq.
        rewrite (bool_decide_eq_true_2 (is_Some (Some w))) by eauto.
        by destruct (bool_decide _).
      * destruct (bool_decide _); [done|].
        destruct (is_gain_key n); [by rewrite lookup_insert_ne|done].
    + destruct (is_gain_key n) eqn:Hn; [|done].
      rewrite lookup_insert_ne; [done|]. intros ->. congruence.
Qed.

Lemma gains_deserialize_lookup conf c k :
  gains (deserialize conf c) !! k
  = if is_gain_key k && bool_decide (is_Some (field k conf))
    then Some (get_float k 0%Q conf)
    else gains c !! k.
Proof.
  unfold deserialize. cbn [gains].
  rewrite load_gain_fold. apply load_field_fold_lookup.
Qed.

(** The gain keys stay prefixed under every operation that writes them. *)
Lemma gain_keys_prefixed_setGain dev name v c :
  gain_keys_prefixed c -> gain_keys_prefixed (setGain dev name v c).
Proof.
  intros Hc k. unfold setGain; cbn.
  destruct (decide (fullName dev name = k)) as [<-|Hne].
  - intros _. apply is_gain_key_fullName.
  - rewrite lookup_insert_ne by done. apply Hc.
Qed.

Lemma gain_keys_prefixed_deserialize conf c :
  gain_keys_prefixed c -> gain_keys_prefixed (deserialize conf c).
Proof.
  intros Hc k. rewrite gains_deserialize_lookup.
  destruct (is_gain_key k) eqn:Hk; [done|]. cbn. rewrite <- Hk. apply Hc.
Qed.

Lemma gain_keys_prefixed_fresh init : gain_keys_prefixed (fresh init).
Proof. intros k. cbn. rewrite lookup_empty. by intros [? ?]. Qed.

Lemma gains_roundtrip c c0 :
  gain_keys_prefixed c -> gains c0 = ∅ ->
  gains (deserialize (serialize c) c0) = gains c.
Proof.
  intros Hc H0. apply map_eq. intros k.
  rewrite gains_deserialize_lookup, H0, lookup_empty.
  unfold get_float. rewrite field_serialize.
  destruct (gains c !! k) as [v|] eqn:E.
  - assert (is_gain_key k = true) as -> by (apply Hc; eauto).
    cbn [andb]. by rewrite bool_decide_eq_true_2 by eauto.
  - destruct (is_gain_key k) eqn:Hk; [|done].
    cbn [andb]. rewrite field_store_fields_gain_key by done.
    by rewrite bool_decide_eq_false_2 by (intros [? ?]; done).
Qed.
End Config.

(** C2 (amended).  For every device name [dev] and gain name [g],
    [PanoramicDialogConfig] keeps the per-device gain under the key
    ["gain." + dev + "." + g]: [setGain dev g v] records [v] under that key
    and leaves the other keys alone, [getGain dev g] returns the value
    stored under it and 0 when there is none, [hasGain dev g] tests that
    key, and [serialize] emits every gain entry as a field named by its
    key. *)
Theorem C2_gain_key_is_prefixed (c : PanoramicDialogConfig.t)
    (dev g : string) (v : SUFLOAT) :
  PanoramicDialogConfig.gains (PanoramicDialogConfig.setGain dev g v c)
    !! ("gain." +:+ dev +:+ "." +:+ g) = Some v
  /\ (forall k, k <> "gain." +:+ dev +:+ "." +:+ g ->
        PanoramicDialogConfig.gains (PanoramicDialogConfig.setGain dev g v c) !! k
        = PanoramicDialogConfig.gains c !! k)
  /\ PanoramicDialogConfig.getGain dev g c
     = default 0%Q (PanoramicDialogConfig.gains c !! ("gain." +:+ dev +:+ "." +:+ g))
  /\ (PanoramicDialogConfig.hasGain dev g c = true <->
      is_Some (PanoramicDialogConfig.gains c !! ("gain." +:+ dev +:+ "." +:+ g)))
  /\ (forall k w, PanoramicDialogConfig.gains c !! k = Some w ->
        Suscan.field k (PanoramicDialogConfig.serialize c) = Some (Suscan.VFloat w)).
Proof.
  change ("gain." +:+ dev +:+ "." +:+ g) with (PanoramicDialogConfig.fullName dev g).
  split; [|split; [|split; [|split]]].
  - unfold PanoramicDialogConfig.setGain; cbn. apply lookup_insert_eq.
  - intros k Hk. unfold PanoramicDialogConfig.setGain; cbn.
    by rewrite lookup_insert_ne.
  - unfold PanoramicDialogConfig.getGain. by destruct (_ !! _).
  - unfold PanoramicDialogConfig.hasGain. apply bool_decide_eq_true.
  - intros k w Hk. by rewrite field_serialize, Hk.
Qed.

Lemma C2_witness :
  Suscan.field "gain.rtlsdr.LNA" (PanoramicDialogConfig.serialize sample_config_lna)
  = Some (Suscan.VFloat 30%Q).
Proof.
  apply (proj2 (proj2 (proj2 (proj2
           (C2_gain_key_is_prefixed sample_config_lna "rtlsdr" "LNA" 30%Q))))).
  by vm_compute.
Defined.

(** The key [dev + "." + g], without the prefix, holds nothing after
    [setGain], and [serialize] emits no field of that name. *)
Lemma C2_unprefixed_key_unused :
  PanoramicDialogConfig.gains sample_config_lna !! ("rtlsdr" +:+ "." +:+ "LNA") = None
  /\ Suscan.field ("rtlsdr" +:+ "." +:+ "LNA")
       (PanoramicDialogConfig.serialize sample_config_lna) = None
  /\ PanoramicDialogConfig.getGain "rtlsdr" "LNA" sample_config_lna = 30%Q.
Proof. by vm_compute. Qed.

(** For a configuration whose gain keys all begin with ["gain."],
    deserializing the object produced by [serialize] into a fresh
    configuration gives back the configuration. *)
Lemma serialize_deserialize_prefixed (c init : PanoramicDialogConfig.t) :
  PanoramicDialogConfig.gain_keys_prefixed c ->
  PanoramicDialogConfig.deserialize (PanoramicDialogConfig.serialize c)
    (PanoramicDialogConfig.fresh init) = c.
Proof.
  intros Hc.
  pose proof (gains_roundtrip c (PanoramicDialogConfig.fresh init) Hc eq_refl) as Hg.
  destruct c as [fr rmin rmax pmin pmax lnb dev sr st pa pl g].
  unfold PanoramicDialogConfig.deserialize in *. cbn [PanoramicDialogConfig.gains] in Hg.
  rewrite Hg.
  unfold Suscan.get_bool, Suscan.get_float, Suscan.get_string, Suscan.get_int.
  rewrite !field_serialize_scalar by done.
  reflexivity.
Qed.

(** Every gain key of a configuration the program can hold begins with
    ["gain."]. *)
Lemma constructible_gain_keys_prefixed c :
  constructible c -> PanoramicDialogConfig.gain_keys_prefixed c.
Proof.
  induction 1 as [init|dev name val c _ IH|conf c _ IH|c c' _ IH Hg].
  - apply gain_keys_prefixed_fresh.
  - by apply gain_keys_prefixed_setGain.
  - by apply gain_keys_prefixed_deserialize.
  - intros k. rewrite Hg. apply IH.
Qed.

(** C3.  For every configuration [c] the program can hold, deserializing
    the object produced by [serialize] into a fresh configuration gives
    back [c]: the eleven persisted members and the whole gain map.  In
    particular every gain entry is written by [serialize] as a field under
    its key, and that key passes the ["gain."]-prefix filter of
    [deserialize]. *)
Theorem C3_serialize_deserialize (c init : PanoramicDialogConfig.t) :
  constructible c ->
  PanoramicDialogConfig.deserialize (PanoramicDialogConfig.serialize c)
    (PanoramicDialogConfig.fresh init) = c
  /\ (forall k v,
        PanoramicDialogConfig.gains c !! k = Some v ->
        Suscan.field k (PanoramicDialogConfig.serialize c) = Some (Suscan.VFloat v)
        /\ PanoramicDialogConfig.is_gain_key k = true).
Proof.
  intros Hc. apply constructible_gain_keys_prefixed in Hc.
  split; [by apply serialize_deserialize_prefixed|].
  intros k v Hk. split.
  - by rewrite field_serialize, Hk.
  - apply Hc. eauto.
Qed.

Lemma C3_witness :
  PanoramicDialogConfig.deserialize
    (PanoramicDialogConfig.serialize sample_config_lna)
    (PanoramicDialogConfig.fresh sample_config)
  = sample_config_lna.
Proof.
  refine (proj1 (C3_serialize_deserialize sample_config_lna sample_config _)).
  apply constructible_setGain.
  apply (constructible_members (PanoramicDialogConfig.fresh sample_config)).
  - apply constructible_fresh.
  - reflexivity.
Defined.

(** Why the keys matter: a gain map with a key that lacks the prefix, which
    no code of the program builds, would not survive the round trip; the
    entry is written by [serialize] and skipped by the filter of
    [deserialize]. *)
Lemma unprefixed_key_not_reloaded :
  PanoramicDialogConfig.gains sample_config_raw_key !! "LNA" = Some 30%Q
  /\ Suscan.field "LNA" (PanoramicDialogConfig.serialize sample_config_raw_key)
     = Some (Suscan.VFloat 30%Q)
  /\ PanoramicDialogConfig.gains
       (PanoramicDialogConfig.deserialize
          (PanoramicDialogConfig.serialize sample_config_raw_key)
          (PanoramicDialogConfig.fresh sample_config))
     !! "LNA" = None
  /\ PanoramicDialogConfig.deserialize
       (PanoramicDialogConfig.serialize sample_config_raw_key)
       (PanoramicDialogConfig.fresh sample_config)
     <> sample_config_raw_key.
Proof.
  split; [by vm_compute|]. split; [by vm_compute|]. split; [by vm_compute|].
  intros Heq.
  apply (f_equal (fun c => PanoramicDialogConfig.gains c !! "LNA")) in Heq.
  vm_compute in Heq. discriminate Heq.
Qed.

(** ** Machine integers and doubles *)

Lemma to_qint64_small z : 0 <= z < 2 ^ 63 -> to_qint64 z = z.
Proof.
  intros Hz. unfold to_qint64.
  rewrite Z.mod_small; lia.
Qed.

Lemma Qtrunc_qint64_inject z : Qtrunc_qint64 (inject_Z z) = z.
Proof. unfold Qtrunc_qint64; simpl. apply Z.quot_1_r. Qed.

Lemma is_whole_inject z : is_whole (inject_Z z).
Proof. unfold is_whole. by rewrite Qtrunc_qint64_inject. Qed.

Lemma Zlt_double_false a x : Zlt_double a x = false -> (x <= inject_Z a)%Q.
Proof.
  unfold Zlt_double. intros Hlt. apply negb_false_iff in Hlt.
  by apply Qle_bool_iff.
Qed.

Lemma Zgt_double_false a x : Zgt_double a x = false -> (inject_Z a <= x)%Q.
Proof.
  unfold Zgt_double. intros Hgt. apply negb_false_iff in Hgt.
  by apply Qle_bool_iff.
Qed.

(** The conversion of a double to [qint64] rounds towards zero: down for a
    value that is not negative, up for one that is not positive. *)
Lemma Qtrunc_qint64_le x : (0 <= x)%Q -> (inject_Z (Qtrunc_qint64 x) <= x)%Q.
Proof.
  destruct x as [n dn]. unfold Qle, Qtrunc_qint64. cbn. intros Hn.
  rewrite Z.mul_1_r in *. rewrite Z.mul_comm. apply Z.mul_quot_le; lia.
Qed.

Lemma Qtrunc_qint64_ge x : (x <= 0)%Q -> (x <= inject_Z (Qtrunc_qint64 x))%Q.
Proof.
  destruct x as [n dn]. unfold Qle, Qtrunc_qint64. cbn. intros Hn.
  rewrite Z.mul_1_r in *. rewrite (Z.mul_comm (n ÷ _)).
  apply Z.mul_quot_ge; lia.
Qed.

(** ** PanoramicDialog: the zoom policy *)

Section Zoom.
Import PanoramicDialog.

Lemma wfRangeCalls_app l1 l2 :
  wfRangeCalls (l1 ++ l2) = (wfRangeCalls l1 ++ wfRangeCalls l2)%list.
Proof. apply omap_app. Qed.

Lemma detailEmissions_app l1 l2 :
  detailEmissions (l1 ++ l2) = (detailEmissions l1 ++ detailEmissions l2)%list.
Proof. apply omap_app. Qed.

(** [setWfRange] records its own call once and emits no [detailChanged];
    it does not touch the mode flag. *)
Lemma setWfRange_effects a b d :
  wfRangeCalls (log (setWfRange a b d)) = (wfRangeCalls (log d) ++ [(a, b)])%list
  /\ detailEmissions (log (setWfRange a b d)) = detailEmissions (log d)
  /\ fixedFreqMode (setWfRange a b d) = fixedFreqMode d.
Proof.
  unfold setWfRange, wf_setCenterFreq. cbn.
  destruct (fixedFreqMode d) eqn:Hf; cbn; repeat case_bool_decide; cbn;
    rewrite ?wfRangeCalls_app, ?detailEmissions_app, ?Hf; cbn;
    rewrite ?app_nil_r; done.
Qed.
End Zoom.

(** C1 (amended).  For every zoom event handled by [onNewZoomLevel] with
    [adjustingRange] initially false, one range [[min, max]] is passed to
    [setWfRange] and the same range, converted to [quint64], is emitted by
    [detailChanged].  When [fixedFreqMode] becomes false the range lies
    within the bounds: [getMinFreq() <= min] if the lower bound is a whole
    number of Hz or is not positive, and [max <= getMaxFreq()] if the upper
    bound is a whole number of Hz or is not negative (a bound that clamps
    the range is converted to [qint64], which rounds towards zero).  When
    [fixedFreqMode] becomes true the range is the span centred on the
    waterfall's centre frequency, [centre - span/2 .. centre + span/2],
    whatever the bounds are. *)
Theorem C1_zoom_range_by_mode (d : PanoramicDialog.t) :
  PanoramicDialog.adjustingRange d = false ->
  exists min max : Z,
    wfRangeCalls (PanoramicDialog.log (PanoramicDialog.onNewZoomLevel d))
    = (wfRangeCalls (PanoramicDialog.log d) ++ [(min, max)])%list
    /\ detailEmissions (PanoramicDialog.log (PanoramicDialog.onNewZoomLevel d))
       = (detailEmissions (PanoramicDialog.log d)
          ++ [(to_quint64 min, to_quint64 max,
               PanoramicDialog.fixedFreqMode (PanoramicDialog.onNewZoomLevel d))])%list
    /\ (PanoramicDialog.fixedFreqMode (PanoramicDialog.onNewZoomLevel d) = false ->
        (is_whole (PanoramicDialog.getMinFreq d)
         \/ (PanoramicDialog.getMinFreq d <= 0)%Q ->
         (PanoramicDialog.getMinFreq d <= inject_Z min)%Q)
        /\ (is_whole (PanoramicDialog.getMaxFreq d)
            \/ (0 <= PanoramicDialog.getMaxFreq d)%Q ->
            (inject_Z max <= PanoramicDialog.getMaxFreq d)%Q))
    /\ (PanoramicDialog.fixedFreqMode (PanoramicDialog.onNewZoomLevel d) = true ->
        let w := PanoramicDialog.waterfall (PanoramicDialog.ui d) in
        min = PanoramicDialog.wfCenterFreq w - PanoramicDialog.wfSpanFreq w ÷ 2
        /\ max = PanoramicDialog.wfCenterFreq w + PanoramicDialog.wfSpanFreq w ÷ 2).
Proof.
  intros Hadj.
  unfold PanoramicDialog.onNewZoomLevel. rewrite Hadj.
  set (w := PanoramicDialog.waterfall (PanoramicDialog.ui d)).
  set (fc := Z.abs (PanoramicDialog.wfCenterFreq w + PanoramicDialog.wfFftCenterFreq w)).
  set (span := PanoramicDialog.wfSpanFreq w).
  cbv zeta.
  change (PanoramicDialog.getMinFreq (PanoramicDialog.with_adjustingRange true d))
    with (PanoramicDialog.getMinFreq d).
  change (PanoramicDialog.getMaxFreq (PanoramicDialog.with_adjustingRange true d))
    with (PanoramicDialog.getMaxFreq d).
  set (adjLeft := Zlt_double (fc - span ÷ 2) (PanoramicDialog.getMinFreq d)).
  set (adjRight := Zgt_double (fc + span ÷ 2) (PanoramicDialog.getMaxFreq d)).
  set (min0 := if adjLeft then Qtrunc_qint64 (PanoramicDialog.getMinFreq d)
               else fc - span ÷ 2).
  set (max0 := if adjRight then Qtrunc_qint64 (PanoramicDialog.getMaxFreq d)
               else fc + span ÷ 2).
  set (d2 := if adjLeft && adjRight then _ else _).
  set (fixed := f32_leb _ _).
  assert (PanoramicDialog.waterfall (PanoramicDialog.ui
            (PanoramicDialog.with_fixedFreqMode fixed d2)) = w) as ->
    by (subst d2; by destruct (adjLeft && adjRight)).
  fold span.
  set (min1 := if fixed then _ else min0).
  set (max1 := if fixed then _ else max0).
  set (d3 := PanoramicDialog.with_fixedFreqMode fixed d2).
  destruct (setWfRange_effects min1 max1 d3) as (Hcalls & Hdet & Hmode).
  assert (wfRangeCalls (PanoramicDialog.log d3) = wfRangeCalls (PanoramicDialog.log d)
          /\ detailEmissions (PanoramicDialog.log d3)
             = detailEmissions (PanoramicDialog.log d)) as [Hc3 Hd3].
  { subst d3 d2. destruct (adjLeft && adjRight); cbn; [|done].
    rewrite wfRangeCalls_app, detailEmissions_app. cbn. by rewrite !app_nil_r. }
  exists min1, max1. cbn.
  rewrite wfRangeCalls_app, detailEmissions_app, Hcalls, Hdet, Hmode, Hc3, Hd3.
  cbn. rewrite app_nil_r.
  split; [done|]. split; [done|].
  subst min1 max1. split; intros ->; [|done].
  subst min0 max0. split.
  - intros Hlo. destruct adjLeft eqn:E.
    + destruct Hlo as [Hlo|Hlo].
      * apply Qle_lteq. right. exact Hlo.
      * by apply Qtrunc_qint64_ge.
    + by apply Zlt_double_false.
  - intros Hhi. destruct adjRight eqn:E.
    + destruct Hhi as [Hhi|Hhi].
      * apply Qle_lteq. right. symmetry. exact Hhi.
      * by apply Qtrunc_qint64_le.
    + by apply Zgt_double_false.
Qed.

Lemma C1_witness :
  exists min max : Z,
    wfRangeCalls (PanoramicDialog.log (PanoramicDialog.onNewZoomLevel sample_dialog_wide))
    = (wfRangeCalls (PanoramicDialog.log sample_dialog_wide) ++ [(min, max)])%list
    /\ detailEmissions (PanoramicDialog.log (PanoramicDialog.onNewZoomLevel sample_dialog_wide))
       = (detailEmissions (PanoramicDialog.log sample_dialog_wide)
          ++ [(to_quint64 min, to_quint64 max,
               PanoramicDialog.fixedFreqMode
                 (PanoramicDialog.onNewZoomLevel sample_dialog_wide))])%list
    /\ (PanoramicDialog.fixedFreqMode
          (PanoramicDialog.onNewZoomLevel sample_dialog_wide) = false ->
        (is_whole (PanoramicDialog.getMinFreq sample_dialog_wide)
         \/ (PanoramicDialog.getMinFreq sample_dialog_wide <= 0)%Q ->
         (PanoramicDialog.getMinFreq sample_dialog_wide <= inject_Z min)%Q)
        /\ (is_whole (PanoramicDialog.getMaxFreq sample_dialog_wide)
            \/ (0 <= PanoramicDialog.getMaxFreq sample_dialog_wide)%Q ->
            (inject_Z max <= PanoramicDialog.getMaxFreq sample_dialog_wide)%Q))
    /\ (PanoramicDialog.fixedFreqMode
          (PanoramicDialog.onNewZoomLevel sample_dialog_wide) = true ->
        let w := PanoramicDialog.waterfall (PanoramicDialog.ui sample_dialog_wide) in
        min = PanoramicDialog.wfCenterFreq w - PanoramicDialog.wfSpanFreq w ÷ 2
        /\ max = PanoramicDialog.wfCenterFreq w + PanoramicDialog.wfSpanFreq w ÷ 2).
Proof.
  apply (C1_zoom_range_by_mode sample_dialog_wide).
  reflexivity.
Defined.

(** A zoom event that switches to fixed-frequency mode: the view is 2 MHz
    wide around 88.5 MHz, the lower bound is 88 MHz, and the range handed to
    [setWfRange] and emitted starts at 87.5 MHz. *)
Lemma C1_fixed_mode_range_below_bound :
  PanoramicDialog.adjustingRange sample_dialog = false
  /\ PanoramicDialog.fixedFreqMode (PanoramicDialog.onNewZoomLevel sample_dialog) = true
  /\ wfRangeCalls (PanoramicDialog.log (PanoramicDialog.onNewZoomLevel sample_dialog))
     = [(87500000, 89500000)]
  /\ detailEmissions (PanoramicDialog.log (PanoramicDialog.onNewZoomLevel sample_dialog))
     = [(87500000, 89500000, true)]
  /\ ~ (PanoramicDialog.getMinFreq sample_dialog <= inject_Z 87500000)%Q.
Proof.
  split; [reflexivity|]. split; [by vm_compute|].
  split; [by vm_compute|]. split; [by vm_compute|].
  vm_compute. intros Hle. by apply Hle.
Qed.

(** Why a positive lower bound is asked to be a whole number: with a
    lower bound of 88000000.5 Hz the conversion to [qint64] rounds the
    clamped minimum down to 88000000 Hz, which is below the bound, in the
    sliding mode as well. *)
Lemma zoom_half_hertz_bound_rounded_down :
  PanoramicDialog.fixedFreqMode (PanoramicDialog.onNewZoomLevel sample_dialog_half_hertz)
  = false
  /\ wfRangeCalls (PanoramicDialog.log (PanoramicDialog.onNewZoomLevel sample_dialog_half_hertz))
     = [(88000000, 108000000)]
  /\ ~ (PanoramicDialog.getMinFreq sample_dialog_half_hertz <= inject_Z 88000000)%Q.
Proof.
  split; [by vm_compute|]. split; [by vm_compute|].
  vm_compute. intros Hle. by apply Hle.
Qed.

(** The threshold between the two modes is the single-precision product:
    with the slider at 39 and [minBwForZoom] at 20 MHz it is 7799999.5 Hz,
    so a view 7800000 Hz wide is above it and the dialog stays in the
    sliding mode, where the exact product 7800000 would have made the mode
    fixed. *)
Lemma zoom_threshold_in_single_precision :
  f32_mul (f32_of_Z 20000000) (PanoramicDialog.getRelBw sample_dialog_threshold)
  = S754_finite false 15599999 (-1)
  /\ PanoramicDialog.fixedFreqMode
       (PanoramicDialog.onNewZoomLevel sample_dialog_threshold) = false
  /\ detailEmissions
       (PanoramicDialog.log (PanoramicDialog.onNewZoomLevel sample_dialog_threshold))
     = [(94100000, 101900000, false)].
Proof. split; [by vm_compute|]. split; by vm_compute. Qed.

(** ** PanoramicDialog: the saved frame *)

(** C7 (amended).  After [feed freqStart freqEnd data size] the saved
    spectrum holds exactly that frame, whatever it held before and whether
    or not the range changed: its start and end are [freqStart] and
    [freqEnd] converted to [qint64], which are the same numbers whenever
    they are below 2^63, and its samples are the first [size] samples of
    [data]. *)
Theorem C7_feed_replaces_saved (d : PanoramicDialog.t) (freqStart freqEnd : Z)
    (data : list SUFLOAT) (size : nat) :
  PanoramicDialog.saved (PanoramicDialog.feed freqStart freqEnd data size d)
  = SavedSpectrum.mk (to_qint64 freqStart) (to_qint64 freqEnd) (take size data)
  /\ (0 <= freqStart < 2 ^ 63 ->
      SavedSpectrum.start
        (PanoramicDialog.saved (PanoramicDialog.feed freqStart freqEnd data size d))
      = freqStart)
  /\ (0 <= freqEnd < 2 ^ 63 ->
      SavedSpectrum.end_
        (PanoramicDialog.saved (PanoramicDialog.feed freqStart freqEnd data size d))
      = freqEnd).
Proof.
  assert (PanoramicDialog.saved (PanoramicDialog.feed freqStart freqEnd data size d)
          = SavedSpectrum.mk (to_qint64 freqStart) (to_qint64 freqEnd)
                             (take size data)) as Hsaved by reflexivity.
  rewrite Hsaved. split; [done|]. split; intros Hrange; cbn;
    by apply to_qint64_small.
Qed.

Lemma C7_witness :
  PanoramicDialog.saved
    (PanoramicDialog.feed 88000000 108000000 [1%Q; 2%Q; 3%Q] 2 sample_dialog_gains)
  = SavedSpectrum.mk 88000000 108000000 [1%Q; 2%Q].
Proof.
  destruct (C7_feed_replaces_saved sample_dialog_gains 88000000 108000000
              [1%Q; 2%Q; 3%Q] 2) as (Hsaved & Hstart & Hend).
  specialize (Hstart ltac:(lia)). specialize (Hend ltac:(lia)).
  rewrite Hsaved in *. cbn in Hstart, Hend.
  by rewrite Hstart, Hend.
Defined.

(** A frame whose start frequency is 2^63: the saved start is negative. *)
Lemma C7_start_wraps :
  SavedSpectrum.start
    (PanoramicDialog.saved
       (PanoramicDialog.feed (2 ^ 63) (2 ^ 63 + 10) [1%Q; 2%Q; 3%Q] 2 sample_dialog))
  = - 2 ^ 63
  /\ SavedSpectrum.start
       (PanoramicDialog.saved
          (PanoramicDialog.feed (2 ^ 63) (2 ^ 63 + 10) [1%Q; 2%Q; 3%Q] 2 sample_dialog))
     <> 2 ^ 63.
Proof. split; by vm_compute. Qed.

(** ** PanoramicDialog: strategy, scan toggle and gain panel *)

(** C10.  When the walk strategy is ["Progressive"], [getPartitioning]
    returns ["Discrete"] whatever the partitioning combo box shows; for
    every other strategy it returns the text of the partitioning combo
    box. *)
Theorem C10_getPartitioning (d : PanoramicDialog.t) :
  (PanoramicDialog.getStrategy d = "Progressive" ->
   PanoramicDialog.getPartitioning d = "Discrete")
  /\ (PanoramicDialog.getStrategy d <> "Progressive" ->
      PanoramicDialog.getPartitioning d
      = PanoramicDialog.partitioningComboText (PanoramicDialog.ui d)).
Proof.
  unfold PanoramicDialog.getPartitioning. split; intros Hs.
  - by rewrite Hs.
  - apply String.eqb_neq in Hs. by rewrite Hs.
Qed.

Lemma C10_witness :
  PanoramicDialog.getPartitioning sample_dialog = "Discrete".
Proof. apply (proj1 (C10_getPartitioning sample_dialog)). reflexivity. Defined.

(** C4.  In [onToggleScan], when the scan button is checked, a banned
    device has been set and the description of the selected device equals
    it, the only effect on the outside is the message box (no [start]) and
    the button is reset to unchecked; in every other checked case [start]
    is emitted; when the button is unchecked [stop] is emitted. *)
Theorem C4_onToggleScan (nullDevice : Source.Device) (d : PanoramicDialog.t) :
  (PanoramicDialog.scanButtonChecked (PanoramicDialog.ui d) = true ->
   PanoramicDialog.bannedDevice d <> "" ->
   Source.devDesc (default nullDevice (PanoramicDialog.getSelectedDevice d))
   = PanoramicDialog.bannedDevice d ->
   PanoramicDialog.log (PanoramicDialog.onToggleScan nullDevice d)
   = (PanoramicDialog.log d
      ++ [PanoramicDialog.MessageBoxCritical
            "Panoramic spectrum error error"
            "Scan cannot start because the selected device is in use by the main window."])%list
   /\ PanoramicDialog.scanButtonChecked
        (PanoramicDialog.ui (PanoramicDialog.onToggleScan nullDevice d)) = false)
  /\ (PanoramicDialog.scanButtonChecked (PanoramicDialog.ui d) = true ->
      (PanoramicDialog.bannedDevice d = ""
       \/ Source.devDesc (default nullDevice (PanoramicDialog.getSelectedDevice d))
          <> PanoramicDialog.bannedDevice d) ->
      PanoramicDialog.log (PanoramicDialog.onToggleScan nullDevice d)
      = (PanoramicDialog.log d ++ [PanoramicDialog.EmitStart])%list
      /\ PanoramicDialog.scanButtonChecked
           (PanoramicDialog.ui (PanoramicDialog.onToggleScan nullDevice d)) = true)
  /\ (PanoramicDialog.scanButtonChecked (PanoramicDialog.ui d) = false ->
      PanoramicDialog.log (PanoramicDialog.onToggleScan nullDevice d)
      = (PanoramicDialog.log d ++ [PanoramicDialog.EmitStop])%list).
Proof.
  unfold PanoramicDialog.onToggleScan.
  split; [|split].
  - intros -> Hban Hdesc. rewrite Hdesc, String.eqb_refl.
    destruct (PanoramicDialog.bannedDevice d); [done|]. by cbn.
  - intros Hchk [Hban|Hdesc]; rewrite Hchk.
    + rewrite Hban. cbn. by rewrite Hchk.
    + apply String.eqb_neq in Hdesc. rewrite Hdesc, andb_false_r.
      cbn. by rewrite Hchk.
  - by intros ->.
Qed.

Lemma C4_witness :
  PanoramicDialog.log (PanoramicDialog.onToggleScan null_device sample_dialog_banned)
  = [PanoramicDialog.MessageBoxCritical
       "Panoramic spectrum error error"
       "Scan cannot start because the selected device is in use by the main window."]
  /\ PanoramicDialog.scanButtonChecked
       (PanoramicDialog.ui (PanoramicDialog.onToggleScan null_device sample_dialog_banned))
     = false.
Proof.
  apply (proj1 (C4_onToggleScan null_device sample_dialog_banned)).
  - reflexivity.
  - discriminate.
  - by vm_compute.
Defined.

Section GainPanel.
Import Source PanoramicDialog.

(** What one pass of the loop of [clearGains] tells the outside. *)
Lemma clearGain_effects d i :
  gainControls (clearGain d i) = gainControls d
  /\ dialogConfig (clearGain d i) = dialogConfig d
  /\ log (clearGain d i)
     = (log d ++ match gainControls d !! i with
                 | Some g => [GainSetVisible (dgName g) false;
                              GainDeleteLater (dgName g)]
                 | None => []
                 end)%list.
Proof.
  unfold clearGain. cbn.
  destruct (gainControls d !! i); cbn; rewrite <- ?app_assoc, ?app_nil_r; done.
Qed.

Lemma clearGain_fold_keeps (ixs : list nat) d :
  gainControls (fold_left clearGain ixs d) = gainControls d
  /\ dialogConfig (fold_left clearGain ixs d) = dialogConfig d
  /\ forall e, e ∈ log d -> e ∈ log (fold_left clearGain ixs d).
Proof.
  revert d. induction ixs as [|j ixs IH]; intros d; [done|].
  cbn [fold_left]. destruct (IH (clearGain d j)) as (Hg & Hc & Hl).
  destruct (clearGain_effects d j) as (Hg1 & Hc1 & Hl1).
  rewrite Hg, Hc. split; [done|]. split; [done|].
  intros e He. apply Hl. rewrite Hl1. apply elem_of_app. by left.
Qed.

Lemma clearGain_fold_deletes (ixs : list nat) d i g :
  i ∈ ixs -> gainControls d !! i = Some g ->
  GainDeleteLater (dgName g) ∈ log (fold_left clearGain ixs d).
Proof.
  revert d. induction ixs as [|j ixs IH]; intros d Hi Hlook.
  - by apply elem_of_nil in Hi.
  - cbn [fold_left]. destruct (clearGain_effects d j) as (Hg1 & Hc1 & Hl1).
    apply elem_of_cons in Hi as [->|Hi].
    + apply clearGain_fold_keeps. rewrite Hl1, Hlook.
      apply elem_of_app. right. apply elem_of_cons. right.
      apply elem_of_cons. by left.
    + apply IH; [done|]. by rewrite Hg1.
Qed.

Lemma clearGains_effects d :
  gainControls (clearGains d) = []
  /\ dialogConfig (clearGains d) = dialogConfig d
  /\ forall g, g ∈ gainControls d -> GainDeleteLater (dgName g) ∈ log (clearGains d).
Proof.
  unfold clearGains.
  destruct (length (gainControls d) =? 0)%nat eqn:Hlen.
  - apply Nat.eqb_eq, nil_length_inv in Hlen. rewrite Hlen.
    split; [by destruct (noGainLabel _)|].
    split; [by destruct (noGainLabel _)|].
    intros g Hg. by apply elem_of_nil in Hg.
  - destruct (clearGain_fold_keeps (seq 0 (length (gainControls d))) d)
      as (Hg & Hc & Hl).
    split; [reflexivity|]. split; [exact Hc|].
    intros g Hin. apply list_elem_of_lookup in Hin as [i Hi].
    apply (clearGain_fold_deletes _ d i g); [|done].
    apply elem_of_seq. apply lookup_lt_Some in Hi. lia.
Qed.

Lemma addGain_effects device d p :
  gainControls (addGain device d p)
  = (gainControls d ++ [gain_control_for (dialogConfig d) device p])%list
  /\ dialogConfig (addGain device d p) = dialogConfig d
  /\ (forall e, e ∈ log d -> e ∈ log (addGain device d p))
  /\ noGainLabel (addGain device d p) = noGainLabel d.
Proof.
  unfold addGain, gain_control_for, PanoramicDialogConfig.hasGain,
    PanoramicDialogConfig.getGain. cbn.
  change ("gain." +:+ devDriver device +:+ "." +:+ gainName p)
    with (PanoramicDialogConfig.fullName (devDriver device) (gainName p)).
  rewrite length_app. cbn [length].
  replace (length (gainControls d) + 1 - 1)%nat
    with (length (gainControls d) + 0)%nat by lia.
  destruct (PanoramicDialogConfig.gains (dialogConfig d) !! _) as [v|] eqn:E.
  - rewrite bool_decide_eq_true_2 by eauto. cbn.
    by rewrite alter_app_r.
  - rewrite bool_decide_eq_false_2 by (intros [? ?]; done). cbn.
    by rewrite alter_app_r.
Qed.

Lemma addGain_fold_effects device ps d :
  gainControls (fold_left (addGain device) ps d)
  = (gainControls d ++ map (gain_control_for (dialogConfig d) device) ps)%list
  /\ dialogConfig (fold_left (addGain device) ps d) = dialogConfig d
  /\ (forall e, e ∈ log d -> e ∈ log (fold_left (addGain device) ps d))
  /\ noGainLabel (fold_left (addGain device) ps d) = noGainLabel d.
Proof.
  revert d. induction ps as [|p ps IH]; intros d.
  - cbn. by rewrite app_nil_r.
  - cbn [fold_left map].
    destruct (addGain_effects device d p) as (Hg1 & Hc1 & Hl1 & Hn1).
    destruct (IH (addGain device d p)) as (Hg & Hc & Hl & Hn).
    rewrite Hg, Hc, Hn, Hg1, Hc1, Hn1, <- app_assoc.
    repeat split; [done..|]. auto.
Qed.
End GainPanel.

(** C8.  For every device, [refreshGains] removes every existing gain
    control and then holds exactly one control per gain of the device, in
    the order of the device's gain list; each control shows the value the
    configuration holds for (driver, gain name) when there is one and the
    default of the gain otherwise; when the device has no gains the
    placeholder label is shown. *)
Theorem C8_refreshGains (device : Source.Device) (d : PanoramicDialog.t) :
  PanoramicDialog.gainControls (PanoramicDialog.refreshGains device d)
  = map (gain_control_for (PanoramicDialog.dialogConfig d) device)
        (Source.devGains device)
  /\ (forall g, g ∈ PanoramicDialog.gainControls d ->
        PanoramicDialog.GainDeleteLater (PanoramicDialog.dgName g)
        ∈ PanoramicDialog.log (PanoramicDialog.refreshGains device d))
  /\ (forall p, p ∈ Source.devGains device ->
        PanoramicDialog.dgGain (gain_control_for (PanoramicDialog.dialogConfig d) device p)
        = if PanoramicDialogConfig.hasGain (Source.devDriver device) (Source.gainName p)
               (PanoramicDialog.dialogConfig d)
          then PanoramicDialogConfig.getGain (Source.devDriver device) (Source.gainName p)
                 (PanoramicDialog.dialogConfig d)
          else Source.gainDefault p)
  /\ (Source.devGains device = [] ->
      PanoramicDialog.noGainLabel (PanoramicDialog.refreshGains device d)
      = Some "(device has no gains)"
      /\ PanoramicDialog.ItemLabel "(device has no gains)"
         ∈ PanoramicDialog.gainGridLayout
             (PanoramicDialog.ui (PanoramicDialog.refreshGains device d))).
Proof.
  unfold PanoramicDialog.refreshGains.
  destruct (clearGains_effects d) as (Hg0 & Hc0 & Hl0).
  destruct (addGain_fold_effects device (Source.devGains device)
              (PanoramicDialog.clearGains d)) as (Hg & Hc & Hl & Hn).
  rewrite Hg0, Hc0 in Hg. cbn [app] in Hg.
  cbv zeta. rewrite Hg, length_map.
  split; [|split; [|split]].
  - by destruct (Source.devGains device).
  - intros g Hin. specialize (Hl _ (Hl0 g Hin)).
    by destruct (Source.devGains device).
  - intros p _. unfold gain_control_for, PanoramicDialogConfig.hasGain,
      PanoramicDialogConfig.getGain. cbn.
    change ("gain." +:+ Source.devDriver device +:+ "." +:+ Source.gainName p)
      with (PanoramicDialogConfig.fullName (Source.devDriver device) (Source.gainName p)).
    destruct (_ !! _) eqn:E.
    + by rewrite bool_decide_eq_true_2 by eauto.
    + by rewrite bool_decide_eq_false_2 by (intros [? ?]; done).
  - intros Hnone. rewrite Hnone. cbn. split; [done|]. set_solver.
Qed.

Lemma C8_witness :
  PanoramicDialog.gainControls (PanoramicDialog.refreshGains sample_device sample_dialog_gains)
  = [PanoramicDialog.mkDeviceGain (Source.mkGain "TUNER" 20%Q) 20%Q;
     PanoramicDialog.mkDeviceGain (Source.mkGain "LNA" 10%Q) 30%Q]
  /\ PanoramicDialog.GainDeleteLater "VGA"
     ∈ PanoramicDialog.log (PanoramicDialog.refreshGains sample_device sample_dialog_gains)
  /\ PanoramicDialog.noGainLabel (PanoramicDialog.refreshGains null_device sample_dialog_gains)
     = Some "(device has no gains)".
Proof.
  destruct (C8_refreshGains sample_device sample_dialog_gains) as (Hctl & Hdel & _ & _).
  destruct (C8_refreshGains null_device sample_dialog_gains) as (_ & _ & _ & Hnone).
  split; [|split].
  - rewrite Hctl. by vm_compute.
  - apply (Hdel (PanoramicDialog.mkDeviceGain (Source.mkGain "VGA" 0%Q) 12%Q)).
    apply list_elem_of_here.
  - apply Hnone. reflexivity.
Defined.

(** ** Export *)

Lemma string_app_assoc (s1 s2 s3 : string) : (s1 +:+ s2) +:+ s3 = s1 +:+ s2 +:+ s3.
Proof.
  induction s1 as [|c s1 IH]; [done|].
  change (String c ((s1 +:+ s2) +:+ s3) = String c (s1 +:+ s2 +:+ s3)).
  by rewrite IH.
Qed.

Lemma string_app_nil_r (s : string) : s +:+ "" = s.
Proof.
  induction s as [|c s IH]; [done|].
  change (String c (s +:+ "") = String c s). by rewrite IH.
Qed.

Section ExportProofs.
Variable show_float : SUFLOAT -> string.

Lemma write_samples (data : list SUFLOAT) (out : string) :
  fold_left (fun out p => out +:+ show_float p +:+ " ") data out
  = out +:+ samples_text show_float data.
Proof.
  revert out. induction data as [|p data IH]; intros out; cbn [fold_left samples_text foldr].
  - by rewrite string_app_nil_r.
  - rewrite IH. fold (samples_text show_float data).
    by rewrite !string_app_assoc.
Qed.

Lemma write_all_text s :
  SavedSpectrum.write_all show_float s = export_text show_float s.
Proof.
  unfold SavedSpectrum.write_all, export_text. cbv zeta.
  rewrite write_samples.
  by rewrite !string_app_assoc.
Qed.

Lemma exportToFile_fail path s fs :
  SavedSpectrum.openable fs path = false ->
  SavedSpectrum.exportToFile show_float path s fs = (false, fs).
Proof. unfold SavedSpectrum.exportToFile. by intros ->. Qed.

Lemma exportToFile_ok path s fs :
  SavedSpectrum.openable fs path = true ->
  SavedSpectrum.exportToFile show_float path s fs
  = (true, SavedSpectrum.mkFs (SavedSpectrum.openable fs)
             (<[path := export_text show_float s]> (SavedSpectrum.files fs))).
Proof.
  unfold SavedSpectrum.exportToFile. intros ->. cbn.
  by rewrite write_all_text.
Qed.

Lemma emit_all_nil d : PanoramicDialog.emit_all [] d = d.
Proof. destruct d. unfold PanoramicDialog.emit_all. cbn. by rewrite app_nil_r. Qed.

Lemma emit_all_app es1 es2 d :
  PanoramicDialog.emit_all es2 (PanoramicDialog.emit_all es1 d)
  = PanoramicDialog.emit_all (es1 ++ es2) d.
Proof. unfold PanoramicDialog.emit_all. cbn. by rewrite app_assoc. Qed.

(** Failed passes: the loop keeps prompting, the files are untouched. *)
Lemma onExport_failed_passes (bad : list string) rest fs d :
  Forall (fun p => SavedSpectrum.openable fs p = false) bad ->
  PanoramicDialog.onExport show_float
    (map PanoramicDialog.Accepted bad ++ rest) fs d
  = PanoramicDialog.onExport show_float rest fs
      (PanoramicDialog.emit_all (concat (replicate (length bad) failed_pass)) d).
Proof.
  revert d. induction bad as [|p bad IH]; intros d Hbad.
  - cbn. by rewrite emit_all_nil.
  - apply Forall_cons in Hbad as [Hp Hbad].
    cbn [map app PanoramicDialog.onExport].
    change (PanoramicDialog.saved (PanoramicDialog.emit PanoramicDialog.FileDialogExec d))
      with (PanoramicDialog.saved d).
    rewrite exportToFile_fail by done. cbn [negb].
    rewrite IH by done. unfold PanoramicDialog.emit.
    rewrite !emit_all_app. reflexivity.
Qed.

(** The loop ends only on an answer that ends it. *)
Lemma onExport_done_inv responses fs d :
  (PanoramicDialog.onExport show_float responses fs d).1.1 = true ->
  exists bad r rest,
    responses = (map PanoramicDialog.Accepted bad ++ r :: rest)%list
    /\ Forall (fun p => SavedSpectrum.openable fs p = false) bad
    /\ ends_export fs r.
Proof.
  revert d. induction responses as [|r responses IH]; intros d; [done|].
  cbn [PanoramicDialog.onExport].
  destruct r as [|path].
  - intros _. exists [], PanoramicDialog.Rejected, responses. by repeat split.
  - change (PanoramicDialog.saved (PanoramicDialog.emit PanoramicDialog.FileDialogExec d))
      with (PanoramicDialog.saved d).
    destruct (SavedSpectrum.openable fs path) eqn:Hopen.
    + intros _. exists [], (PanoramicDialog.Accepted path), responses.
      by repeat split.
    + rewrite exportToFile_fail by done. cbn [negb]. intros Hdone.
      destruct (IH _ Hdone) as (bad & r & rest & -> & Hbad & Hr).
      exists (path :: bad), r, rest. split; [done|].
      split; [by constructor|done].
Qed.
End ExportProofs.

(** C6.  [exportToFile] returns false exactly when the output file cannot
    be opened, and then leaves the files as they are; otherwise it returns
    true and the file holds the header, the stored start frequency as
    [freqMin], the stored end frequency as [freqMax] and every stored
    sample, in order, in the [PSD] array.  [onExport] shows a warning and a
    new file dialog after every failed export; it ends on the first answer
    that cancels the dialog or names a file that can be opened, and on no
    other. *)
Theorem C6_export (show_float : SUFLOAT -> string) :
  (forall path s fs,
     (SavedSpectrum.exportToFile show_float path s fs).1 = false
     <-> SavedSpectrum.openable fs path = false)
  /\ (forall path s fs,
        SavedSpectrum.openable fs path = false ->
        (SavedSpectrum.exportToFile show_float path s fs).2 = fs)
  /\ (forall path s fs,
        SavedSpectrum.openable fs path = true ->
        SavedSpectrum.exportToFile show_float path s fs
        = (true,
           SavedSpectrum.mkFs (SavedSpectrum.openable fs)
             (<[path :=
                  "%" +:+ SavedSpectrum.nl
                  +:+ "% Panoramic Spectrum file generated by SigDigger" +:+ SavedSpectrum.nl
                  +:+ "%" +:+ SavedSpectrum.nl +:+ SavedSpectrum.nl
                  +:+ "freqMin = " +:+ pretty (SavedSpectrum.start s) +:+ ";" +:+ SavedSpectrum.nl
                  +:+ "freqMax = " +:+ pretty (SavedSpectrum.end_ s) +:+ ";" +:+ SavedSpectrum.nl
                  +:+ "PSD = [ " +:+ samples_text show_float (SavedSpectrum.data s)
                  +:+ "];" +:+ SavedSpectrum.nl]>
                (SavedSpectrum.files fs))))
  /\ (forall bad r rest fs d,
        Forall (fun p => SavedSpectrum.openable fs p = false) bad ->
        ends_export fs r ->
        PanoramicDialog.onExport show_float
          (map PanoramicDialog.Accepted bad ++ r :: rest) fs d
        = (true,
           match r with
           | PanoramicDialog.Rejected => fs
           | PanoramicDialog.Accepted path =>
               (SavedSpectrum.exportToFile show_float path (PanoramicDialog.saved d) fs).2
           end,
           PanoramicDialog.emit_all
             (concat (replicate (length bad) failed_pass)
              ++ [PanoramicDialog.FileDialogExec]) d))
  /\ (forall bad fs d,
        Forall (fun p => SavedSpectrum.openable fs p = false) bad ->
        PanoramicDialog.onExport show_float (map PanoramicDialog.Accepted bad) fs d
        = (false, fs,
           PanoramicDialog.emit_all (concat (replicate (length bad) failed_pass)) d))
  /\ (forall responses fs d,
        (PanoramicDialog.onExport show_float responses fs d).1.1 = true ->
        exists bad r rest,
          responses = (map PanoramicDialog.Accepted bad ++ r :: rest)%list
          /\ Forall (fun p => SavedSpectrum.openable fs p = false) bad
          /\ ends_export fs r).
Proof.
  split; [|split; [|split; [|split; [|split]]]].
  - intros path s fs. unfold SavedSpectrum.exportToFile.
    by destruct (SavedSpectrum.openable fs path).
  - intros path s fs Hopen. by rewrite exportToFile_fail.
  - intros path s fs Hopen. by rewrite exportToFile_ok.
  - intros bad r rest fs d Hbad Hr.
    rewrite onExport_failed_passes by done.
    cbn [PanoramicDialog.onExport]. unfold PanoramicDialog.emit.
    rewrite emit_all_app.
    destruct r as [|path]; [done|].
    cbn in Hr. cbn [PanoramicDialog.saved PanoramicDialog.emit_all].
    by rewrite exportToFile_ok.
  - intros bad fs d Hbad.
    rewrite <- (app_nil_r (map _ bad)).
    by rewrite onExport_failed_passes.
  - apply onExport_done_inv.
Qed.

Lemma C6_witness :
  (PanoramicDialog.onExport sample_show_float
     [PanoramicDialog.Accepted "/root/sweep.m"; PanoramicDialog.Accepted "/tmp/sweep.m";
      PanoramicDialog.Rejected]
     sample_fs sample_dialog_gains).1.1 = true
  /\ SavedSpectrum.files
       (PanoramicDialog.onExport sample_show_float
          [PanoramicDialog.Accepted "/root/sweep.m"; PanoramicDialog.Accepted "/tmp/sweep.m";
           PanoramicDialog.Rejected]
          sample_fs sample_dialog_gains).1.2
     !! "/tmp/sweep.m"
     = Some ("%" +:+ SavedSpectrum.nl
             +:+ "% Panoramic Spectrum file generated by SigDigger" +:+ SavedSpectrum.nl
             +:+ "%" +:+ SavedSpectrum.nl +:+ SavedSpectrum.nl
             +:+ "freqMin = 88000000;" +:+ SavedSpectrum.nl
             +:+ "freqMax = 108000000;" +:+ SavedSpectrum.nl
             +:+ "PSD = [ -70 -65 ];" +:+ SavedSpectrum.nl).
Proof.
  destruct (C6_export sample_show_float) as (_ & _ & _ & Hloop & _ & _).
  specialize (Hloop ["/root/sweep.m"] (PanoramicDialog.Accepted "/tmp/sweep.m")
                    [PanoramicDialog.Rejected] sample_fs sample_dialog_gains).
  cbn [map app] in Hloop. rewrite Hloop.
  - split; [reflexivity|]. by vm_compute.
  - repeat constructor.
  - reflexivity.
Defined.

(** ** MainSpectrum: centre frequency and LO *)

Section CenterFreq.
Import MainSpectrum.
Context {L : Type} `{LCDStores L}.

Lemma getLoFreq_setLoFreq lo (s : t (L:=L)) : getLoFreq (setLoFreq lo s) = lo.
Proof.
  unfold setLoFreq. case_bool_decide as Hlo.
  - unfold getLoFreq, getCenterFreq. cbn.
    rewrite getValue_setValue. unfold getCenterFreq. lia.
  - destruct (decide (lo = getLoFreq s)); [done|contradiction].
Qed.
End CenterFreq.


#[global] Instance PlainLCD_stores : MainSpectrum.LCDStores MainSpectrum.PlainLCD.
Proof. by split. Qed.



(** On a display that enforces its limits the LO offset is preserved as
    well, as long as it lies within half the sample rate of the centre,
    which is the window [updateLimits] gives the LO display. *)
Lemma setCenterFreq_keeps_lo_clamped (freq : Z)
    (s : MainSpectrum.t (L:=MainSpectrum.ClampedLCD)) :
  - (MainSpectrum.cachedRate s ÷ 2) <= MainSpectrum.getLoFreq s
    <= MainSpectrum.cachedRate s ÷ 2 ->
  MainSpectrum.getLoFreq (MainSpectrum.setCenterFreq freq s)
  = MainSpectrum.getLoFreq s.
Proof.
  intros Hlo.
  unfold MainSpectrum.setCenterFreq. cbv zeta.
  set (lo := MainSpectrum.getLoFreq s) in *.
  set (s1 := MainSpectrum.updateLimits _).
  unfold MainSpectrum.setLoFreq. case_bool_decide as Hne.
  - assert (MainSpectrum.clMin (MainSpectrum.loLcd s1)
            = MainSpectrum.clValue (MainSpectrum.fcLcd s1) - MainSpectrum.cachedRate s ÷ 2
            /\ MainSpectrum.clMax (MainSpectrum.loLcd s1)
               = MainSpectrum.clValue (MainSpectrum.fcLcd s1) + MainSpectrum.cachedRate s ÷ 2)
      as [Hmin Hmax].
    { subst s1. unfold MainSpectrum.updateLimits. by cbn. }
    clearbody s1.
    unfold MainSpectrum.getLoFreq, MainSpectrum.getCenterFreq. cbn.
    rewrite Hmin, Hmax.
    set (fc := MainSpectrum.clValue (MainSpectrum.fcLcd s1)).
    unfold MainSpectrum.clamp.
    destruct (Z.ltb_spec (fc + MainSpectrum.cachedRate s ÷ 2) (lo + fc)); [lia|].
    destruct (Z.ltb_spec (lo + fc) (fc - MainSpectrum.cachedRate s ÷ 2)); lia.
  - destruct (decide (lo = MainSpectrum.getLoFreq s1)); [done|contradiction].
Qed.

(** After any call of [setCenterFreq] on such a display the LO offset does
    lie within that window, so every later call preserves it. *)
Lemma setCenterFreq_clamped_window (freq : Z)
    (s : MainSpectrum.t (L:=MainSpectrum.ClampedLCD)) :
  0 <= MainSpectrum.cachedRate s ->
  - (MainSpectrum.cachedRate s ÷ 2)
  <= MainSpectrum.getLoFreq (MainSpectrum.setCenterFreq freq s)
  <= MainSpectrum.cachedRate s ÷ 2
  /\ MainSpectrum.cachedRate (MainSpectrum.setCenterFreq freq s)
     = MainSpectrum.cachedRate s.
Proof.
  intros Hrate.
  assert (0 <= MainSpectrum.cachedRate s ÷ 2) as Hhalf
    by (apply Z.quot_pos; lia).
  unfold MainSpectrum.setCenterFreq. cbv zeta.
  set (lo := MainSpectrum.getLoFreq s).
  set (s1 := MainSpectrum.updateLimits _).
  assert (MainSpectrum.clMin (MainSpectrum.loLcd s1)
          = MainSpectrum.clValue (MainSpectrum.fcLcd s1) - MainSpectrum.cachedRate s ÷ 2
          /\ MainSpectrum.clMax (MainSpectrum.loLcd s1)
             = MainSpectrum.clValue (MainSpectrum.fcLcd s1) + MainSpectrum.cachedRate s ÷ 2
          /\ MainSpectrum.clMin (MainSpectrum.loLcd s1)
             <= MainSpectrum.clValue (MainSpectrum.loLcd s1)
             <= MainSpectrum.clMax (MainSpectrum.loLcd s1)
          /\ MainSpectrum.cachedRate s1 = MainSpectrum.cachedRate s)
    as (Hmin & Hmax & Hval & Hr).
  { subst s1. unfold MainSpectrum.updateLimits. cbn.
    split; [done|]. split; [done|]. split; [|done].
    unfold MainSpectrum.clamp.
    repeat match goal with
           | |- context [Z.ltb ?a ?b] => destruct (Z.ltb_spec a b)
           end; lia. }
  clearbody s1.
  unfold MainSpectrum.setLoFreq. case_bool_decide as Hne.
  - unfold MainSpectrum.getLoFreq, MainSpectrum.getCenterFreq. cbn.
    rewrite Hmin, Hmax. split; [|done].
    set (fc := MainSpectrum.clValue (MainSpectrum.fcLcd s1)).
    unfold MainSpectrum.clamp.
    repeat match goal with
           | |- context [Z.ltb ?a ?b] => destruct (Z.ltb_spec a b)
           end; lia.
  - split; [|done].
    unfold MainSpectrum.getLoFreq, MainSpectrum.getCenterFreq. cbn. lia.
Qed.

(** ** MainSpectrum: band plans *)

Section BandPlans.
Import MainSpectrum MainSpectrumSpec.
Context {L : Type} `{LCD L}.
Variable Entry : Type.
Variable get_float : string -> Q -> Entry -> result Q.
Variable get_string : string -> string -> Entry -> result string.

Local Abbreviation tryPush := (tryPush Entry get_float get_string).
Local Abbreviation tryPushBand := (tryPushBand Entry get_float get_string).
Local Abbreviation good_bands := (good_bands Entry get_float get_string).
Local Abbreviation table_of := (table_of Entry get_float get_string).
Local Abbreviation deserializeFATs_from :=
  (deserializeFATs_from Entry get_float get_string).

Lemma list_insert_alter_same {A : Type} (f : A -> A) (l : list A) i x :
  <[i := x]> (alter f i l) = <[i := x]> l.
Proof.
  revert i. induction l as [|a l IH]; intros [|i]; cbn; [done..|].
  by rewrite IH.
Qed.

Lemma length_resize n l : length (resize n l) = n.
Proof. unfold resize. rewrite length_app, length_take, length_replicate. lia. Qed.

Lemma resize_length l : resize (length l) l = l.
Proof.
  unfold resize. rewrite take_ge by done.
  rewrite Nat.sub_diag. apply app_nil_r.
Qed.

Lemma resize_S_insert n l x :
  <[n := x]> (resize (n + 1) l) = (resize n l ++ [x])%list.
Proof.
  assert (exists y, resize (n + 1) l = (resize n l ++ [y])%list) as [y ->].
  { unfold resize. rewrite Nat.add_1_r.
    destruct (l !! n) as [y|] eqn:Hn.
    - exists y. rewrite (take_S_r _ _ _ Hn).
      apply lookup_lt_Some in Hn.
      replace (S n - length l)%nat with 0%nat by lia.
      replace (n - length l)%nat with 0%nat by lia.
      cbn. by rewrite !app_nil_r.
    - exists None. apply lookup_ge_None in Hn.
      rewrite !take_ge by lia.
      replace (S n - length l)%nat with (S (n - length l)) by lia.
      by rewrite replicate_S_end, app_assoc. }
  rewrite <- (length_resize n l) at 1.
  rewrite <- (Nat.add_0_r (length (resize n l))).
  by rewrite insert_app_r.
Qed.

(** The inner loop pushes the bands that deserialize and skips the
    others; it touches nothing but the table at [ndx]. *)
Lemma tryPushBand_fold ndx (entries : list Entry) (s : t (L:=L)) fat :
  FATs s !! ndx = Some (Some fat) ->
  FATs (fold_left (tryPushBand ndx entries) (seq 0 (length entries)) s)
  = <[ndx := Some (mkFAT (fatName fat) (fatBands fat ++ good_bands entries))]> (FATs s)
  /\ log (fold_left (tryPushBand ndx entries) (seq 0 (length entries)) s) = log s.
Proof.
  unfold MainSpectrum.tryPushBand.
  rewrite (fold_left_seq_lookup (tryPush ndx) entries s).
  revert s fat. induction entries as [|e entries IH]; intros s fat Hfat.
  - cbn. rewrite app_nil_r. split; [|done].
    symmetry. apply list_insert_id. by destruct fat.
  - cbn [fold_left]. unfold MainSpectrumSpec.good_bands. cbn [omap].
    assert (tryPush ndx s (Some e)
            = match deserializeFrequencyBand Entry get_float get_string e with
              | Ok band => with_FATs (alter (fmap (pushBand band)) ndx (FATs s)) s
              | Throw _ => s
              end) as ->.
    { unfold MainSpectrum.tryPush.
      by destruct (deserializeFrequencyBand Entry get_float get_string e) as [?|[]]. }
    destruct (deserializeFrequencyBand Entry get_float get_string e)
      as [band|ex] eqn:Hband.
    + edestruct (IH (with_FATs (alter (fmap (pushBand band)) ndx (FATs s)) s)
                    (pushBand band fat)) as [Hf Hl].
      { cbn. by rewrite list_lookup_alter_eq, Hfat. }
      rewrite Hf, Hl. cbn. rewrite Hband. split; [|done].
      by rewrite list_insert_alter_same, <- app_assoc.
    + cbn. rewrite Hband. by apply IH.
Qed.

Lemma deserializeFATs_from_spec (srcs : list (FATSource Entry)) ndx (s : t (L:=L)) :
  Forall (bands_is_set Entry) srcs ->
  (deserializeFATs_from ndx srcs s).2 = None
  /\ log (deserializeFATs_from ndx srcs s).1
     = (log s ++ map (fun p => EmitNewBandPlan (srcName Entry p)) srcs)%list
  /\ FATs (deserializeFATs_from ndx srcs s).1
     = match srcs with
       | [] => FATs s
       | _ => (resize ndx (FATs s) ++ map (fun p => Some (table_of p)) srcs)%list
       end.
Proof.
  revert ndx s. induction srcs as [|p rest IH]; intros ndx s Hset.
  - cbn. by rewrite app_nil_r.
  - apply Forall_cons in Hset as [Hp Hrest].
    cbn [MainSpectrum.deserializeFATs_from]. cbv zeta.
    unfold bands_is_set in Hp.
    destruct (srcBands Entry p) as [entries|] eqn:Hbands; [|done].
    assert (with_FATs
              (<[ndx := Some (newFAT (srcName Entry p))]>
                 (FATs (with_FATs (resize (ndx + 1) (FATs s)) s)))
              (with_FATs (resize (ndx + 1) (FATs s)) s)
            = with_FATs (resize ndx (FATs s) ++ [Some (newFAT (srcName Entry p))]) s)
      as ->.
    { unfold with_FATs. cbn. by rewrite resize_S_insert. }
    set (s1 := with_FATs _ s).
    assert (FATs s1 !! ndx = Some (Some (newFAT (srcName Entry p)))) as Hnew.
    { subst s1. cbn [FATs with_FATs].
      rewrite lookup_app_r by (rewrite length_resize; lia).
      by rewrite length_resize, Nat.sub_diag. }
    destruct (tryPushBand_fold ndx entries s1 _ Hnew) as [Hf Hl].
    set (s2 := fold_left _ _ s1) in *.
    assert (FATs s2 = (resize ndx (FATs s) ++
              [Some (mkFAT (srcName Entry p) (good_bands entries))])%list) as Hf2.
    { rewrite Hf. subst s1. cbn [FATs with_FATs].
      rewrite <- (length_resize ndx (FATs s)) at 1.
      rewrite <- (Nat.add_0_r (length (resize ndx (FATs s)))).
      by rewrite insert_app_r. }
    assert (FATs s2 !! ndx
            = Some (Some (mkFAT (srcName Entry p) (good_bands entries)))) as ->.
    { rewrite Hf2. rewrite lookup_app_r by (rewrite length_resize; lia).
      by rewrite length_resize, Nat.sub_diag. }
    cbn [fatName].
    destruct (IH (ndx + 1)%nat (emit (EmitNewBandPlan (srcName Entry p)) s2) Hrest)
      as (Hexc & Hlog & Hfats).
    rewrite Hexc, Hlog, Hfats. cbn [log emit FATs]. rewrite Hl.
    split; [done|]. split.
    { subst s1. cbn [log with_FATs map]. by rewrite <- app_assoc. }
    rewrite Hf2.
    assert (resize (ndx + 1)
              (resize ndx (FATs s) ++
               [Some (mkFAT (srcName Entry p) (good_bands entries))])
            = (resize ndx (FATs s) ++
               [Some (mkFAT (srcName Entry p) (good_bands entries))])%list) as Hres.
    { rewrite <- (resize_length (_ ++ _)) at 2.
      rewrite length_app, length_resize. done. }
    rewrite Hres. unfold MainSpectrumSpec.table_of at 2.
    destruct rest; cbn [map]; rewrite Hbands, <- ?app_assoc; done.
Qed.
(** Tables whose bands are sets do not stop the outer loop. *)
Lemma deserializeFATs_from_app (pre rest : list (FATSource Entry)) (ndx : nat)
    (s : t (L:=L)) :
  Forall (bands_is_set Entry) pre ->
  deserializeFATs_from ndx (pre ++ rest) s
  = deserializeFATs_from (ndx + length pre) rest (deserializeFATs_from ndx pre s).1.
Proof.
  revert ndx s. induction pre as [|p pre IH]; intros ndx s Hset.
  - cbn. by rewrite Nat.add_0_r.
  - apply Forall_cons in Hset as [Hp Hpre].
    cbn [app length MainSpectrum.deserializeFATs_from]. cbv zeta.
    unfold bands_is_set in Hp.
    destruct (srcBands Entry p) as [entries|]; [|done].
    rewrite IH by done. f_equal. lia.
Qed.

(** Whatever the remaining tables are, the outer loop leaves the tables
    registered below [ndx] and the signals already emitted as they are. *)
Lemma deserializeFATs_from_frame (srcs : list (FATSource Entry)) (ndx : nat)
    (s : t (L:=L)) :
  (ndx <= length (FATs s))%nat ->
  take ndx (FATs (deserializeFATs_from ndx srcs s).1) = take ndx (FATs s)
  /\ exists more, log (deserializeFATs_from ndx srcs s).1 = (log s ++ more)%list.
Proof.
  revert ndx s. induction srcs as [|p rest IH]; intros ndx s Hlen.
  - cbn. split; [done|]. exists []. by rewrite app_nil_r.
  - cbn [MainSpectrum.deserializeFATs_from]. cbv zeta.
    assert (with_FATs
              (<[ndx := Some (newFAT (srcName Entry p))]>
                 (FATs (with_FATs (resize (ndx + 1) (FATs s)) s)))
              (with_FATs (resize (ndx + 1) (FATs s)) s)
            = with_FATs (resize ndx (FATs s) ++ [Some (newFAT (srcName Entry p))]) s)
      as ->.
    { unfold with_FATs. cbn. by rewrite resize_S_insert. }
    set (s1 := with_FATs _ s).
    assert (take ndx (resize ndx (FATs s)) = take ndx (FATs s)) as Hkeep.
    { unfold resize. replace (ndx - length (FATs s))%nat with 0%nat by lia.
      cbn. by rewrite app_nil_r, take_take, Nat.min_id. }
    assert (take ndx (FATs s1) = take ndx (FATs s)) as Hs1.
    { subst s1. cbn [FATs with_FATs].
      rewrite take_app_le by (rewrite length_resize; lia). done. }
    destruct (srcBands Entry p) as [entries|].
    + assert (FATs s1 !! ndx = Some (Some (newFAT (srcName Entry p)))) as Hnew.
      { subst s1. cbn [FATs with_FATs].
        rewrite lookup_app_r by (rewrite length_resize; lia).
        by rewrite length_resize, Nat.sub_diag. }
      destruct (tryPushBand_fold ndx entries s1 _ Hnew) as [Hf Hl].
      set (s2 := fold_left _ _ s1) in *.
      set (s3 := match FATs s2 !! ndx with
                 | Some (Some fat) => emit (EmitNewBandPlan (fatName fat)) s2
                 | _ => s2
                 end).
      assert (FATs s3 = FATs s2
              /\ exists more, log s3 = (log s ++ more)%list) as [Hf3 [more3 Hl3]].
      { subst s3. destruct (FATs s2 !! ndx) as [[fat|]|]; cbn; rewrite Hl.
        - split; [done|]. by eexists.
        - split; [done|]. exists []. by rewrite app_nil_r.
        - split; [done|]. exists []. by rewrite app_nil_r. }
      assert (length (FATs s3) = (ndx + 1)%nat) as Hlen3.
      { rewrite Hf3, Hf, length_insert. subst s1. cbn [FATs with_FATs].
        rewrite length_app, length_resize. done. }
      destruct (IH (ndx + 1)%nat s3 ltac:(lia)) as [Htake [more Hlog]].
      split.
      * apply (f_equal (take ndx)) in Htake.
        rewrite !take_take in Htake.
        replace (ndx `min` (ndx + 1))%nat with ndx in Htake by lia.
        rewrite Htake, Hf3, Hf, take_insert_ge by lia. done.
      * exists (more3 ++ more)%list. by rewrite Hlog, Hl3, app_assoc.
    + cbn [fst]. split; [done|]. exists []. subst s1. cbn. by rewrite app_nil_r.
Qed.
(** The first table whose ["bands"] field is not a set: it is created and
    registered without bands, [SU_ATTEMPT] throws, and the loop is left
    before the signal and before any later table. *)
Lemma deserializeFATs_from_first_broken (pre rest : list (FATSource Entry))
    (b : FATSource Entry) (s : t (L:=L)) :
  Forall (bands_is_set Entry) pre ->
  srcBands Entry b = BandsOther Entry ->
  (deserializeFATs_from 0 (pre ++ b :: rest) s).2 = Some SuscanException
  /\ FATs (deserializeFATs_from 0 (pre ++ b :: rest) s).1
     = (map (fun p => Some (table_of p)) pre
        ++ [Some (newFAT (srcName Entry b))])%list
  /\ log (deserializeFATs_from 0 (pre ++ b :: rest) s).1
     = (log s ++ map (fun p => EmitNewBandPlan (srcName Entry p)) pre)%list.
Proof.
  intros Hset Hb.
  rewrite (deserializeFATs_from_app pre (b :: rest) 0%nat s Hset).
  destruct (deserializeFATs_from_spec pre 0%nat s Hset) as (_ & Hlog & Hfats).
  set (s1 := (deserializeFATs_from 0 pre s).1) in *. clearbody s1.
  cbn [Nat.add MainSpectrum.deserializeFATs_from]. cbv zeta. rewrite Hb.
  cbn [fst snd FATs log with_FATs].
  split; [done|]. split; [|exact Hlog].
  rewrite resize_S_insert. f_equal.
  rewrite Hfats. destruct pre as [|p pre]; [done|].
  change (resize 0 (FATs s)) with (@nil (option FrequencyAllocationTable)).
  cbn [app].
  rewrite <- (length_map (fun p => Some (table_of p)) (p :: pre)).
  apply resize_length.
Qed.
End BandPlans.

(** C5 (amended).  In [deserializeFATs], every table up to the first one
    whose ["bands"] field is not a set is created and registered under its
    name, in order, and a [newBandPlan] signal is emitted for it; a band
    whose deserialization raises an exception is the only thing left out:
    the table holds exactly the bands that deserialize, in the order of the
    set.  When all tables have a set of bands, these are all the tables and
    all the signals, and no exception leaves [deserializeFATs].  The first
    table whose ["bands"] field is not a set is created and registered
    without bands, no signal is emitted for it, the exception leaves
    [deserializeFATs], and no later table is created or signalled. *)
Theorem C5_deserializeFATs_skips_bad_bands {L : Type} `{MainSpectrum.LCD L}
    (Entry : Type)
    (get_float : string -> Q -> Entry -> MainSpectrum.result Q)
    (get_string : string -> string -> Entry -> MainSpectrum.result string)
    (pre rest : list (MainSpectrum.FATSource Entry)) (s : MainSpectrum.t (L:=L)) :
  Forall (MainSpectrumSpec.bands_is_set Entry) pre ->
  (pre <> [] ->
   take (length pre)
     (MainSpectrum.FATs
        (MainSpectrum.deserializeFATs Entry get_float get_string (pre ++ rest) s).1)
   = map (fun p => Some (MainSpectrumSpec.table_of Entry get_float get_string p)) pre)
  /\ (exists more,
        MainSpectrum.log
          (MainSpectrum.deserializeFATs Entry get_float get_string (pre ++ rest) s).1
        = (MainSpectrum.log s
           ++ map (fun p => MainSpectrum.EmitNewBandPlan (MainSpectrum.srcName Entry p)) pre
           ++ more)%list)
  /\ ((MainSpectrum.deserializeFATs Entry get_float get_string pre s).2 = None
      /\ MainSpectrum.log (MainSpectrum.deserializeFATs Entry get_float get_string pre s).1
         = (MainSpectrum.log s
            ++ map (fun p => MainSpectrum.EmitNewBandPlan (MainSpectrum.srcName Entry p)) pre)%list
      /\ MainSpectrum.FATs (MainSpectrum.deserializeFATs Entry get_float get_string pre s).1
         = match pre with
           | [] => MainSpectrum.FATs s
           | _ => map (fun p => Some (MainSpectrumSpec.table_of Entry get_float get_string p)) pre
           end)
  /\ (forall p entries e band,
        p ∈ pre -> MainSpectrum.srcBands Entry p = MainSpectrum.BandsSet Entry entries ->
        e ∈ entries ->
        MainSpectrum.deserializeFrequencyBand Entry get_float get_string e
        = MainSpectrum.Ok band ->
        band ∈ MainSpectrum.fatBands
                 (MainSpectrumSpec.table_of Entry get_float get_string p))
  /\ (forall b later,
        MainSpectrum.srcBands Entry b = MainSpectrum.BandsOther Entry ->
        (MainSpectrum.deserializeFATs Entry get_float get_string
           (pre ++ b :: later) s).2 = Some MainSpectrum.SuscanException
        /\ MainSpectrum.FATs
             (MainSpectrum.deserializeFATs Entry get_float get_string
                (pre ++ b :: later) s).1
           = (map (fun p => Some (MainSpectrumSpec.table_of Entry get_float get_string p)) pre
              ++ [Some (MainSpectrum.newFAT (MainSpectrum.srcName Entry b))])%list
        /\ MainSpectrum.log
             (MainSpectrum.deserializeFATs Entry get_float get_string
                (pre ++ b :: later) s).1
           = (MainSpectrum.log s
              ++ map (fun p => MainSpectrum.EmitNewBandPlan (MainSpectrum.srcName Entry p)) pre)%list).
Proof.
  intros Hset.
  assert (Hbroken := fun b later =>
            deserializeFATs_from_first_broken Entry get_float get_string
              pre later b s Hset).
  unfold MainSpectrum.deserializeFATs in *.
  destruct (deserializeFATs_from_spec Entry get_float get_string pre 0%nat s Hset)
    as (Hexc & Hlog & Hfats).
  assert (MainSpectrum.FATs
            (MainSpectrum.deserializeFATs_from Entry get_float get_string 0 pre s).1
          = match pre with
            | [] => MainSpectrum.FATs s
            | _ => map (fun p => Some (MainSpectrumSpec.table_of Entry get_float get_string p)) pre
            end) as Hfats'.
  { rewrite Hfats. by destruct pre. }
  rewrite (deserializeFATs_from_app Entry get_float get_string pre rest 0%nat s Hset).
  cbn [Nat.add].
  split; [|split; [|split; [|split]]].
  - intros Hne.
    assert (MainSpectrum.FATs
              (MainSpectrum.deserializeFATs_from Entry get_float get_string 0 pre s).1
            = map (fun p => Some (MainSpectrumSpec.table_of Entry get_float get_string p)) pre)
      as Hpre by (rewrite Hfats'; by destruct pre).
    destruct (deserializeFATs_from_frame Entry get_float get_string rest (length pre)
                (MainSpectrum.deserializeFATs_from Entry get_float get_string 0 pre s).1)
      as [Htake _].
    { by rewrite Hpre, length_map. }
    rewrite Htake, Hpre. apply take_ge. by rewrite length_map.
  - destruct (deserializeFATs_from_frame Entry get_float get_string rest 0%nat
                (MainSpectrum.deserializeFATs_from Entry get_float get_string 0 pre s).1)
      as [_ [more Hmore]]; [lia|].
    destruct (decide (length pre = 0%nat)) as [Hz|Hnz].
    + apply nil_length_inv in Hz. subst pre. cbn. cbn in Hmore. by eexists.
    + destruct (deserializeFATs_from_frame Entry get_float get_string rest (length pre)
                  (MainSpectrum.deserializeFATs_from Entry get_float get_string 0 pre s).1)
        as [_ [more' Hmore']].
      { rewrite Hfats'. destruct pre; [done|]. by rewrite length_map. }
      exists more'. by rewrite Hmore', Hlog, <- app_assoc.
  - done.
  - intros p entries e band _ Hbands He Hok.
    unfold MainSpectrumSpec.table_of. rewrite Hbands. cbn.
    apply list_elem_of_omap. exists e. by rewrite Hok.
  - intros b later Hb. by apply Hbroken.
Qed.

Lemma C5_witness :
  take 2
    (MainSpectrum.FATs
       (MainSpectrum.deserializeFATs _ sample_get_float sample_get_string
          (sample_fats ++ [sample_broken_fat]) sample_spectrum).1)
  = [Some (MainSpectrum.mkFAT "ITU Region 1"
             [MainSpectrum.mkBand 87500000 108000000 "BROADCASTING" "" "" "#1f1f1f";
              MainSpectrum.mkBand 144000000 146000000 "AMATEUR" "" "" "#1f1f1f"]);
     Some (MainSpectrum.mkFAT "Empty" [])]
  /\ MainSpectrum.log
       (MainSpectrum.deserializeFATs _ sample_get_float sample_get_string
          sample_fats sample_spectrum).1
     = [MainSpectrum.EmitNewBandPlan "ITU Region 1"; MainSpectrum.EmitNewBandPlan "Empty"].
Proof.
  destruct (C5_deserializeFATs_skips_bad_bands _ sample_get_float sample_get_string
              sample_fats [sample_broken_fat] sample_spectrum)
    as (Htake & _ & (_ & Hlog & _) & _).
  - repeat constructor.
  - split; [apply Htake; discriminate | exact Hlog].
Defined.

(** A store whose first table has a ["bands"] field that is not a set.
    The second table has an entry whose deserialization raises an
    exception and two that deserialize, yet it is not created, none of its
    bands is pushed and no [newBandPlan] is emitted for it: the loop is
    left at the first table. *)
Lemma C5_tables_after_broken_not_registered :
  MainSpectrum.deserializeFrequencyBand _ sample_get_float sample_get_string None
  = MainSpectrum.Throw MainSpectrum.SuscanException
  /\ (MainSpectrum.deserializeFATs _ sample_get_float sample_get_string
        (sample_broken_fat :: sample_fats) sample_spectrum).2
     = Some MainSpectrum.SuscanException
  /\ MainSpectrum.FATs
       (MainSpectrum.deserializeFATs _ sample_get_float sample_get_string
          (sample_broken_fat :: sample_fats) sample_spectrum).1
     = [Some (MainSpectrum.mkFAT "Broken" [])]
  /\ MainSpectrum.log
       (MainSpectrum.deserializeFATs _ sample_get_float sample_get_string
          (sample_broken_fat :: sample_fats) sample_spectrum).1
     = [].
Proof. repeat split; by vm_compute. Qed.

(** * Further properties *)

(** ** The Gqrx palette *)

Section Palette.
Import MainSpectrumPalette.

Lemma unit_colorb_spec c :
  unit_colorb c = true ->
  unit_interval c.1.1 /\ unit_interval c.1.2 /\ unit_interval c.2.
Proof.
  unfold unit_colorb, unit_interval.
  rewrite !andb_true_iff, !Qle_bool_iff. tauto.
Qed.

Lemma gqrx_table_unit : forallb unit_colorb getGqrxPalette.2 = true.
Proof. vm_compute. reflexivity. Qed.

Lemma gqrx_table_lookup (i : nat) :
  (i < 256)%nat -> getGqrxPalette.2 !! i = Some (color (Z.of_nat i)).
Proof.
  intros Hi. unfold getGqrxPalette. cbn [snd].
  rewrite list_lookup_fmap, lookup_seq_lt by done. reflexivity.
Qed.
End Palette.

(** X1.  Every one of the 256 rows that [getGqrxPalette] computes is a
    valid colour: its red, green and blue components all lie between 0
    and 1.  The table has exactly 256 rows and is named "Gqrx". *)
Theorem gqrx_palette_components_in_unit_interval :
  MainSpectrumPalette.getGqrxPalette.1 = "Gqrx"
  /\ length MainSpectrumPalette.getGqrxPalette.2 = 256%nat
  /\ forall i, 0 <= i < 256 ->
       MainSpectrumPalette.getGqrxPalette.2 !! Z.to_nat i
         = Some (MainSpectrumPalette.color i)
       /\ unit_interval (MainSpectrumPalette.color i).1.1
       /\ unit_interval (MainSpectrumPalette.color i).1.2
       /\ unit_interval (MainSpectrumPalette.color i).2.
Proof.
  split; [reflexivity|]. split; [reflexivity|].
  intros i Hi.
  assert (Hl : MainSpectrumPalette.getGqrxPalette.2 !! Z.to_nat i
               = Some (MainSpectrumPalette.color i)).
  { rewrite gqrx_table_lookup by lia. by rewrite Z2Nat.id by lia. }
  split; [exact Hl|].
  apply unit_colorb_spec.
  pose proof gqrx_table_unit as Hall.
  rewrite forallb_forall in Hall. apply Hall.
  apply list_elem_of_In. eapply list_elem_of_lookup_2. exact Hl.
Qed.

Lemma gqrx_palette_witness :
  unit_interval (MainSpectrumPalette.color 255).1.2.
Proof.
  apply (proj2 (proj2 gqrx_palette_components_in_unit_interval) 255). lia.
Defined.

(** ** Frequency units *)

(** X2.  For every [qint64] frequency other than -2^63, whose negation
    overflows, [getFrequencyUnits] returns the largest of the units 1,
    10^3, 10^6 and 10^9 that does not exceed the magnitude of the
    frequency, taking a magnitude below 1 as 1: the result is one of the
    four units, it does not exceed that magnitude, no unit that does not
    exceed it is larger, and the sign of the frequency does not matter. *)
Theorem getFrequencyUnits_largest_unit (freq : Z) :
  - 2 ^ 63 < freq < 2 ^ 63 ->
  let u := MainSpectrum.getFrequencyUnits freq in
  let units := [1; 10 ^ 3; 10 ^ 6; 10 ^ 9] in
  u ∈ units
  /\ u <= Z.max 1 (Z.abs freq)
  /\ (forall v, v ∈ units -> v <= Z.max 1 (Z.abs freq) -> v <= u)
  /\ MainSpectrum.getFrequencyUnits (- freq) = u.
Proof.
  intros _. cbv zeta. unfold MainSpectrum.getFrequencyUnits. cbv zeta.
  change (10 ^ 3) with 1000. change (10 ^ 6) with 1000000.
  change (10 ^ 9) with 1000000000.
  assert (Hin : forall v, v ∈ [1; 1000; 1000000; 1000000000] ->
                  v = 1 \/ v = 1000 \/ v = 1000000 \/ v = 1000000000).
  { intros v Hv.
    repeat (apply elem_of_cons in Hv as [->|Hv]; [tauto|]).
    by apply elem_of_nil in Hv. }
  destruct (Z.ltb_spec freq 0), (Z.ltb_spec (- freq) 0);
  repeat match goal with
         | |- context [Z.ltb ?a ?b] => destruct (Z.ltb_spec a b)
         end;
  (split; [rewrite !elem_of_cons; tauto|]);
  (split; [lia|]);
  (split; [intros v Hv Hle; destruct (Hin v Hv) as [-> | [-> | [-> | ->]]]; lia|]);
  first [done | lia].
Qed.

Lemma getFrequencyUnits_witness :
  MainSpectrum.getFrequencyUnits (-145800000) <= Z.max 1 (Z.abs (-145800000))
  /\ MainSpectrum.getFrequencyUnits 145800000
     = MainSpectrum.getFrequencyUnits (-145800000).
Proof.
  destruct (getFrequencyUnits_largest_unit (-145800000)) as (_ & Hle & _ & Hsym);
    [lia|].
  split; [exact Hle | exact Hsym].
Defined.

(** ** MainSpectrum: signals of the frequency setters *)

(** In the statements below the frequency displays are taken not to call
    back into the slots of the main spectrum when the program sets their
    value, as in the definitions. *)

(** X3.  On a display that shows what it is given, [setLoFreq lo] leaves
    the LO offset at [lo] and the centre frequency where it was.  The
    waterfall is told and [loChanged] is emitted only when [lo] differs
    from the current offset; otherwise the call changes nothing at all. *)
Theorem setLoFreq_signals_only_on_change {L : Type} `{MainSpectrum.LCDStores L}
    (lo : Z) (s : MainSpectrum.t (L:=L)) :
  MainSpectrum.getLoFreq (MainSpectrum.setLoFreq lo s) = lo
  /\ MainSpectrum.getCenterFreq (MainSpectrum.setLoFreq lo s)
     = MainSpectrum.getCenterFreq s
  /\ MainSpectrum.log (MainSpectrum.setLoFreq lo s)
     = (MainSpectrum.log s
        ++ if decide (lo = MainSpectrum.getLoFreq s) then []
           else [MainSpectrum.WfSetFilterOffset lo; MainSpectrum.EmitLoChanged lo])%list
  /\ (lo = MainSpectrum.getLoFreq s -> MainSpectrum.setLoFreq lo s = s).
Proof.
  split; [apply getLoFreq_setLoFreq|].
  unfold MainSpectrum.setLoFreq.
  destruct (decide (lo = MainSpectrum.getLoFreq s)) as [Heq|Hne].
  - rewrite bool_decide_eq_false_2 by (intros Hc; by apply Hc).
    by rewrite app_nil_r.
  - rewrite bool_decide_eq_true_2 by done. cbn.
    split; [done|]. split; [by rewrite <- app_assoc|]. intros Hc; contradiction.
Qed.

Lemma setLoFreq_signals_witness :
  MainSpectrum.log (MainSpectrum.setLoFreq 250000 sample_spectrum) = []
  /\ MainSpectrum.log (MainSpectrum.setLoFreq (-125000) sample_spectrum)
     = [MainSpectrum.WfSetFilterOffset (-125000);
        MainSpectrum.EmitLoChanged (-125000)].
Proof.
  split.
  - exact (proj1 (proj2 (proj2 (setLoFreq_signals_only_on_change 250000 sample_spectrum)))).
  - exact (proj1 (proj2 (proj2 (setLoFreq_signals_only_on_change (-125000) sample_spectrum)))).
Defined.

(** X4.  On a display that shows what it is given, [setCenterFreq freq]
    always forwards the centre (as [quint64]) and its unit to the
    waterfall.  Although the LO offset is preserved, [loChanged] is
    emitted with the unchanged offset, and the waterfall's filter offset
    set again, exactly when [freq] differs from the previous centre. *)
Theorem setCenterFreq_signals {L : Type} `{MainSpectrum.LCDStores L}
    (freq : Z) (s : MainSpectrum.t (L:=L)) :
  MainSpectrum.log (MainSpectrum.setCenterFreq freq s)
  = (MainSpectrum.log s
     ++ [MainSpectrum.WfSetCenterFreq (to_quint64 freq);
         MainSpectrum.WfSetFreqUnits (MainSpectrum.getFrequencyUnits freq)]
     ++ if decide (freq = MainSpectrum.getCenterFreq s) then []
        else [MainSpectrum.WfSetFilterOffset (MainSpectrum.getLoFreq s);
              MainSpectrum.EmitLoChanged (MainSpectrum.getLoFreq s)])%list.
Proof.
  unfold MainSpectrum.setCenterFreq. cbv zeta.
  set (lo := MainSpectrum.getLoFreq s).
  set (s1 := MainSpectrum.updateLimits _).
  assert (Hlog : MainSpectrum.log s1
                 = (MainSpectrum.log s
                    ++ [MainSpectrum.WfSetCenterFreq (to_quint64 freq);
                        MainSpectrum.WfSetFreqUnits
                          (MainSpectrum.getFrequencyUnits freq)])%list).
  { subst s1. unfold MainSpectrum.updateLimits. cbn. by rewrite <- app_assoc. }
  assert (Hlo1 : MainSpectrum.getLoFreq s1
                 = lo + MainSpectrum.getCenterFreq s - freq).
  { subst s1 lo.
    unfold MainSpectrum.updateLimits, MainSpectrum.getLoFreq,
      MainSpectrum.getCenterFreq. cbn.
    rewrite ?MainSpectrum.getValue_setMax, ?MainSpectrum.getValue_setMin,
      ?MainSpectrum.getValue_setValue. lia. }
  clearbody s1.
  unfold MainSpectrum.setLoFreq. rewrite Hlo1.
  destruct (decide (freq = MainSpectrum.getCenterFreq s)) as [Heq|Hne].
  - rewrite bool_decide_eq_false_2 by lia. by rewrite Hlog, app_nil_r.
  - rewrite bool_decide_eq_true_2 by lia. cbn. rewrite Hlog.
    by rewrite <- !app_assoc.
Qed.

Lemma setCenterFreq_signals_witness :
  MainSpectrum.log (MainSpectrum.setCenterFreq 433920000 sample_spectrum)
  = [MainSpectrum.WfSetCenterFreq 433920000;
     MainSpectrum.WfSetFreqUnits 1000000;
     MainSpectrum.WfSetFilterOffset 250000;
     MainSpectrum.EmitLoChanged 250000].
Proof.
  exact (setCenterFreq_signals 433920000 sample_spectrum).
Defined.

(** X5.  On frequency displays that show the value they are given, keep
    it when their limits are moved and do not call back into the slots
    when the program sets them: when the waterfall reports a new centre
    through [onNewCenterFreq], the centre display follows it but the LO
    display is left alone, so the absolute demodulator frequency (centre
    plus LO offset) is unchanged, the LO offset moves by the opposite of
    the centre's move, and no signal is emitted. *)
Theorem onNewCenterFreq_keeps_absolute_lo {L : Type} `{MainSpectrum.LCDStores L}
    (freq : Z) (s : MainSpectrum.t (L:=L)) :
  MainSpectrum.getCenterFreq (MainSpectrumSlots.onNewCenterFreq freq s) = freq
  /\ MainSpectrum.getLoFreq (MainSpectrumSlots.onNewCenterFreq freq s) + freq
     = MainSpectrum.getLoFreq s + MainSpectrum.getCenterFreq s
  /\ MainSpectrum.log (MainSpectrumSlots.onNewCenterFreq freq s)
     = MainSpectrum.log s.
Proof.
  unfold MainSpectrumSlots.onNewCenterFreq, MainSpectrum.updateLimits,
    MainSpectrum.getLoFreq, MainSpectrum.getCenterFreq. cbn.
  rewrite ?MainSpectrum.getValue_setMax, ?MainSpectrum.getValue_setMin,
    ?MainSpectrum.getValue_setValue.
  split; [done|]. split; [lia|done].
Qed.

Lemma onNewCenterFreq_witness :
  MainSpectrum.getLoFreq (MainSpectrumSlots.onNewCenterFreq 100100000 sample_spectrum)
  + 100100000
  = 250000 + 100000000.
Proof.
  exact (proj1 (proj2 (onNewCenterFreq_keeps_absolute_lo 100100000 sample_spectrum))).
Defined.

(** X6.  On frequency displays that show the value they are given, keep
    it when their limits are moved and do not call back into the slots
    when the program sets them: [onWfLoChanged] makes the LO display
    follow the filter offset of the waterfall, so the LO offset read back
    afterwards is that filter offset and the centre is untouched.  Unlike
    [setLoFreq], the slot has no guard: it emits [loChanged] with the
    offset on every call, also when the offset is the one the main
    spectrum already had. *)
Theorem onWfLoChanged_follows_waterfall {L : Type} `{MainSpectrum.LCDStores L}
    (offset : Z) (s : MainSpectrum.t (L:=L)) :
  MainSpectrum.getLoFreq (MainSpectrumSlots.onWfLoChanged offset s) = offset
  /\ MainSpectrum.getCenterFreq (MainSpectrumSlots.onWfLoChanged offset s)
     = MainSpectrum.getCenterFreq s
  /\ MainSpectrum.log (MainSpectrumSlots.onWfLoChanged offset s)
     = (MainSpectrum.log s ++ [MainSpectrum.EmitLoChanged offset])%list
  /\ MainSpectrum.log
       (MainSpectrum.setLoFreq offset (MainSpectrumSlots.onWfLoChanged offset s))
     = MainSpectrum.log (MainSpectrumSlots.onWfLoChanged offset s).
Proof.
  assert (Hlo : MainSpectrum.getLoFreq (MainSpectrumSlots.onWfLoChanged offset s)
                = offset).
  { unfold MainSpectrumSlots.onWfLoChanged, MainSpectrum.getLoFreq,
      MainSpectrum.getCenterFreq. cbn.
    rewrite MainSpectrum.getValue_setValue. lia. }
  split; [exact Hlo|]. split; [done|]. split.
  - unfold MainSpectrumSlots.onWfLoChanged. cbv zeta. cbn. f_equal. f_equal. f_equal.
    unfold MainSpectrum.getLoFreq, MainSpectrum.getCenterFreq. cbn.
    rewrite MainSpectrum.getValue_setValue. lia.
  - unfold MainSpectrum.setLoFreq. rewrite Hlo.
    by rewrite bool_decide_eq_false_2 by (intros Hc; by apply Hc).
Qed.

Lemma onWfLoChanged_witness :
  MainSpectrum.getLoFreq (MainSpectrumSlots.onWfLoChanged 250000 sample_spectrum)
  = 250000
  /\ MainSpectrum.log (MainSpectrumSlots.onWfLoChanged 250000 sample_spectrum)
     = [MainSpectrum.EmitLoChanged 250000].
Proof.
  split.
  - exact (proj1 (onWfLoChanged_follows_waterfall 250000 sample_spectrum)).
  - exact (proj1 (proj2 (proj2 (onWfLoChanged_follows_waterfall 250000 sample_spectrum)))).
Defined.

(** ** MainSpectrum: filter bandwidth, skewness and zoom *)

Section FilterProofs.
Import MainSpectrum MainSpectrumFilter.
Context {L : Type} `{LCD L}.

Lemma to_int_small z : 0 <= z < 2 ^ 31 -> to_int z = z.
Proof. intros Hz. unfold to_int. rewrite Z.mod_small; lia. Qed.

Lemma to_uint_small z : 0 <= z < 2 ^ 32 -> to_uint z = z.
Proof. intros Hz. unfold to_uint. rewrite Z.mod_small; lia. Qed.

Lemma quot_opp_2 z : (- z) ÷ 2 = - (z ÷ 2).
Proof. apply Z.quot_opp_l. lia. Qed.

Lemma quot2_bounds z : 0 <= z -> 0 <= z ÷ 2 /\ 2 * (z ÷ 2) <= z.
Proof.
  intros Hz. rewrite Z.quot_div_nonneg by lia.
  pose proof (Z.div_mod z 2). pose proof (Z.mod_pos_bound z 2). lia.
Qed.

Lemma bandwidth_setFilterBandwidth bw (s : t (L:=L)) :
  bandwidth (setFilterBandwidth bw s) = bw.
Proof.
  unfold setFilterBandwidth. case_bool_decide as Hne; [done|].
  destruct (decide (bandwidth s = bw)); [done|contradiction].
Qed.

Lemma setFilterBandwidth_frame bw (s : t (L:=L)) :
  widget (setFilterBandwidth bw s) = widget s
  /\ filterSkewness (setFilterBandwidth bw s) = filterSkewness s
  /\ zoom (setFilterBandwidth bw s) = zoom s
  /\ last_span (calls (setFilterBandwidth bw s)) = last_span (calls s).
Proof.
  unfold setFilterBandwidth. case_bool_decide; [|done]. cbn.
  repeat split. unfold last_span. by rewrite omap_app, app_nil_r.
Qed.

Lemma last_span_snoc l c :
  last_span (l ++ [c])
  = match c with WfSetSpanFreq z => Some z | _ => last_span l end.
Proof.
  unfold last_span. rewrite omap_app.
  destruct c; cbn; rewrite ?app_nil_r; try done. apply last_snoc.
Qed.
End FilterProofs.

(** X7.  Setting a filter bandwidth [bw] that differs from the current one
    sends one pair of cut frequencies [lo <= 0 <= hi] to the waterfall:
    both sides of width [bw / 2] when the filter is symmetric, one side
    only otherwise.  When the waterfall reports that pair back through
    [onWfBandwidthChanged], the bandwidth read by [getBandwidth] is [bw]
    rounded down to an even number, whatever the skewness. *)
Theorem filter_bandwidth_round_trip {L : Type} `{MainSpectrum.LCD L}
    (bw : Z) (s : MainSpectrumFilter.t (L:=L)) :
  0 <= bw < 2 ^ 31 ->
  MainSpectrumFilter.getBandwidth s <> bw ->
  exists lo hi,
    MainSpectrumFilter.calls (MainSpectrumFilter.setFilterBandwidth bw s)
    = (MainSpectrumFilter.calls s
       ++ [MainSpectrumFilter.WfSetHiLowCutFrequencies lo hi])%list
    /\ lo <= 0 <= hi
    /\ hi - lo
       = (if decide (MainSpectrumFilter.filterSkewness s
                     = MainSpectrumFilter.SYMMETRIC) then 2 else 1) * (bw ÷ 2)
    /\ MainSpectrumFilter.getBandwidth (MainSpectrumFilter.setFilterBandwidth bw s)
       = bw
    /\ MainSpectrumFilter.getBandwidth
         (MainSpectrumFilter.onWfBandwidthChanged lo hi
            (MainSpectrumFilter.setFilterBandwidth bw s))
       = 2 * (bw ÷ 2).
Proof.
  intros Hbw Hne.
  pose proof (quot2_bounds bw (proj1 Hbw)) as [Hq0 Hq1].
  unfold MainSpectrumFilter.getBandwidth in *.
  destruct (setFilterBandwidth_frame bw s) as (_ & Hskw & _ & _).
  pose proof (bandwidth_setFilterBandwidth bw s) as Hb.
  assert (Hcalls :
    MainSpectrumFilter.calls (MainSpectrumFilter.setFilterBandwidth bw s)
    = (MainSpectrumFilter.calls s
       ++ [MainSpectrumFilter.WfSetHiLowCutFrequencies
             (if MainSpectrumFilter.lowerSideBand s then - (bw ÷ 2) else 0)
             (if MainSpectrumFilter.upperSideBand s then bw ÷ 2 else 0)])%list).
  { unfold MainSpectrumFilter.setFilterBandwidth.
    rewrite bool_decide_eq_true_2 by done. cbn.
    by rewrite to_int_small, quot_opp_2 by done. }
  set (s1 := MainSpectrumFilter.setFilterBandwidth bw s) in *. clearbody s1.
  eexists _, _. split; [exact Hcalls|].
  unfold MainSpectrumFilter.onWfBandwidthChanged. cbv zeta.
  cbn [MainSpectrumFilter.bandwidth MainSpectrumFilter.call].
  rewrite bandwidth_setFilterBandwidth, Hskw.
  unfold MainSpectrumFilter.lowerSideBand, MainSpectrumFilter.upperSideBand.
  destruct (MainSpectrumFilter.filterSkewness s) eqn:Hs;
    repeat case_bool_decide; try congruence; cbn [orb];
    repeat case_decide; try congruence;
    (split; [lia|]); (split; [lia|]); (split; [done|]).
  - replace (bw ÷ 2 - - (bw ÷ 2)) with (2 * (bw ÷ 2)) by lia.
    rewrite (to_uint_small (2 * _)) by lia.
    rewrite Z.mul_1_l, to_uint_small by lia. done.
  - replace (0 - - (bw ÷ 2)) with (bw ÷ 2) by lia.
    rewrite (to_uint_small (bw ÷ 2)) by lia.
    rewrite to_uint_small by lia. done.
  - rewrite Z.sub_0_r.
    rewrite (to_uint_small (bw ÷ 2)) by lia.
    rewrite to_uint_small by lia. done.
Qed.

Lemma filter_bandwidth_round_trip_witness :
  exists lo hi,
    MainSpectrumFilter.calls (MainSpectrumFilter.setFilterBandwidth 12501 sample_filter)
    = [MainSpectrumFilter.WfSetHiLowCutFrequencies lo hi]
    /\ lo <= 0 <= hi
    /\ hi - lo = 2 * 6250
    /\ MainSpectrumFilter.getBandwidth
         (MainSpectrumFilter.setFilterBandwidth 12501 sample_filter) = 12501
    /\ MainSpectrumFilter.getBandwidth
         (MainSpectrumFilter.onWfBandwidthChanged lo hi
            (MainSpectrumFilter.setFilterBandwidth 12501 sample_filter))
       = 12500.
Proof.
  apply (filter_bandwidth_round_trip 12501 sample_filter); [lia|].
  vm_compute. discriminate.
Defined.

(** X8.  [setFilterSkewness] never changes the bandwidth that
    [getBandwidth] reports.  A call with the current skewness changes
    nothing.  A call with another skewness stores it, sends new
    demodulator ranges and ends by emitting [bandwidthChanged]; in
    between it sends the cut frequencies again, placed on the side(s) of
    the new skewness, unless the bandwidth is zero, in which case no cut
    frequencies are sent. *)
Theorem setFilterSkewness_keeps_bandwidth {L : Type} `{MainSpectrum.LCD L}
    (skw : MainSpectrumFilter.Skewness) (s : MainSpectrumFilter.t (L:=L)) :
  MainSpectrumFilter.getBandwidth (MainSpectrumFilter.setFilterSkewness skw s)
  = MainSpectrumFilter.getBandwidth s
  /\ MainSpectrumFilter.filterSkewness (MainSpectrumFilter.setFilterSkewness skw s)
     = skw
  /\ (skw = MainSpectrumFilter.filterSkewness s ->
      MainSpectrumFilter.setFilterSkewness skw s = s)
  /\ (skw <> MainSpectrumFilter.filterSkewness s ->
      exists a b sym,
        MainSpectrumFilter.calls (MainSpectrumFilter.setFilterSkewness skw s)
        = (MainSpectrumFilter.calls s
           ++ [MainSpectrumFilter.WfSetDemodRanges a 1 1 b sym]
           ++ (if decide (MainSpectrumFilter.getBandwidth s = 0) then []
               else
                 let h := to_int (MainSpectrumFilter.getBandwidth s) ÷ 2 in
                 [MainSpectrumFilter.WfSetHiLowCutFrequencies
                    (if decide (skw = MainSpectrumFilter.UPPER) then 0 else - h)
                    (if decide (skw = MainSpectrumFilter.LOWER) then 0 else h)])
           ++ [MainSpectrumFilter.EmitBandwidthChanged])%list).
Proof.
  unfold MainSpectrumFilter.getBandwidth.
  unfold MainSpectrumFilter.setFilterSkewness.
  destruct (decide (skw = MainSpectrumFilter.filterSkewness s)) as [Heq|Hne].
  - rewrite bool_decide_eq_false_2 by (intros Hc; by apply Hc).
    repeat split; done.
  - rewrite bool_decide_eq_true_2 by done.
    destruct s as [w bw0 skw0 zm cs]. cbn in Hne |- *.
    unfold MainSpectrumFilter.setFilterBandwidth,
      MainSpectrumFilter.lowerSideBand, MainSpectrumFilter.upperSideBand. cbn.
    split.
    { case_bool_decide; cbn; [done|].
      destruct (decide (0 = bw0)); [done|contradiction]. }
    split; [by case_bool_decide|].
    split; [done|]. intros _. eexists _, _, _.
    destruct (decide (bw0 = 0)) as [->|H0].
    + rewrite bool_decide_eq_false_2 by (intros Hc; by apply Hc). cbn.
      rewrite <- !app_assoc. reflexivity.
    + rewrite bool_decide_eq_true_2 by (intros Hc; by apply H0). cbn.
      rewrite !quot_opp_2, <- !app_assoc. cbn [app]. do 2 f_equal.
      destruct skw; repeat case_bool_decide; try congruence; cbn [orb];
        repeat case_decide; try congruence; reflexivity.
Qed.

Lemma setFilterSkewness_witness :
  exists a b sym,
    MainSpectrumFilter.calls
      (MainSpectrumFilter.setFilterSkewness MainSpectrumFilter.UPPER
         (MainSpectrumFilter.setFilterBandwidth 12500 sample_filter))
    = [MainSpectrumFilter.WfSetHiLowCutFrequencies (-6250) 6250;
       MainSpectrumFilter.WfSetDemodRanges a 1 1 b sym;
       MainSpectrumFilter.WfSetHiLowCutFrequencies 0 6250;
       MainSpectrumFilter.EmitBandwidthChanged].
Proof.
  apply (proj2 (proj2 (proj2
           (setFilterSkewness_keeps_bandwidth MainSpectrumFilter.UPPER
              (MainSpectrumFilter.setFilterBandwidth 12500 sample_filter))))).
  vm_compute. discriminate.
Defined.

(** X9.  The setters keep the waterfall span in step with the sample rate
    and the zoom: once the zoom factor is positive and the span last sent
    to the waterfall is [cachedRate / zoom], this stays so after
    [setZoom], [setSampleRate], [setFilterBandwidth], [setFilterSkewness]
    and [onWfBandwidthChanged], so the division in [setSampleRate] is
    never by zero.  [setZoom] with a positive factor establishes it from
    any state, and [setZoom 0] is ignored. *)
Theorem zoom_keeps_span_in_sync {L : Type} `{MainSpectrum.LCD L}
    (s : MainSpectrumFilter.t (L:=L)) :
  (forall z, 0 < z -> span_in_sync (MainSpectrumFilter.setZoom z s))
  /\ MainSpectrumFilter.setZoom 0 s = s
  /\ (span_in_sync s ->
      (forall z, span_in_sync (MainSpectrumFilter.setZoom z s))
      /\ (forall rate, span_in_sync (MainSpectrumFilter.setSampleRate rate s))
      /\ (forall bw, span_in_sync (MainSpectrumFilter.setFilterBandwidth bw s))
      /\ (forall skw, span_in_sync (MainSpectrumFilter.setFilterSkewness skw s))
      /\ (forall lo hi,
            span_in_sync (MainSpectrumFilter.onWfBandwidthChanged lo hi s))).
Proof.
  assert (Hz : forall z, 0 < z -> span_in_sync (MainSpectrumFilter.setZoom z s)).
  { intros z Hz. unfold MainSpectrumFilter.setZoom.
    destruct (Z.ltb_spec 0 z); [|lia].
    split; [done|]. cbn. by rewrite last_span_snoc. }
  split; [exact Hz|]. split; [done|].
  intros [Hpos Hspan].
  assert (Hbw : forall bw (s' : MainSpectrumFilter.t (L:=L)),
             span_in_sync s' ->
             span_in_sync (MainSpectrumFilter.setFilterBandwidth bw s')).
  { intros bw s' [Hp Hs].
    destruct (setFilterBandwidth_frame bw s') as (Hw & _ & Hzm & Hl).
    unfold span_in_sync. by rewrite Hw, Hzm, Hl. }
  split; [|split; [|split; [|split]]].
  - intros z. destruct (Z.ltb_spec 0 z) as [Hlt|Hle]; [by apply Hz|].
    unfold MainSpectrumFilter.setZoom.
    destruct (Z.ltb_spec 0 z); [lia|]. by split.
  - intros rate. unfold MainSpectrumFilter.setSampleRate.
    case_bool_decide; [|by split]. cbn.
    split; [done|]. cbn.
    rewrite !last_span_snoc. reflexivity.
  - intros bw. apply Hbw. by split.
  - intros skw. unfold MainSpectrumFilter.setFilterSkewness.
    case_bool_decide; [|by split]. cbv zeta.
    match goal with
    | |- span_in_sync (MainSpectrumFilter.call _ ?x) =>
        assert (Hx : span_in_sync x)
    end.
    { apply Hbw. split; [done|]. cbn. by rewrite last_span_snoc. }
    destruct Hx as [Hp Hs]. split; [done|]. cbn.
    by rewrite last_span_snoc.
  - intros lo hi. unfold MainSpectrumFilter.onWfBandwidthChanged. cbv zeta.
    match goal with
    | |- span_in_sync (MainSpectrumFilter.call _ ?x) =>
        assert (Hx : span_in_sync x)
    end.
    { apply Hbw. by split. }
    destruct Hx as [Hp Hs]. split; [done|]. cbn.
    by rewrite last_span_snoc.
Qed.

Lemma zoom_keeps_span_in_sync_witness :
  span_in_sync
    (MainSpectrumFilter.setSampleRate 250000
       (MainSpectrumFilter.setZoom 4 sample_filter)).
Proof.
  apply (proj2 (proj2 (zoom_keeps_span_in_sync
                         (MainSpectrumFilter.setZoom 4 sample_filter)))).
  apply (proj1 (zoom_keeps_span_in_sync sample_filter)). lia.
Defined.

(** ** MainSpectrum: looking up a band plan *)

Section FATLookup.
Import MainSpectrum MainSpectrumSpec MainSpectrumSlots.
Context {L : Type} `{LCD L}.
Variable Entry : Type.
Variable get_float : string -> Q -> Entry -> result Q.
Variable get_string : string -> string -> Entry -> result string.

Lemma getFAT_in_tables name (srcs : list (FATSource Entry)) :
  getFAT_in name (map (fun p => Some (table_of Entry get_float get_string p)) srcs)
  = match List.find (fun p => String.eqb (srcName Entry p) name) srcs with
    | Some p => Found (table_of Entry get_float get_string p)
    | None => NotFound
    end.
Proof.
  induction srcs as [|p srcs IH]; [done|].
  cbn. destruct (String.eqb (srcName Entry p) name); [done|exact IH].
Qed.
End FATLookup.

(** X10.  After [deserializeFATs] has loaded a non-empty store in which
    every table has a set of bands, [getFAT name] returns the table built
    from the first table of the store with that name, and the null
    pointer when the store has none; it never meets a null slot. *)
Theorem getFAT_after_deserializeFATs {L : Type} `{MainSpectrum.LCD L}
    (Entry : Type)
    (get_float : string -> Q -> Entry -> MainSpectrum.result Q)
    (get_string : string -> string -> Entry -> MainSpectrum.result string)
    (sus : list (MainSpectrum.FATSource Entry)) (name : string)
    (s : MainSpectrum.t (L:=L)) :
  Forall (MainSpectrumSpec.bands_is_set Entry) sus ->
  sus <> [] ->
  MainSpectrumSlots.getFAT name
    (MainSpectrum.deserializeFATs Entry get_float get_string sus s).1
  = match List.find (fun p => String.eqb (MainSpectrum.srcName Entry p) name) sus with
    | Some p =>
        MainSpectrumSlots.Found
          (MainSpectrumSpec.table_of Entry get_float get_string p)
    | None => MainSpectrumSlots.NotFound
    end.
Proof.
  intros Hsets Hne.
  destruct (deserializeFATs_from_spec Entry get_float get_string sus 0 s Hsets)
    as (_ & _ & HF).
  unfold MainSpectrumSlots.getFAT, MainSpectrum.deserializeFATs.
  rewrite HF. destruct sus as [|p rest]; [done|].
  unfold MainSpectrum.resize. rewrite take_0. cbn [replicate Nat.sub app].
  apply getFAT_in_tables.
Qed.

Lemma getFAT_witness :
  MainSpectrumSlots.getFAT "Empty"
    (MainSpectrum.deserializeFATs _ sample_get_float sample_get_string
       sample_fats sample_spectrum).1
  = MainSpectrumSlots.Found (MainSpectrum.mkFAT "Empty" []).
Proof.
  apply (getFAT_after_deserializeFATs _ sample_get_float sample_get_string
           sample_fats "Empty" sample_spectrum).
  - repeat constructor.
  - discriminate.
Defined.

(** ** PanoramicDialog: the scan range *)

Section RangeProofs.
Import Source PanoramicDialog PanoramicRange.

Lemma Qle_bool_false x y : Qle_bool x y = false -> (y < x)%Q.
Proof.
  intros Hf. apply Qnot_le_lt. intros Hle.
  apply Qle_bool_iff in Hle. congruence.
Qed.

Lemma Qle_bool_true x y : Qle_bool x y = true -> (x <= y)%Q.
Proof. apply Qle_bool_iff. Qed.

Lemma Qle_bool_proper x y y' : (y == y')%Q -> Qle_bool x y = Qle_bool x y'.
Proof.
  intros Heq.
  destruct (Qle_bool x y) eqn:E1, (Qle_bool x y') eqn:E2; try done.
  - apply Qle_bool_true in E1. apply Qle_bool_false in E2. lra.
  - apply Qle_bool_false in E1. apply Qle_bool_true in E2. lra.
Qed.

Lemma Qabs_swap x y : (Qabs (x - y) == Qabs (y - x))%Q.
Proof. by rewrite Qabs_Qminus. Qed.
End RangeProofs.

Ltac Qcases :=
  repeat match goal with
         | |- context [Qle_bool ?a ?b] =>
             let E := fresh "E" in
             destruct (Qle_bool a b) eqn:E;
             [apply Qle_bool_true in E | apply Qle_bool_false in E]
         end.

(** X11.  [adjustRanges] leaves the start of the scan range at or below
    its end: it swaps the two spin boxes when the start is above the end
    and changes nothing otherwise.  A second call never changes anything,
    and the verdict of [invalidRange] is the same before and after. *)
Theorem adjustRanges_orders_range (d : PanoramicDialog.t) :
  let d' := PanoramicRange.adjustRanges d in
  (PanoramicDialog.getMinFreq d' <= PanoramicDialog.getMaxFreq d')%Q
  /\ ((PanoramicDialog.getMaxFreq d < PanoramicDialog.getMinFreq d)%Q ->
      PanoramicDialog.getMinFreq d' = PanoramicDialog.getMaxFreq d
      /\ PanoramicDialog.getMaxFreq d' = PanoramicDialog.getMinFreq d)
  /\ ((PanoramicDialog.getMinFreq d <= PanoramicDialog.getMaxFreq d)%Q -> d' = d)
  /\ PanoramicRange.adjustRanges d' = d'
  /\ PanoramicRange.invalidRange d' = PanoramicRange.invalidRange d.
Proof.
  cbv zeta.
  unfold PanoramicRange.adjustRanges, PanoramicDialog.getMinFreq,
    PanoramicDialog.getMaxFreq, Qgt_bool.
  destruct (Qle_bool (PanoramicDialog.rangeStartSpin (PanoramicDialog.ui d))
                     (PanoramicDialog.rangeEndSpin (PanoramicDialog.ui d))) eqn:E.
  - cbn [negb]. rewrite E. cbn [negb].
    apply Qle_bool_true in E.
    split; [done|]. split; [intros Hlt; lra|]. done.
  - cbn [negb]. pose proof (Qle_bool_false _ _ E) as Hlt. cbn.
    assert (Hle : Qle_bool (PanoramicDialog.rangeEndSpin (PanoramicDialog.ui d))
                           (PanoramicDialog.rangeStartSpin (PanoramicDialog.ui d))
                  = true) by (apply Qle_bool_iff; lra).
    rewrite Hle. cbn [negb].
    split; [lra|]. split; [done|]. split; [intros Hc; lra|]. split; [done|].
    unfold PanoramicRange.invalidRange, Qlt_bool. cbn. f_equal.
    apply Qle_bool_proper, Qabs_swap.
Qed.

Lemma adjustRanges_witness :
  PanoramicDialog.getMinFreq
    (PanoramicRange.adjustRanges
       (PanoramicDialog.with_ui
          (PanoramicRange.ui_setRangeStart (inject_Z 118000000)) sample_dialog))
  = inject_Z 108000000
  /\ PanoramicDialog.getMaxFreq
       (PanoramicRange.adjustRanges
          (PanoramicDialog.with_ui
             (PanoramicRange.ui_setRangeStart (inject_Z 118000000)) sample_dialog))
     = inject_Z 118000000.
Proof.
  apply (adjustRanges_orders_range
           (PanoramicDialog.with_ui
              (PanoramicRange.ui_setRangeStart (inject_Z 118000000)) sample_dialog)).
  reflexivity.
Defined.

(** X12.  The limits that [setRanges] gives the two range spin boxes
    never leave the interval from 0 to 2 GHz, whatever the device reports
    and whatever the LNB offset is, and the lower limit is not above the
    upper one when the device's minimum is not above its maximum. *)
Theorem setRanges_limits_bounded (dev : Source.Device) (lnbOffset : SUFREQ) :
  let lim := PanoramicRange.setRanges_limits dev lnbOffset in
  (0 <= lim.1 <= inject_Z 2000000000)%Q
  /\ (0 <= lim.2 <= inject_Z 2000000000)%Q
  /\ ((Source.devMinFreq dev <= Source.devMaxFreq dev)%Q -> (lim.1 <= lim.2)%Q).
Proof.
  cbv zeta. unfold PanoramicRange.setRanges_limits, Qlt_bool, Qgt_bool.
  cbv zeta. cbn [fst snd].
  assert (H2 : (0 <= inject_Z 2000000000)%Q) by (by apply Qle_bool_iff).
  set (two := inject_Z 2000000000) in *. clearbody two.
  destruct (Qle_bool 0 (Source.devMinFreq dev - lnbOffset)) eqn:E1;
    [apply Qle_bool_true in E1 | apply Qle_bool_false in E1];
    (destruct (Qle_bool 0 (Source.devMaxFreq dev - lnbOffset)) eqn:E2;
     [apply Qle_bool_true in E2 | apply Qle_bool_false in E2]);
    cbn [negb]; Qcases; cbn [negb];
    (split; [lra|]); (split; [lra|]); intros Hdev; lra.
Qed.

Lemma setRanges_limits_witness :
  ((PanoramicRange.setRanges_limits sample_device (inject_Z 9750000000)).1
   <= (PanoramicRange.setRanges_limits sample_device (inject_Z 9750000000)).2)%Q.
Proof.
  apply (setRanges_limits_bounded sample_device (inject_Z 9750000000)).
  apply Qle_bool_iff. reflexivity.
Defined.



(** ** PanoramicDialog: reading and persisting gains *)

Section GainProofs.
Import Source PanoramicDialog PanoramicGains.

Lemma gainControls_refreshGains device d :
  gainControls (refreshGains device d)
  = map (gain_control_for (dialogConfig d) device) (devGains device).
Proof.
  unfold refreshGains. cbv zeta.
  destruct (clearGains_effects d) as (Hg & Hc & _).
  destruct (addGain_fold_effects device (devGains device) (clearGains d))
    as (Hg' & _).
  rewrite Hg, Hc in Hg'. cbn [app] in Hg'.
  destruct (_ =? _)%nat; cbn; exact Hg'.
Qed.

Lemma find_gain_control cfg device name ps :
  List.find (fun g => String.eqb (dgName g) name)
            (map (gain_control_for cfg device) ps)
  = gain_control_for cfg device
      <$> List.find (fun p => String.eqb (gainName p) name) ps.
Proof.
  induction ps as [|p ps IH]; [done|]. cbn.
  unfold dgName at 1. cbn.
  destruct (String.eqb (gainName p) name); [done|exact IH].
Qed.

Lemma find_gain_name name ps p :
  List.find (fun p => String.eqb (gainName p) name) ps = Some p ->
  gainName p = name.
Proof.
  intros Hf. apply find_some in Hf as [_ Hn]. by apply String.eqb_eq in Hn.
Qed.

Lemma find_gain_exists name ps :
  (exists p, p ∈ ps /\ gainName p = name) ->
  exists p, List.find (fun p => String.eqb (gainName p) name) ps = Some p.
Proof.
  intros (p & Hin & Hn).
  destruct (List.find _ ps) eqn:E; [by eexists|].
  apply list_elem_of_In in Hin.
  pose proof (find_none _ _ E p Hin) as Hf. cbn in Hf.
  apply String.eqb_neq in Hf. contradiction.
Qed.
End GainProofs.

(** X14.  After [refreshGains] has rebuilt the gain panel for a device,
    [getGain name] reads the first gain of the device with that name: the
    value the configuration holds for it under the device's driver, or
    its default when the configuration holds none.  For a name the device
    does not have, [getGain] returns 0 and [lookupGain] the null
    pointer. *)
Theorem getGain_after_refreshGains (device : Source.Device) (name : string)
    (d : PanoramicDialog.t) :
  PanoramicGains.getGain name (PanoramicDialog.refreshGains device d)
  = match List.find (fun p => String.eqb (Source.gainName p) name)
                    (Source.devGains device) with
    | Some p =>
        if PanoramicDialogConfig.hasGain (Source.devDriver device) name
             (PanoramicDialog.dialogConfig d)
        then PanoramicDialogConfig.getGain (Source.devDriver device) name
               (PanoramicDialog.dialogConfig d)
        else Source.gainDefault p
    | None => 0%Q
    end
  /\ (PanoramicGains.lookupGain name (PanoramicDialog.refreshGains device d) = None
      <-> forall p, p ∈ Source.devGains device -> Source.gainName p <> name).
Proof.
  unfold PanoramicGains.getGain, PanoramicGains.lookupGain.
  rewrite gainControls_refreshGains, find_gain_control.
  split.
  - destruct (List.find _ (Source.devGains device)) as [p|] eqn:E; [|done].
    cbn. apply find_gain_name in E. subst name.
    unfold PanoramicDialogConfig.hasGain, PanoramicDialogConfig.getGain,
      PanoramicDialogConfig.fullName.
    destruct (_ !! _) eqn:El.
    + rewrite bool_decide_eq_true_2 by eauto. done.
    + rewrite bool_decide_eq_false_2 by (intros [? ?]; done). done.
  - destruct (List.find _ (Source.devGains device)) as [p|] eqn:E; cbn.
    + split; [done|]. intros Hno. exfalso.
      pose proof (find_gain_name _ _ _ E) as Hn.
      apply find_some in E as [Hin _]. apply list_elem_of_In in Hin.
      by apply (Hno p).
    + split; [|done]. intros _ p Hin Hn.
      apply list_elem_of_In in Hin.
      pose proof (find_none _ _ E p Hin) as Hf. cbn in Hf.
      apply String.eqb_neq in Hf. contradiction.
Qed.

Lemma getGain_after_refreshGains_witness :
  PanoramicGains.lookupGain "VGA"
    (PanoramicDialog.refreshGains sample_device sample_dialog_gains) = None.
Proof.
  apply (getGain_after_refreshGains sample_device "VGA" sample_dialog_gains).
  intros p Hp.
  repeat (apply elem_of_cons in Hp as [->|Hp]; [discriminate|]).
  by apply elem_of_nil in Hp.
Defined.

(** X15.  A gain changed by the user is persisted for the selected
    device and comes back when the panel is rebuilt: after
    [onGainChanged name val] with a device selected, the configuration
    holds [val] for (driver, [name]), and [refreshGains] for that device
    shows [val] in the control of [name] if the device has such a gain.
    With no device selected the dialog is left as it is.  In both cases
    [gainChanged name val] is emitted, once. *)
Theorem onGainChanged_persists_gain (name : string) (val : SUFLOAT)
    (d : PanoramicDialog.t) :
  (PanoramicGains.onGainChanged name val d).2
  = [PanoramicGains.EmitGainChanged name val]
  /\ (PanoramicDialog.getSelectedDevice d = None ->
      (PanoramicGains.onGainChanged name val d).1 = d)
  /\ (forall dev,
        PanoramicDialog.getSelectedDevice d = Some dev ->
        let d' := (PanoramicGains.onGainChanged name val d).1 in
        PanoramicDialogConfig.hasGain (Source.devDriver dev) name
          (PanoramicDialog.dialogConfig d') = true
        /\ PanoramicDialogConfig.getGain (Source.devDriver dev) name
             (PanoramicDialog.dialogConfig d') = val
        /\ ((exists p, p ∈ Source.devGains dev /\ Source.gainName p = name) ->
            PanoramicGains.getGain name (PanoramicDialog.refreshGains dev d')
            = val)).
Proof.
  unfold PanoramicGains.onGainChanged. cbn [fst snd].
  split; [done|]. split; [by intros ->|].
  intros dev ->. cbv zeta. cbn [PanoramicDialog.dialogConfig
                                  PanoramicGains.with_dialogConfig].
  assert (Hhas : PanoramicDialogConfig.hasGain (Source.devDriver dev) name
                   (PanoramicDialogConfig.setGain (Source.devDriver dev) name val
                      (PanoramicDialog.dialogConfig d)) = true).
  { unfold PanoramicDialogConfig.hasGain, PanoramicDialogConfig.setGain. cbn.
    rewrite lookup_insert_eq. by apply bool_decide_eq_true_2. }
  assert (Hget : PanoramicDialogConfig.getGain (Source.devDriver dev) name
                   (PanoramicDialogConfig.setGain (Source.devDriver dev) name val
                      (PanoramicDialog.dialogConfig d)) = val).
  { unfold PanoramicDialogConfig.getGain, PanoramicDialogConfig.setGain. cbn.
    by rewrite lookup_insert_eq. }
  split; [exact Hhas|]. split; [exact Hget|].
  intros Hex. apply find_gain_exists in Hex as [p Hp].
  unfold PanoramicGains.getGain.
  rewrite gainControls_refreshGains, find_gain_control, Hp. cbn.
  apply find_gain_name in Hp. subst name.
  unfold PanoramicDialogConfig.setGain, PanoramicDialogConfig.fullName. cbn.
  by rewrite lookup_insert_eq.
Qed.

Lemma onGainChanged_witness :
  PanoramicGains.getGain "TUNER"
    (PanoramicDialog.refreshGains sample_device
       (PanoramicGains.onGainChanged "TUNER" 35%Q sample_dialog).1)
  = 35%Q.
Proof.
  apply (proj2 (proj2 (onGainChanged_persists_gain "TUNER" 35%Q sample_dialog))
           sample_device).
  - reflexivity.
  - exists (Source.mkGain "TUNER" 20%Q). split; [|reflexivity].
    apply list_elem_of_here.
Defined.

(** ** PanoramicDialog: the scan state *)

Section ScanProofs.
Import PanoramicDialog PanoramicScan.

Lemma sampleRateSpin_setValue_running v s :
  running s = true ->
  running (sampleRateSpin_setValue v s) = true
  /\ dialog (sampleRateSpin_setValue v s) = dialog s
  /\ sampleRateSpin (controls (sampleRateSpin_setValue v s)) = v.
Proof.
  intros Hr. unfold sampleRateSpin_setValue, onSampleRateSpinChanged.
  case_bool_decide as Hne.
  - cbn. rewrite Hr. cbn. by rewrite Hr.
  - split; [done|]. split; [done|].
    destruct (decide (sampleRateSpin (controls s) = v)); [done|contradiction].
Qed.

Lemma setMinBwForZoom_running bw s :
  running s = true ->
  running (setMinBwForZoom bw s) = true
  /\ dialogConfig (dialog (setMinBwForZoom bw s)) = dialogConfig (dialog s)
  /\ minBwForZoom (dialog (setMinBwForZoom bw s)) = bw.
Proof.
  intros Hr. unfold setMinBwForZoom. cbv zeta.
  destruct (sampleRateSpin_setValue_running (to_int bw)
              (with_dialog (with_minBwForZoom bw (dialog s)) s) Hr)
    as (Hr' & Hd & _).
  rewrite Hr', Hd. done.
Qed.

Lemma setMinBwForZoom_fold_running bws s :
  running s = true ->
  running (fold_left (fun s bw => setMinBwForZoom bw s) bws s) = true
  /\ dialogConfig (dialog (fold_left (fun s bw => setMinBwForZoom bw s) bws s))
     = dialogConfig (dialog s).
Proof.
  revert s. induction bws as [|bw bws IH]; intros s Hr; [done|].
  cbn [fold_left].
  destruct (setMinBwForZoom_running bw s Hr) as (Hr' & Hc & _).
  destruct (IH _ Hr') as (Hr'' & Hc'). by rewrite Hr'', Hc'.
Qed.

Lemma setRunning_true s :
  running (setRunning true s) = true
  /\ dialogConfig (dialog (setRunning true s)) = dialogConfig (dialog s).
Proof.
  unfold setRunning, refreshUi. cbn. by destruct (running s).
Qed.
Lemma refreshUi_with_running r s :
  let s' := refreshUi (with_running r s) in
  running s' = r
  /\ scanButtonChecked (ui (dialog s')) = r
  /\ lnbDoubleSpinBoxEnabled (controls s') = negb r
  /\ sampleRateSpinEnabled (controls s') = negb r
  /\ (deviceComboEnabled (controls s') = true
      <-> r = false /\ deviceMap (dialog s) <> ∅)
  /\ (fullRangeCheckEnabled (controls s') = true
      <-> r = false /\ deviceMap (dialog s) <> ∅)
  /\ (rangeStartSpinEnabled (controls s') = true
      <-> r = false /\ deviceMap (dialog s) <> ∅
          /\ fullRangeCheck (controls s) = false)
  /\ (rangeEndSpinEnabled (controls s') = true
      <-> r = false /\ deviceMap (dialog s) <> ∅
          /\ fullRangeCheck (controls s) = false)
  /\ fullRangeCheck (controls s') = fullRangeCheck (controls s)
  /\ frames (dialog s') = frames (dialog s)
  /\ framesLabel (ui (dialog s')) = framesLabel (ui (dialog s)).
Proof.
  cbv zeta. unfold refreshUi. cbn.
  do 4 (split; [done|]).
  assert (Hempty : bool_decide (size (deviceMap (dialog s)) = 0%nat) = true
                   <-> deviceMap (dialog s) = ∅).
  { rewrite bool_decide_eq_true. apply map_size_empty_iff. }
  destruct r, (bool_decide (size (deviceMap (dialog s)) = 0%nat)),
    (fullRangeCheck (controls s)); cbn;
    repeat split; try done; try (intros (? & ? & ?); done);
    try (intros (? & ?); done);
    try (intros Hc; apply Hempty in Hc; done);
    try (intros (_ & Hc); exfalso; apply Hc; by apply Hempty);
    try (intros (_ & Hc & _); exfalso; apply Hc; by apply Hempty);
    try (intros Hc; assert (true = true) as Ht by done; apply Hempty in Ht; done).
Qed.
End ScanProofs.

(** X16.  The sample rate persisted in the configuration survives a
    scan.  However often [setMinBwForZoom] moves the sample-rate spin box
    while the scan runs, the configuration keeps the rate it held when
    the scan started, and when the scan stops the spin box shows that
    rate again.  Outside a scan, a call of [setMinBwForZoom] that moves
    the spin box does persist the new rate. *)
Theorem scan_keeps_persisted_sample_rate (bws : list Z) (s : PanoramicScan.t) :
  let started := PanoramicScan.setRunning true s in
  let scanning :=
    fold_left (fun s bw => PanoramicScan.setMinBwForZoom bw s) bws started in
  let stopped := PanoramicScan.setRunning false scanning in
  PanoramicDialogConfig.sampRate
    (PanoramicDialog.dialogConfig (PanoramicScan.dialog scanning))
  = PanoramicDialogConfig.sampRate
      (PanoramicDialog.dialogConfig (PanoramicScan.dialog s))
  /\ PanoramicDialogConfig.sampRate
       (PanoramicDialog.dialogConfig (PanoramicScan.dialog stopped))
     = PanoramicDialogConfig.sampRate
         (PanoramicDialog.dialogConfig (PanoramicScan.dialog s))
  /\ PanoramicScan.sampleRateSpin (PanoramicScan.controls stopped)
     = PanoramicDialogConfig.sampRate
         (PanoramicDialog.dialogConfig (PanoramicScan.dialog s))
  /\ PanoramicScan.running stopped = false
  /\ (forall bw,
        PanoramicScan.running s = false ->
        PanoramicScan.sampleRateSpin (PanoramicScan.controls s) <> to_int bw ->
        PanoramicDialogConfig.sampRate
          (PanoramicDialog.dialogConfig
             (PanoramicScan.dialog (PanoramicScan.setMinBwForZoom bw s)))
        = to_int bw).
Proof.
  cbv zeta.
  destruct (setRunning_true s) as (Hr1 & Hc1).
  destruct (setMinBwForZoom_fold_running bws _ Hr1) as (Hr2 & Hc2).
  set (scanning := fold_left _ bws _) in *. clearbody scanning.
  rewrite Hc2, Hc1. split; [done|].
  assert (Hstop :
    PanoramicDialog.dialogConfig
      (PanoramicScan.dialog (PanoramicScan.setRunning false scanning))
    = PanoramicDialog.dialogConfig (PanoramicScan.dialog scanning)
    /\ PanoramicScan.sampleRateSpin
         (PanoramicScan.controls (PanoramicScan.setRunning false scanning))
       = PanoramicDialogConfig.sampRate
           (PanoramicDialog.dialogConfig (PanoramicScan.dialog scanning))
    /\ PanoramicScan.running (PanoramicScan.setRunning false scanning) = false).
  { unfold PanoramicScan.setRunning. rewrite Hr2. cbn [andb negb].
    destruct (sampleRateSpin_setValue_running
                (PanoramicDialogConfig.sampRate
                   (PanoramicDialog.dialogConfig (PanoramicScan.dialog scanning)))
                scanning Hr2) as (_ & Hd & Hv).
    unfold PanoramicScan.refreshUi. cbn. by rewrite Hd, Hv. }
  destruct Hstop as (Hc3 & Hv3 & Hr3).
  rewrite Hc3, Hv3, Hr3, Hc2, Hc1. repeat split; try done.
  intros bw Hidle Hne.
  unfold PanoramicScan.setMinBwForZoom, PanoramicScan.sampleRateSpin_setValue,
    PanoramicScan.onSampleRateSpinChanged. cbn.
  rewrite bool_decide_eq_true_2 by done. cbn. rewrite Hidle. done.
Qed.

Lemma scan_keeps_persisted_sample_rate_witness :
  PanoramicDialogConfig.sampRate
    (PanoramicDialog.dialogConfig
       (PanoramicScan.dialog (PanoramicScan.setMinBwForZoom 2400000 sample_scan)))
  = 2400000.
Proof.
  apply (proj2 (proj2 (proj2 (proj2
           (scan_keeps_persisted_sample_rate [] sample_scan)))) 2400000).
  - reflexivity.
  - vm_compute. discriminate.
Defined.

(** X17.  [setRunning] makes the scan button show the scan state and
    enables the controls accordingly.  The LNB spin box and the
    sample-rate spin box are enabled exactly when no scan runs; the device
    combo and the full-range check box exactly when no scan runs and the
    device map is not empty; the two range spin boxes exactly when,
    moreover, the full-range check box is not checked.  The frame counter
    and its label are reset exactly when a scan starts from the idle
    state. *)
Theorem setRunning_controls (running' : bool) (s : PanoramicScan.t) :
  let s' := PanoramicScan.setRunning running' s in
  let c := PanoramicScan.controls s' in
  let has_device := PanoramicDialog.deviceMap (PanoramicScan.dialog s) <> ∅ in
  let full := PanoramicScan.fullRangeCheck (PanoramicScan.controls s) in
  PanoramicScan.running s' = running'
  /\ PanoramicDialog.scanButtonChecked (PanoramicDialog.ui (PanoramicScan.dialog s'))
     = running'
  /\ PanoramicScan.lnbDoubleSpinBoxEnabled c = negb running'
  /\ PanoramicScan.sampleRateSpinEnabled c = negb running'
  /\ (PanoramicScan.deviceComboEnabled c = true
      <-> running' = false /\ has_device)
  /\ (PanoramicScan.fullRangeCheckEnabled c = true
      <-> running' = false /\ has_device)
  /\ (PanoramicScan.rangeStartSpinEnabled c = true
      <-> running' = false /\ has_device /\ full = false)
  /\ (PanoramicScan.rangeEndSpinEnabled c = true
      <-> running' = false /\ has_device /\ full = false)
  /\ PanoramicScan.fullRangeCheck c = full
  /\ (running' = true -> PanoramicScan.running s = false ->
      PanoramicDialog.frames (PanoramicScan.dialog s') = 0
      /\ PanoramicDialog.framesLabel
           (PanoramicDialog.ui (PanoramicScan.dialog s')) = "0")
  /\ (running' = false \/ PanoramicScan.running s = true ->
      PanoramicDialog.frames (PanoramicScan.dialog s')
      = PanoramicDialog.frames (PanoramicScan.dialog s)
      /\ PanoramicDialog.framesLabel
           (PanoramicDialog.ui (PanoramicScan.dialog s'))
         = PanoramicDialog.framesLabel
             (PanoramicDialog.ui (PanoramicScan.dialog s))).
Proof.
  cbv zeta. unfold PanoramicScan.setRunning.
  match goal with
  | |- context [PanoramicScan.with_running _ ?x] => set (s1 := x)
  end.
  destruct (refreshUi_with_running running' s1)
    as (H1 & H2 & H3 & H4 & H5 & H6 & H7 & H8 & H9 & H10 & H11).
  rewrite H1, H2, H3, H4, H5, H6, H7, H8, H9, H10, H11.
  assert (Hs1 :
    PanoramicDialog.deviceMap (PanoramicScan.dialog s1)
    = PanoramicDialog.deviceMap (PanoramicScan.dialog s)
    /\ PanoramicScan.fullRangeCheck (PanoramicScan.controls s1)
       = PanoramicScan.fullRangeCheck (PanoramicScan.controls s)
    /\ (running' = true -> PanoramicScan.running s = false ->
        PanoramicDialog.frames (PanoramicScan.dialog s1) = 0
        /\ PanoramicDialog.framesLabel
             (PanoramicDialog.ui (PanoramicScan.dialog s1)) = "0")
    /\ (running' = false \/ PanoramicScan.running s = true ->
        PanoramicScan.dialog s1 = PanoramicScan.dialog s)).
  { subst s1. destruct running', (PanoramicScan.running s) eqn:Hr;
      cbn [andb negb].
    - do 3 (split; [done|]). done.
    - do 3 (split; [done|]). intros [?|?]; done.
    - destruct (sampleRateSpin_setValue_running
                  (PanoramicDialogConfig.sampRate
                     (PanoramicDialog.dialogConfig (PanoramicScan.dialog s)))
                  s Hr) as (_ & Hd & _).
      rewrite Hd. split; [done|]. split; [|done].
      unfold PanoramicScan.sampleRateSpin_setValue,
        PanoramicScan.onSampleRateSpinChanged.
      case_bool_decide; cbn; [|done]. by rewrite Hr.
    - do 3 (split; [done|]). done. }
  destruct Hs1 as (Hmap & Hfull & Hreset & Hkeep).
  rewrite Hmap, Hfull.
  do 9 (split; [done|]).
  split; [exact Hreset|].
  intros Hc. by rewrite (Hkeep Hc).
Qed.

Lemma setRunning_controls_witness :
  PanoramicDialog.frames
    (PanoramicScan.dialog
       (PanoramicScan.setRunning true
          (PanoramicScan.with_dialog
             (PanoramicDialog.with_frames 7 sample_dialog) sample_scan))) = 0
  /\ PanoramicDialog.framesLabel
       (PanoramicDialog.ui
          (PanoramicScan.dialog
             (PanoramicScan.setRunning true
                (PanoramicScan.with_dialog
                   (PanoramicDialog.with_frames 7 sample_dialog) sample_scan))))
     = "0".
Proof.
  apply (setRunning_controls true
           (PanoramicScan.with_dialog
              (PanoramicDialog.with_frames 7 sample_dialog) sample_scan));
    reflexivity.
Defined.

(** ** PanoramicDialog: the device combo *)

Section DeviceProofs.
Import Source PanoramicDialog PanoramicDevices.
Variable isAvailable : Device -> bool.


End DeviceProofs.



(** ** PanoramicDialogConfig: loading and keys *)

Section ConfigMore.
Import Suscan PanoramicDialogConfig.

Lemma string_app_inj_l (p x y : string) : p +:+ x = p +:+ y -> x = y.
Proof.
  induction p as [|c p IH]; [done|].
  change (String c (p +:+ x) = String c (p +:+ y) -> x = y).
  intros [= Heq]. by apply IH.
Qed.
End ConfigMore.

(** X19.  [deserialize] merges the gains of the object into the gain map
    and never removes an entry: a key keeps the value it had unless the
    object has a field of that name beginning with "gain.", in which case
    it takes the field's value.  Deserializing an object without fields
    leaves the whole configuration as it was. *)
Theorem deserialize_merges_gains (conf : Suscan.Object)
    (c : PanoramicDialogConfig.t) :
  (forall k,
     Suscan.field k conf = None \/ PanoramicDialogConfig.is_gain_key k = false ->
     PanoramicDialogConfig.gains (PanoramicDialogConfig.deserialize conf c) !! k
     = PanoramicDialogConfig.gains c !! k)
  /\ (forall k v,
        PanoramicDialogConfig.is_gain_key k = true ->
        Suscan.field k conf = Some (Suscan.VFloat v) ->
        PanoramicDialogConfig.gains (PanoramicDialogConfig.deserialize conf c) !! k
        = Some v)
  /\ (Suscan.objFields conf = [] -> PanoramicDialogConfig.deserialize conf c = c).
Proof.
  split; [|split].
  - intros k Hk. rewrite gains_deserialize_lookup.
    destruct Hk as [Hk|Hk]; rewrite Hk.
    + rewrite bool_decide_eq_false_2 by (intros [? ?]; done).
      by rewrite andb_false_r.
    + done.
  - intros k v Hk Hf. rewrite gains_deserialize_lookup, Hk, Hf.
    rewrite bool_decide_eq_true_2 by eauto. cbn.
    unfold Suscan.get_float. by rewrite Hf.
  - intros Hnil. destruct conf as [cls fs]. cbn in Hnil. subst fs.
    by destruct c.
Qed.

Lemma deserialize_merges_gains_witness :
  PanoramicDialogConfig.gains
    (PanoramicDialogConfig.deserialize
       (Suscan.set "gain.airspy.MIX" (Suscan.VFloat 7%Q) Suscan.emptyObject)
       sample_config_lna)
  !! "gain.rtlsdr.LNA"
  = Some 30%Q.
Proof.
  apply (proj1 (deserialize_merges_gains
                  (Suscan.set "gain.airspy.MIX" (Suscan.VFloat 7%Q) Suscan.emptyObject)
                  sample_config_lna) "gain.rtlsdr.LNA").
  left. reflexivity.
Defined.

(** X20.  Two (device, gain) pairs share one slot of the gain map exactly
    when their dotted names [dev.name] are the same text: [setGain] for
    one pair changes what [getGain] and [hasGain] report for another pair
    if and only if the two dotted names coincide, as they do for
    ("a.b", "c") and ("a", "b.c"). *)
Theorem gain_slots_alias_on_dotted_name (dev name dev' name' : string)
    (v : SUFLOAT) (c : PanoramicDialogConfig.t) :
  PanoramicDialogConfig.getGain dev' name'
    (PanoramicDialogConfig.setGain dev name v c)
  = (if decide (dev +:+ "." +:+ name = dev' +:+ "." +:+ name') then v
     else PanoramicDialogConfig.getGain dev' name' c)
  /\ PanoramicDialogConfig.hasGain dev' name'
       (PanoramicDialogConfig.setGain dev name v c)
     = (if decide (dev +:+ "." +:+ name = dev' +:+ "." +:+ name') then true
        else PanoramicDialogConfig.hasGain dev' name' c)
  /\ PanoramicDialogConfig.getGain "a" "b.c"
       (PanoramicDialogConfig.setGain "a.b" "c" v c) = v.
Proof.
  unfold PanoramicDialogConfig.getGain, PanoramicDialogConfig.hasGain,
    PanoramicDialogConfig.setGain, PanoramicDialogConfig.fullName.
  cbn [PanoramicDialogConfig.gains PanoramicDialogConfig.with_gains].
  split; [|split].
  - destruct (decide (dev +:+ "." +:+ name = dev' +:+ "." +:+ name')) as [Heq|Hne].
    + by rewrite Heq, lookup_insert_eq.
    + rewrite lookup_insert_ne; [done|].
      intros Hc. by apply string_app_inj_l in Hc.
  - destruct (decide (dev +:+ "." +:+ name = dev' +:+ "." +:+ name')) as [Heq|Hne].
    + rewrite Heq, lookup_insert_eq. by apply bool_decide_eq_true_2.
    + rewrite lookup_insert_ne; [done|].
      intros Hc. by apply string_app_inj_l in Hc.
  - change ("gain." +:+ "a" +:+ "." +:+ "b.c") with ("gain." +:+ "a.b" +:+ "." +:+ "c").
    by rewrite lookup_insert_eq.
Qed.

(** ** PanoramicDialogConfig: the serialized object *)

Section SerializeCount.
Import Suscan PanoramicDialogConfig.

Lemma set_field_names k v l :
  (set_field k v l).*1
  = match lookup_field k l with
    | Some _ => l.*1
    | None => (l.*1 ++ [k])%list
    end.
Proof.
  induction l as [|[n w] l IH]; [done|]. cbn.
  destruct (String.eqb_spec n k) as [->|Hne]; [done|].
  cbn. rewrite IH. by destruct (lookup_field k l).
Qed.

Lemma lookup_field_None k l : lookup_field k l = None <-> k ∉ l.*1.
Proof.
  induction l as [|[n w] l IH]; cbn.
  - split; [|done]. intros _ Hin. by apply elem_of_nil in Hin.
  - rewrite not_elem_of_cons.
    destruct (String.eqb_spec n k) as [->|Hne].
    + split; [done|]. intros [? _]. done.
    + rewrite IH. split; [|by intros [_ ?]]. intros ?. split; [|done]. congruence.
Qed.

Lemma fold_set_names (ps : list (string * Q)) (o : Object) :
  NoDup ps.*1 ->
  (forall k, k ∈ ps.*1 -> field k o = None) ->
  (objFields (fold_left (fun obj p => set p.1 (VFloat p.2) obj) ps o)).*1
  = ((objFields o).*1 ++ ps.*1)%list.
Proof.
  revert o. induction ps as [|[k v] ps IH]; intros o Hnd Hnew.
  - cbn. by rewrite app_nil_r.
  - cbn [fold_left fmap list_fmap fst snd] in *.
    apply NoDup_cons in Hnd as [Hk Hnd].
    rewrite IH; [|done|].
    + unfold set. cbn [objFields]. rewrite set_field_names.
      pose proof (Hnew k (list_elem_of_here _ _)) as Hk0. unfold field in Hk0.
      rewrite Hk0. by rewrite <- app_assoc.
    + intros k' Hin. rewrite field_set_ne.
      * apply Hnew. by apply elem_of_cons; right.
      * intros ->. contradiction.
Qed.
End SerializeCount.

(** X21.  When every key of the gain map begins with "gain.", the object
    that [serialize] builds has exactly one field per scalar setting and
    one per gain entry: eleven fields plus the size of the gain map, all
    with different names, the scalar settings first. *)
Theorem serialize_one_field_per_entry (c : PanoramicDialogConfig.t) :
  PanoramicDialogConfig.gain_keys_prefixed c ->
  Suscan.getFieldCount (PanoramicDialogConfig.serialize c)
  = (11 + size (PanoramicDialogConfig.gains c))%nat
  /\ NoDup (Suscan.objFields (PanoramicDialogConfig.serialize c)).*1
  /\ take 11 (Suscan.objFields (PanoramicDialogConfig.serialize c)).*1
     = ["fullRange"; "rangeMin"; "rangeMax"; "panRangeMin"; "panRangeMax";
        "lnbFreq"; "sampRate"; "device"; "strategy"; "partitioning"; "palette"].
Proof.
  intros Hc.
  assert (Hnames :
    (Suscan.objFields (PanoramicDialogConfig.serialize c)).*1
    = (["fullRange"; "rangeMin"; "rangeMax"; "panRangeMin"; "panRangeMax";
        "lnbFreq"; "sampRate"; "device"; "strategy"; "partitioning"; "palette"]
       ++ (map_to_list (PanoramicDialogConfig.gains c)).*1)%list).
  { unfold PanoramicDialogConfig.serialize. rewrite fold_set_names.
    - reflexivity.
    - apply NoDup_fst_map_to_list.
    - intros k Hin. apply field_store_fields_gain_key, Hc.
      apply list_elem_of_fmap in Hin as ([k' v] & -> & Hin).
      apply elem_of_map_to_list in Hin. cbn. eauto. }
  split; [|split].
  - unfold Suscan.getFieldCount.
    rewrite <- (length_fmap fst), Hnames, length_app, length_fmap.
    by rewrite length_map_to_list.
  - rewrite Hnames. apply NoDup_app. split; [|split].
    + repeat (apply NoDup_cons; split;
              [rewrite ?not_elem_of_cons, ?elem_of_nil; intuition discriminate|]).
      apply NoDup_nil_2.
    + intros k Hk Hin.
      apply list_elem_of_fmap in Hin as ([k' v] & -> & Hin).
      apply elem_of_map_to_list in Hin. cbn in Hk.
      assert (Hg : PanoramicDialogConfig.is_gain_key k' = true)
        by (apply Hc; eauto).
      repeat (apply elem_of_cons in Hk as [->|Hk]; [by vm_compute in Hg|]).
      by apply elem_of_nil in Hk.
    + apply NoDup_fst_map_to_list.
  - rewrite Hnames. reflexivity.
Qed.

Lemma serialize_one_field_per_entry_witness :
  Suscan.getFieldCount (PanoramicDialogConfig.serialize sample_config_lna)
  = (11 + size (PanoramicDialogConfig.gains sample_config_lna))%nat.
Proof.
  apply (serialize_one_field_per_entry sample_config_lna).
  apply gain_keys_prefixed_setGain. intros k [v Hk]. by vm_compute in Hk.
Defined.

(** ** PanoramicDialog: frames and the waterfall range *)

Section FeedProofs.
Import PanoramicDialog.

Lemma setWfRange_frame a b d :
  freqStart (setWfRange a b d) = freqStart d
  /\ freqEnd (setWfRange a b d) = freqEnd d
  /\ frames (setWfRange a b d) = frames d
  /\ minBwForZoom (setWfRange a b d) = minBwForZoom d
  /\ fixedFreqMode (setWfRange a b d) = fixedFreqMode d
  /\ currBw (setWfRange a b d)
     = (if fixedFreqMode d then to_qint64 (minBwForZoom d) else b - a).
Proof.
  unfold setWfRange, wf_setCenterFreq. cbn.
  destruct (fixedFreqMode d) eqn:Hf; cbn; case_bool_decide as Hbw; cbn;
    rewrite ?Hf; repeat split; try done.
Qed.

Lemma feed_same_range fs fe buf size d :
  freqStart d = fs -> freqEnd d = fe ->
  log (feed fs fe buf size d)
  = (log d ++ [WfSetNewFftData buf (to_int (Z.of_nat size))])%list
  /\ waterfall (ui (feed fs fe buf size d)) = waterfall (ui d)
  /\ currBw (feed fs fe buf size d) = currBw d.
Proof.
  intros Hs He. unfold feed.
  rewrite !bool_decide_eq_false_2 by (intros Hc; by apply Hc).
  cbn. done.
Qed.

Lemma feed_range fs fe buf size d :
  freqStart (feed fs fe buf size d) = fs
  /\ freqEnd (feed fs fe buf size d) = fe
  /\ frames (feed fs fe buf size d) = frames d + 1
  /\ exportButtonEnabled (ui (feed fs fe buf size d)) = true.
Proof.
  unfold feed.
  destruct (bool_decide (freqStart d ≠ fs) || bool_decide (freqEnd d ≠ fe)) eqn:E.
  - cbv zeta.
    destruct (setWfRange_frame (to_qint64 fs) (to_qint64 fe)
                (with_adjustingRange true (with_freqRange fs fe d)))
      as (H1 & H2 & H3 & _).
    cbn. rewrite H1, H2, H3. done.
  - apply orb_false_iff in E as [E1 E2].
    apply bool_decide_eq_false in E1, E2.
    cbn. repeat split; try done.
    + destruct (decide (freqStart d = fs)); [done|contradiction].
    + destruct (decide (freqEnd d = fe)); [done|contradiction].
Qed.
End FeedProofs.

(** X22.  [feed] counts every frame and enables the export button, and
    it sets the waterfall range only when the range of the frame differs
    from that of the previous one: after any frame, a further frame with
    the same range forwards its samples to the waterfall and does nothing
    else to it. *)
Theorem feed_same_range_only_forwards_data (fs fe : Z) (buf buf' : list SUFLOAT)
    (size size' : nat) (d : PanoramicDialog.t) :
  let d1 := PanoramicDialog.feed fs fe buf size d in
  let d2 := PanoramicDialog.feed fs fe buf' size' d1 in
  PanoramicDialog.frames d1 = PanoramicDialog.frames d + 1
  /\ PanoramicDialog.exportButtonEnabled (PanoramicDialog.ui d1) = true
  /\ PanoramicDialog.log d2
     = (PanoramicDialog.log d1
        ++ [PanoramicDialog.WfSetNewFftData buf' (to_int (Z.of_nat size'))])%list
  /\ PanoramicDialog.waterfall (PanoramicDialog.ui d2)
     = PanoramicDialog.waterfall (PanoramicDialog.ui d1)
  /\ PanoramicDialog.currBw d2 = PanoramicDialog.currBw d1
  /\ PanoramicDialog.frames d2 = PanoramicDialog.frames d + 2.
Proof.
  cbv zeta.
  destruct (feed_range fs fe buf size d) as (Hs & He & Hf & Hx).
  destruct (feed_same_range fs fe buf' size' _ Hs He) as (Hl & Hw & Hb).
  destruct (feed_range fs fe buf' size' (PanoramicDialog.feed fs fe buf size d))
    as (_ & _ & Hf2 & _).
  rewrite Hf2, Hf. repeat split; try done. lia.
Qed.


(** ** PanoramicDialog: the placeholder of the gain panel *)

Section PlaceholderProofs.
Import Source PanoramicDialog.

Lemma noGainLabel_clearGain_fold ixs d :
  noGainLabel (fold_left clearGain ixs d) = noGainLabel d.
Proof.
  revert d. induction ixs as [|i ixs IH]; intros d; [done|].
  cbn [fold_left]. rewrite IH. unfold clearGain. cbn.
  by destruct (gainControls d !! i).
Qed.

Lemma noGainLabel_clearGains d :
  (gainControls d <> [] -> noGainLabel d = None) ->
  noGainLabel (clearGains d) = None.
Proof.
  intros Hinv. unfold clearGains.
  destruct (length (gainControls d) =? 0)%nat eqn:Hlen.
  - cbn. by destruct (noGainLabel d) eqn:E; cbn.
  - cbn. rewrite noGainLabel_clearGain_fold. apply Hinv.
    intros Hnil. rewrite Hnil in Hlen. done.
Qed.
End PlaceholderProofs.

(** X24.  The placeholder label of the gain panel and the gain controls
    exclude each other.  If the dialog has no placeholder whenever it has
    controls, then after [refreshGains] the placeholder "(device has no
    gains)" is present exactly when the device has no gains, and the
    dialog again has no placeholder whenever it has controls; the number
    of controls is the number of gains of the device. *)
Theorem refreshGains_placeholder_iff_no_gains (device : Source.Device)
    (d : PanoramicDialog.t) :
  (PanoramicDialog.gainControls d <> [] -> PanoramicDialog.noGainLabel d = None) ->
  let d' := PanoramicDialog.refreshGains device d in
  PanoramicDialog.noGainLabel d'
  = (if decide (Source.devGains device = []) then Some "(device has no gains)"
     else None)
  /\ length (PanoramicDialog.gainControls d') = length (Source.devGains device)
  /\ (PanoramicDialog.gainControls d' <> [] -> PanoramicDialog.noGainLabel d' = None).
Proof.
  intros Hinv. cbv zeta.
  assert (Hlabel :
    PanoramicDialog.noGainLabel (PanoramicDialog.refreshGains device d)
    = if decide (Source.devGains device = []) then Some "(device has no gains)"
      else None).
  { unfold PanoramicDialog.refreshGains. cbv zeta.
    destruct (addGain_fold_effects device (Source.devGains device)
                (PanoramicDialog.clearGains d)) as (Hg & _ & _ & Hl).
    destruct (clearGains_effects d) as (Hg0 & _).
    rewrite Hg0 in Hg. cbn [app] in Hg.
    rewrite Hg, length_map.
    destruct (decide (Source.devGains device = [])) as [Hnil|Hne].
    - by rewrite Hnil.
    - destruct (length (Source.devGains device) =? 0)%nat eqn:Hlen.
      + apply Nat.eqb_eq, nil_length_inv in Hlen. contradiction.
      + cbn. rewrite Hl. by apply noGainLabel_clearGains. }
  assert (Hlen :
    length (PanoramicDialog.gainControls (PanoramicDialog.refreshGains device d))
    = length (Source.devGains device)).
  { unfold PanoramicDialog.refreshGains. cbv zeta.
    destruct (addGain_fold_effects device (Source.devGains device)
                (PanoramicDialog.clearGains d)) as (Hg & _).
    destruct (clearGains_effects d) as (Hg0 & _).
    rewrite Hg0 in Hg. cbn [app] in Hg.
    destruct (_ =? _)%nat; cbn; by rewrite Hg, length_map. }
  split; [exact Hlabel|]. split; [exact Hlen|].
  intros Hne. rewrite Hlabel.
  destruct (decide (Source.devGains device = [])) as [Hnil|]; [|done].
  rewrite Hnil in Hlen. apply nil_length_inv in Hlen. contradiction.
Qed.

Lemma refreshGains_placeholder_witness :
  PanoramicDialog.noGainLabel
    (PanoramicDialog.refreshGains null_device sample_dialog_gains)
  = Some "(device has no gains)".
Proof.
  apply (refreshGains_placeholder_iff_no_gains null_device sample_dialog_gains).
  reflexivity.
Defined.
